(** * The data-access layer, the quest board and the favourite/report flows

    A shallow embedding of [server/db.ts] (the data-access layer over the D1
    store), of the environment getter [ENV.ownerOpenIds], of the status
    handling of the two quest pages and of the client handlers that guard the
    close and report flows.

    Conventions.
    - JavaScript numbers that hold row ids and millisecond timestamps are [Z].
    - A table is the list of its rows in rowid (scan) order.
    - [undefined] is [None]; a nullable text column is [option string] with
      [None] for SQL NULL; a field that may be [undefined], [null] or a string
      is [option (option string)].
    - A function of [db.ts] takes the module state as its last argument and
      returns its completion (a value or a thrown error) together with the
      new module state.
    - [Date.now()] is read once per call and passed as the argument [now]. *)

From Stdlib Require Import ZArith List String Ascii Bool Lia.
From Stdlib Require Import Sorting.Sorted Sorting.Permutation.
Import ListNotations.

Local Open Scope string_scope.
Local Open Scope Z_scope.

(** ** Completions *)

Inductive SqlError : Type :=
| UniqueConstraint
| ForeignKeyConstraint.

Inductive TrpcCode : Type :=
| NOT_FOUND
| FORBIDDEN
| BAD_REQUEST.

Inductive Error : Type :=
| DatabaseNotAvailable          (* new Error("Database not available") *)
| OpenIdRequired                (* new Error("User openId is required for upsert") *)
| Sql (e : SqlError)            (* a statement rejected by the store *)
| Trpc (c : TrpcCode).          (* an error raised by a procedure *)

Inductive Result (A : Type) : Type :=
| Ok (a : A)
| Throw (e : Error).

Arguments Ok {A} a.
Arguments Throw {A} e.

(** ** Schema (drizzle/schema.ts, drizzle/schema.d1.sql) *)

Inductive Role : Type := RoleUser | RoleAdmin.

Record User : Type := mkUser {
  users_id : Z;
  users_openId : string;
  users_name : option string;
  users_email : option string;
  users_avatarUrl : option string;
  users_loginMethod : option string;
  users_role : Role;
  users_createdAt : Z;
  users_updatedAt : Z;
  users_lastSignedIn : Z
}.

Inductive Category : Type := prompt | automation | tools | business.

Record CaseStudy : Type := mkCaseStudy {
  caseStudies_id : Z;
  caseStudies_userId : Z;
  caseStudies_title : string;
  caseStudies_description : string;
  caseStudies_thumbnailUrl : option string;
  caseStudies_thumbnailKey : option string;
  caseStudies_category : Category;
  caseStudies_tools : string;
  caseStudies_challenge : string;
  caseStudies_solution : string;
  caseStudies_steps : string;
  caseStudies_impact : option string;
  caseStudies_tags : string;
  caseStudies_isRecommended : Z;
  caseStudies_createdAt : Z;
  caseStudies_updatedAt : Z
}.

Record Favorite : Type := mkFavorite {
  favorites_id : Z;
  favorites_userId : Z;
  favorites_caseStudyId : Z;
  favorites_createdAt : Z
}.

Record Report : Type := mkReport {
  reports_id : Z;
  reports_userId : Z;
  reports_caseStudyId : Z;
  reports_createdAt : Z
}.

(** The status column is free text in the store (schema.d1.sql); the four-state
    and the two-state readings of it live in the clients. *)
Record Quest : Type := mkQuest {
  quests_id : Z;
  quests_userId : Z;
  quests_title : string;
  quests_content : string;
  quests_status : string;
  quests_solvedAnswerId : option Z;
  quests_solverUserId : option Z;
  quests_createdAt : Z;
  quests_updatedAt : Z;
  quests_closedAt : option Z
}.

Record QuestAnswer : Type := mkQuestAnswer {
  questAnswers_id : Z;
  questAnswers_questId : Z;
  questAnswers_userId : Z;
  questAnswers_content : string;
  questAnswers_createdAt : Z;
  questAnswers_updatedAt : Z
}.

(** Insert shapes ([$inferInsert]): columns with a default are optional. *)

Record InsertUser : Type := mkInsertUser {
  iu_openId : string;
  iu_name : option (option string);
  iu_email : option (option string);
  iu_avatarUrl : option (option string);
  iu_loginMethod : option (option string);
  iu_role : option Role;
  iu_lastSignedIn : option Z
}.

Record InsertCaseStudy : Type := mkInsertCaseStudy {
  ics_id : option Z;
  ics_userId : Z;
  ics_title : string;
  ics_description : string;
  ics_thumbnailUrl : option string;
  ics_thumbnailKey : option string;
  ics_category : Category;
  ics_tools : string;
  ics_challenge : string;
  ics_solution : string;
  ics_steps : string;
  ics_impact : option string;
  ics_tags : string;
  ics_isRecommended : option Z;
  ics_createdAt : option Z;
  ics_updatedAt : option Z
}.

Record InsertFavorite : Type := mkInsertFavorite {
  ifv_id : option Z;
  ifv_userId : Z;
  ifv_caseStudyId : Z;
  ifv_createdAt : option Z
}.

Record InsertReport : Type := mkInsertReport {
  irp_id : option Z;
  irp_userId : Z;
  irp_caseStudyId : Z;
  irp_createdAt : option Z
}.

Record InsertQuest : Type := mkInsertQuest {
  iq_id : option Z;
  iq_userId : Z;
  iq_title : string;
  iq_content : string;
  iq_status : option string;
  iq_solvedAnswerId : option Z;
  iq_solverUserId : option Z;
  iq_createdAt : option Z;
  iq_updatedAt : option Z;
  iq_closedAt : option Z
}.

Record InsertQuestAnswer : Type := mkInsertQuestAnswer {
  iqa_id : option Z;
  iqa_questId : Z;
  iqa_userId : Z;
  iqa_content : string;
  iqa_createdAt : option Z;
  iqa_updatedAt : option Z
}.

(** ** The store *)

(** One D1 database: the six tables, the AUTOINCREMENT high-water mark of each
    (sqlite_sequence) and whether the engine enforces the REFERENCES clauses. *)
Record Store : Type := mkStore {
  foreign_keys : bool;
  users : list User;             seq_users : Z;
  caseStudies : list CaseStudy;  seq_caseStudies : Z;
  favorites : list Favorite;     seq_favorites : Z;
  reports : list Report;         seq_reports : Z;
  quests : list Quest;           seq_quests : Z;
  questAnswers : list QuestAnswer; seq_questAnswers : Z
}.

Definition with_users (s : Store) (l : list User) (q : Z) : Store :=
  mkStore (foreign_keys s) l q
          (caseStudies s) (seq_caseStudies s) (favorites s) (seq_favorites s)
          (reports s) (seq_reports s) (quests s) (seq_quests s)
          (questAnswers s) (seq_questAnswers s).

Definition with_caseStudies (s : Store) (l : list CaseStudy) (q : Z) : Store :=
  mkStore (foreign_keys s) (users s) (seq_users s) l q
          (favorites s) (seq_favorites s)
          (reports s) (seq_reports s) (quests s) (seq_quests s)
          (questAnswers s) (seq_questAnswers s).

Definition with_favorites (s : Store) (l : list Favorite) (q : Z) : Store :=
  mkStore (foreign_keys s) (users s) (seq_users s)
          (caseStudies s) (seq_caseStudies s) l q
          (reports s) (seq_reports s) (quests s) (seq_quests s)
          (questAnswers s) (seq_questAnswers s).

Definition with_reports (s : Store) (l : list Report) (q : Z) : Store :=
  mkStore (foreign_keys s) (users s) (seq_users s)
          (caseStudies s) (seq_caseStudies s) (favorites s) (seq_favorites s)
          l q (quests s) (seq_quests s)
          (questAnswers s) (seq_questAnswers s).

Definition with_quests (s : Store) (l : list Quest) (q : Z) : Store :=
  mkStore (foreign_keys s) (users s) (seq_users s)
          (caseStudies s) (seq_caseStudies s) (favorites s) (seq_favorites s)
          (reports s) (seq_reports s) l q
          (questAnswers s) (seq_questAnswers s).

Definition with_questAnswers (s : Store) (l : list QuestAnswer) (q : Z) : Store :=
  mkStore (foreign_keys s) (users s) (seq_users s)
          (caseStudies s) (seq_caseStudies s) (favorites s) (seq_favorites s)
          (reports s) (seq_reports s) (quests s) (seq_quests s) l q.

(** *** Engine primitives *)

(** [(unixepoch() * 1000)]: the column default has one-second resolution. *)
Definition nowMs (now : Z) : Z := (now / 1000) * 1000.

Definition orElse {A : Type} (o : option A) (d : A) : A :=
  match o with Some a => a | None => d end.

Definition max_id (ids : list Z) : Z := fold_right Z.max 0 ids.

Definition has_id (ids : list Z) (i : Z) : bool := existsb (Z.eqb i) ids.

(** The rowid of a new row of an AUTOINCREMENT table: the supplied one when it
    is free, otherwise one more than the largest rowid the table ever had. *)
Definition new_rowid (explicit : option Z) (seq : Z) (ids : list Z) : Result Z :=
  match explicit with
  | Some i => if has_id ids i then Throw (Sql UniqueConstraint) else Ok i
  | None => Ok (Z.max seq (max_id ids) + 1)
  end.

(** A REFERENCES clause: checked only when the engine enforces foreign keys. *)
Definition fk_ok (s : Store) (parents : list Z) (i : Z) : bool :=
  negb (foreign_keys s) || has_id parents i.

(** ORDER BY on an integer column.  Rows with equal keys keep their scan
    order (SQL leaves their order open). *)
Section OrderBy.
Context {A : Type} (le : A -> A -> bool).

Fixpoint place (x : A) (l : list A) : list A :=
  match l with
  | [] => [x]
  | y :: l' => if le x y then x :: y :: l' else y :: place x l'
  end.

Fixpoint orderBy (l : list A) : list A :=
  match l with
  | [] => []
  | x :: l' => place x (orderBy l')
  end.
End OrderBy.

Definition asc {A : Type} (key : A -> Z) (x y : A) : bool := key x <=? key y.
Definition desc {A : Type} (key : A -> Z) (x y : A) : bool := key y <=? key x.

(** [.limit(1)] followed by [result.length > 0 ? result[0] : undefined]. *)
Definition first_row {A : Type} (l : list A) : option A := hd_error (firstn 1 l).

(** *** Statements *)

Definition same_pair (u c u' c' : Z) : bool := (u' =? u) && (c' =? c).

(** [INSERT INTO favorites]: primary key, the unique index
    [favorites_user_case_unique] and the two REFERENCES clauses. *)
Definition insert_favorites (s : Store) (d : InsertFavorite) (now : Z) : Result Store :=
  match new_rowid (ifv_id d) (seq_favorites s) (map favorites_id (favorites s)) with
  | Throw e => Throw e
  | Ok i =>
    if existsb (fun f => same_pair (ifv_userId d) (ifv_caseStudyId d)
                                   (favorites_userId f) (favorites_caseStudyId f))
               (favorites s)
    then Throw (Sql UniqueConstraint)
    else if fk_ok s (map users_id (users s)) (ifv_userId d)
            && fk_ok s (map caseStudies_id (caseStudies s)) (ifv_caseStudyId d)
    then Ok (with_favorites s
               (place (asc favorites_id)
                      (mkFavorite i (ifv_userId d) (ifv_caseStudyId d)
                                  (orElse (ifv_createdAt d) (nowMs now)))
                      (favorites s))
               (Z.max (seq_favorites s) i))
    else Throw (Sql ForeignKeyConstraint)
  end.

(** [INSERT INTO reports]: primary key, the unique index
    [reports_user_case_unique] and the two REFERENCES clauses. *)
Definition insert_reports (s : Store) (d : InsertReport) (now : Z) : Result Store :=
  match new_rowid (irp_id d) (seq_reports s) (map reports_id (reports s)) with
  | Throw e => Throw e
  | Ok i =>
    if existsb (fun r => same_pair (irp_userId d) (irp_caseStudyId d)
                                   (reports_userId r) (reports_caseStudyId r))
               (reports s)
    then Throw (Sql UniqueConstraint)
    else if fk_ok s (map users_id (users s)) (irp_userId d)
            && fk_ok s (map caseStudies_id (caseStudies s)) (irp_caseStudyId d)
    then Ok (with_reports s
               (place (asc reports_id)
                      (mkReport i (irp_userId d) (irp_caseStudyId d)
                                (orElse (irp_createdAt d) (nowMs now)))
                      (reports s))
               (Z.max (seq_reports s) i))
    else Throw (Sql ForeignKeyConstraint)
  end.

Definition row_of_InsertCaseStudy (i : Z) (d : InsertCaseStudy) (now : Z) : CaseStudy :=
  mkCaseStudy i (ics_userId d) (ics_title d) (ics_description d)
              (ics_thumbnailUrl d) (ics_thumbnailKey d) (ics_category d)
              (ics_tools d) (ics_challenge d) (ics_solution d) (ics_steps d)
              (ics_impact d) (ics_tags d)
              (orElse (ics_isRecommended d) 0)
              (orElse (ics_createdAt d) (nowMs now))
              (orElse (ics_updatedAt d) (nowMs now)).

Definition insert_caseStudies (s : Store) (d : InsertCaseStudy) (now : Z) : Result Store :=
  match new_rowid (ics_id d) (seq_caseStudies s) (map caseStudies_id (caseStudies s)) with
  | Throw e => Throw e
  | Ok i =>
    if fk_ok s (map users_id (users s)) (ics_userId d)
    then Ok (with_caseStudies s
               (place (asc caseStudies_id) (row_of_InsertCaseStudy i d now) (caseStudies s))
               (Z.max (seq_caseStudies s) i))
    else Throw (Sql ForeignKeyConstraint)
  end.

Definition row_of_InsertQuest (i : Z) (d : InsertQuest) (now : Z) : Quest :=
  mkQuest i (iq_userId d) (iq_title d) (iq_content d)
          (orElse (iq_status d) "open")
          (iq_solvedAnswerId d) (iq_solverUserId d)
          (orElse (iq_createdAt d) (nowMs now))
          (orElse (iq_updatedAt d) (nowMs now))
          (iq_closedAt d).

Definition insert_quests (s : Store) (d : InsertQuest) (now : Z) : Result Store :=
  match new_rowid (iq_id d) (seq_quests s) (map quests_id (quests s)) with
  | Throw e => Throw e
  | Ok i =>
    if fk_ok s (map users_id (users s)) (iq_userId d)
    then Ok (with_quests s
               (place (asc quests_id) (row_of_InsertQuest i d now) (quests s))
               (Z.max (seq_quests s) i))
    else Throw (Sql ForeignKeyConstraint)
  end.

Definition row_of_InsertQuestAnswer (i : Z) (d : InsertQuestAnswer) (now : Z) : QuestAnswer :=
  mkQuestAnswer i (iqa_questId d) (iqa_userId d) (iqa_content d)
                (orElse (iqa_createdAt d) (nowMs now))
                (orElse (iqa_updatedAt d) (nowMs now)).

Definition insert_questAnswers (s : Store) (d : InsertQuestAnswer) (now : Z) : Result Store :=
  match new_rowid (iqa_id d) (seq_questAnswers s) (map questAnswers_id (questAnswers s)) with
  | Throw e => Throw e
  | Ok i =>
    if fk_ok s (map quests_id (quests s)) (iqa_questId d)
       && fk_ok s (map users_id (users s)) (iqa_userId d)
    then Ok (with_questAnswers s
               (place (asc questAnswers_id) (row_of_InsertQuestAnswer i d now) (questAnswers s))
               (Z.max (seq_questAnswers s) i))
    else Throw (Sql ForeignKeyConstraint)
  end.

(** [DELETE FROM t WHERE p]: the rows that do not satisfy [p] remain. *)
Definition delete_where {A : Type} (p : A -> bool) (l : list A) : list A :=
  filter (fun r => negb (p r)) l.

(** [DELETE FROM case_studies WHERE id = ?]; with foreign keys enforced the
    ON DELETE CASCADE clauses of favorites and reports fire as well. *)
Definition delete_caseStudies_by_id (s : Store) (id : Z) : Store :=
  let s1 := with_caseStudies s
              (delete_where (fun c => caseStudies_id c =? id) (caseStudies s))
              (seq_caseStudies s) in
  if foreign_keys s
  then with_reports
         (with_favorites s1
            (delete_where (fun f => favorites_caseStudyId f =? id) (favorites s1))
            (seq_favorites s1))
         (delete_where (fun r => reports_caseStudyId r =? id) (reports s1))
         (seq_reports s1)
  else s1.

(** ** Module state of db.ts *)

(** [_db] is the drizzle handle; it is held here together with the database it
    is bound to.  [_dbBinding] is set by [initDb] whenever [_db] is, so the
    test [!_dbBinding] of the ensure-helpers is the test that [_db] is null. *)
Record World : Type := mkWorld {
  _db : option Store;
  _avatarColumnEnsured : bool;
  _reportsTableEnsured : bool;
  _questTablesEnsured : bool
}.

Definition with_db (w : World) (s : Store) : World :=
  mkWorld (Some s) (_avatarColumnEnsured w) (_reportsTableEnsured w)
          (_questTablesEnsured w).


(** The ALTER TABLE of [ensureAvatarColumn] touches no row. *)
Definition ensureAvatarColumn (w : World) : World :=
  match _db w with
  | None => w
  | Some _ =>
    if _avatarColumnEnsured w then w
    else mkWorld (_db w) true (_reportsTableEnsured w) (_questTablesEnsured w)
  end.

(** CREATE TABLE / INDEX IF NOT EXISTS of [ensureReportsTable] touch no row. *)
Definition ensureReportsTable (w : World) : World :=
  match _db w with
  | None => w
  | Some _ =>
    if _reportsTableEnsured w then w
    else mkWorld (_db w) (_avatarColumnEnsured w) true (_questTablesEnsured w)
  end.

(** [UPDATE quests SET status = 'unsolved' WHERE status = 'closed'] *)
Definition backfill_status (q : Quest) : Quest :=
  if String.eqb (quests_status q) "closed"
  then mkQuest (quests_id q) (quests_userId q) (quests_title q) (quests_content q)
               "unsolved" (quests_solvedAnswerId q) (quests_solverUserId q)
               (quests_createdAt q) (quests_updatedAt q) (quests_closedAt q)
  else q.

(** Of the statements of [ensureQuestTables] only the backward-compatibility
    UPDATE changes rows; it runs once per module lifetime. *)
Definition ensureQuestTables (w : World) : World :=
  match _db w with
  | None => w
  | Some s =>
    if _questTablesEnsured w then w
    else mkWorld (Some (with_quests s (map backfill_status (quests s)) (seq_quests s)))
                 (_avatarColumnEnsured w) (_reportsTableEnsured w) true
  end.

Definition getDb (w : World) : option Store * World :=
  match _db w with
  | None => (None, w)
  | Some _ =>
    let w3 := ensureQuestTables (ensureReportsTable (ensureAvatarColumn w)) in
    (_db w3, w3)
  end.

(** ** Environment (server/_core/env.ts) *)

(** What [readEnv] returns for the two keys the owner allow-list is read from. *)
Record Env : Type := mkEnv {
  OWNER_OPEN_IDS : string;
  OWNER_OPEN_ID : string
}.

(** [value.split(",")] *)
Fixpoint split_comma (s : string) : list string :=
  match s with
  | EmptyString => [EmptyString]
  | String c s' =>
    if Ascii.eqb c ","%char then EmptyString :: split_comma s'
    else match split_comma s' with
         | [] => [String c EmptyString]
         | p :: ps => String c p :: ps
         end
  end.

(** White space and line terminators of [String.prototype.trim], on byte
    strings: TAB, LF, VT, FF, CR and SPACE. *)
Definition is_space (c : ascii) : bool :=
  let n := nat_of_ascii c in
  (Nat.eqb n 32 || (Nat.leb 9 n && Nat.leb n 13))%bool.

Fixpoint trimStart (s : string) : string :=
  match s with
  | EmptyString => EmptyString
  | String c s' => if is_space c then trimStart s' else s
  end.

Fixpoint trimEnd (s : string) : string :=
  match s with
  | EmptyString => EmptyString
  | String c s' =>
    match trimEnd s' with
    | EmptyString => if is_space c then EmptyString else String c EmptyString
    | t => String c t
    end
  end.

Definition trim (s : string) : string := trimEnd (trimStart s).

(** JavaScript truthiness of a string. *)
Definition truthy (s : string) : bool :=
  match s with EmptyString => false | _ => true end.

Definition parseCsvList (value : string) : list string :=
  filter truthy (map trim (split_comma value)).

Definition ownerOpenIds (env : Env) : list string :=
  match parseCsvList (OWNER_OPEN_IDS env) with
  | (_ :: _) as fromList => fromList
  | [] =>
    let single := trim (OWNER_OPEN_ID env) in
    if truthy single then [single] else []
  end.

(** [Array.prototype.includes] on strings. *)
Definition includes (l : list string) (x : string) : bool :=
  existsb (String.eqb x) l.

(** ** Users *)

(** The two objects [upsertUser] builds: [values] and [updateSet].  A field
    that was not assigned is [None]. *)
Record UserFields : Type := mkUserFields {
  uf_name : option (option string);
  uf_email : option (option string);
  uf_avatarUrl : option (option string);
  uf_loginMethod : option (option string);
  uf_lastSignedIn : option Z;
  uf_role : option Role
}.

Definition is_some {A : Type} (o : option A) : bool :=
  match o with Some _ => true | None => false end.

(** [Object.keys(updateSet).length === 0] *)
Definition no_keys (f : UserFields) : bool :=
  negb (is_some (uf_name f) || is_some (uf_email f) || is_some (uf_avatarUrl f)
        || is_some (uf_loginMethod f) || is_some (uf_lastSignedIn f)
        || is_some (uf_role f)).

(** [ON CONFLICT (openId) DO UPDATE SET updateSet] on the conflicting row. *)
Definition apply_updateSet (f : UserFields) (u : User) : User :=
  mkUser (users_id u) (users_openId u)
         (orElse (uf_name f) (users_name u))
         (orElse (uf_email f) (users_email u))
         (orElse (uf_avatarUrl f) (users_avatarUrl u))
         (orElse (uf_loginMethod f) (users_loginMethod u))
         (orElse (uf_role f) (users_role u))
         (users_createdAt u) (users_updatedAt u)
         (orElse (uf_lastSignedIn f) (users_lastSignedIn u)).

(** The row [INSERT INTO users ... VALUES values] creates, defaults filled in. *)
Definition row_of_values (i : Z) (openId : string) (f : UserFields) (now : Z) : User :=
  mkUser i openId
         (orElse (uf_name f) None) (orElse (uf_email f) None)
         (orElse (uf_avatarUrl f) None) (orElse (uf_loginMethod f) None)
         (orElse (uf_role f) RoleUser)
         (nowMs now) (nowMs now)
         (orElse (uf_lastSignedIn f) (nowMs now)).

Definition upsert_users (s : Store) (openId : string) (values updateSet : UserFields)
    (now : Z) : Store :=
  if existsb (fun u => String.eqb (users_openId u) openId) (users s)
  then with_users s
         (map (fun u => if String.eqb (users_openId u) openId
                        then apply_updateSet updateSet u else u) (users s))
         (seq_users s)
  else
    let i := Z.max (seq_users s) (max_id (map users_id (users s))) + 1 in
    with_users s (place (asc users_id) (row_of_values i openId values now) (users s))
               (Z.max (seq_users s) i).

Definition upsertUser (env : Env) (user : InsertUser) (now : Z) (w : World)
  : Result unit * World :=
  if negb (truthy (iu_openId user)) then (Throw OpenIdRequired, w)
  else
    let (db, w) := getDb w in
    match db with
    | None => (Ok tt, w)
    | Some s =>
      let role :=
        match iu_role user with
        | Some r => Some r
        | None => if includes (ownerOpenIds env) (iu_openId user)
                  then Some RoleAdmin else None
        end in
      let assigned :=
        mkUserFields (iu_name user) (iu_email user) (iu_avatarUrl user)
                     (iu_loginMethod user) (iu_lastSignedIn user) role in
      let values :=
        mkUserFields (uf_name assigned) (uf_email assigned) (uf_avatarUrl assigned)
                     (uf_loginMethod assigned)
                     (match uf_lastSignedIn assigned with
                      | Some t => if t =? 0 then Some now else Some t
                      | None => Some now
                      end)
                     (uf_role assigned) in
      let updateSet :=
        if no_keys assigned
        then mkUserFields None None None None (Some now) None
        else assigned in
      (Ok tt, with_db w (upsert_users s (iu_openId user) values updateSet now))
    end.

Definition getUserByOpenId (openId : string) (w : World)
  : Result (option User) * World :=
  let (db, w) := getDb w in
  match db with
  | None => (Ok None, w)
  | Some s =>
    (Ok (first_row (filter (fun u => String.eqb (users_openId u) openId) (users s))), w)
  end.

Record UserPublic : Type := mkUserPublic {
  up_id : Z;
  up_name : option string;
  up_avatarUrl : option string;
  up_createdAt : Z
}.

Definition getUserPublicById (userId : Z) (w : World)
  : Result (option UserPublic) * World :=
  let (db, w) := getDb w in
  match db with
  | None => (Ok None, w)
  | Some s =>
    (Ok (first_row
           (map (fun u => mkUserPublic (users_id u) (users_name u)
                                       (users_avatarUrl u) (users_createdAt u))
                (filter (fun u => users_id u =? userId) (users s)))), w)
  end.

(** ** Joins and counts *)

(** [FROM t LEFT JOIN users ON t.user_id = users.id]: a row without a
    matching user is kept once, with the user columns NULL. *)
Definition leftJoin_users {A : Type} (uid : A -> Z) (us : list User) (l : list A)
  : list (A * option User) :=
  flat_map (fun r =>
              match filter (fun u => uid r =? users_id u) us with
              | [] => [(r, None)]
              | m => map (fun u => (r, Some u)) m
              end) l.

Definition joined_name (ou : option User) : option string :=
  match ou with Some u => users_name u | None => None end.

Definition joined_avatarUrl (ou : option User) : option string :=
  match ou with Some u => users_avatarUrl u | None => None end.

(** [Map<number, number>] *)
Definition NumMap : Type := Z -> option Z.
Definition Map_empty : NumMap := fun _ => None.
Definition Map_get (m : NumMap) (k : Z) : option Z := m k.
Definition Map_set (m : NumMap) (k v : Z) : NumMap :=
  fun k' => if k' =? k then Some v else m k'.

(** [for (const row of rows) m.set(key, (m.get(key) ?? 0) + 1)] *)
Definition count_by (keys : list Z) : NumMap :=
  fold_left (fun m k => Map_set m k (orElse (Map_get m k) 0 + 1)) keys Map_empty.

(** ** Case studies *)

Record CaseStudyListRow : Type := mkCaseStudyListRow {
  cl_caseStudy : CaseStudy;
  cl_authorName : option string;
  cl_authorAvatarUrl : option string;
  cl_reportCount : Z
}.

Definition getAllCaseStudies (w : World) : Result (list CaseStudyListRow) * World :=
  let (db, w) := getDb w in
  match db with
  | None => (Ok [], w)
  | Some s =>
    let casesResult :=
      orderBy (asc (fun row => caseStudies_createdAt (fst row)))
              (leftJoin_users caseStudies_userId (users s) (caseStudies s)) in
    let reportCountByCaseId := count_by (map reports_caseStudyId (reports s)) in
    (Ok (map (fun row =>
                mkCaseStudyListRow
                  (fst row) (joined_name (snd row)) (joined_avatarUrl (snd row))
                  (orElse (Map_get reportCountByCaseId (caseStudies_id (fst row))) 0))
             casesResult), w)
  end.

Definition getCaseStudyById (id : Z) (w : World) : Result (option CaseStudy) * World :=
  let (db, w) := getDb w in
  match db with
  | None => (Ok None, w)
  | Some s => (Ok (first_row (filter (fun c => caseStudies_id c =? id) (caseStudies s))), w)
  end.

(** [inserted?.id || 0] *)
Definition insertId_of (inserted : option Z) : Z :=
  match inserted with
  | Some i => if i =? 0 then 0 else i
  | None => 0
  end.

(** The lookup that follows the insert in [createCaseStudy]. *)
Definition last_caseStudy_of (s : Store) (userId : Z) : option CaseStudy :=
  first_row (orderBy (desc caseStudies_createdAt)
                     (filter (fun c => caseStudies_userId c =? userId) (caseStudies s))).

Definition createCaseStudy (data : InsertCaseStudy) (now : Z) (w : World)
  : Result Z * World :=
  let (db, w) := getDb w in
  match db with
  | None => (Throw DatabaseNotAvailable, w)
  | Some s =>
    match insert_caseStudies s data now with
    | Throw e => (Throw e, w)
    | Ok s' =>
      (Ok (insertId_of (option_map caseStudies_id (last_caseStudy_of s' (ics_userId data)))),
       with_db w s')
    end
  end.

Definition getUserCaseStudies (userId : Z) (w : World) : Result (list CaseStudy) * World :=
  let (db, w) := getDb w in
  match db with
  | None => (Ok [], w)
  | Some s =>
    (Ok (orderBy (asc caseStudies_createdAt)
                 (filter (fun c => caseStudies_userId c =? userId) (caseStudies s))), w)
  end.

(** ** Quests *)

Record QuestListRow : Type := mkQuestListRow {
  ql_quest : Quest;
  ql_authorName : option string;
  ql_authorAvatarUrl : option string;
  ql_answerCount : Z
}.

Definition getAllQuests (w : World) : Result (list QuestListRow) * World :=
  let (db, w) := getDb w in
  match db with
  | None => (Ok [], w)
  | Some s =>
    let questsResult :=
      orderBy (desc (fun row => quests_createdAt (fst row)))
              (leftJoin_users quests_userId (users s) (quests s)) in
    let answerCountByQuestId := count_by (map questAnswers_questId (questAnswers s)) in
    (Ok (map (fun row =>
                mkQuestListRow
                  (fst row) (joined_name (snd row)) (joined_avatarUrl (snd row))
                  (orElse (Map_get answerCountByQuestId (quests_id (fst row))) 0))
             questsResult), w)
  end.

Record QuestDetailRow : Type := mkQuestDetailRow {
  qd_quest : Quest;
  qd_authorName : option string;
  qd_authorAvatarUrl : option string
}.

Definition getQuestById (id : Z) (w : World) : Result (option QuestDetailRow) * World :=
  let (db, w) := getDb w in
  match db with
  | None => (Ok None, w)
  | Some s =>
    (Ok (option_map
           (fun row => mkQuestDetailRow (fst row) (joined_name (snd row))
                                        (joined_avatarUrl (snd row)))
           (first_row
              (filter (fun row => quests_id (fst row) =? id)
                      (leftJoin_users quests_userId (users s) (quests s))))), w)
  end.

Record QuestAnswerRow : Type := mkQuestAnswerRow {
  ar_answer : QuestAnswer;
  ar_authorName : option string;
  ar_authorAvatarUrl : option string
}.

Definition getQuestAnswers (questId : Z) (w : World)
  : Result (list QuestAnswerRow) * World :=
  let (db, w) := getDb w in
  match db with
  | None => (Ok [], w)
  | Some s =>
    let result :=
      orderBy (asc (fun row => questAnswers_createdAt (fst row)))
              (filter (fun row => questAnswers_questId (fst row) =? questId)
                      (leftJoin_users questAnswers_userId (users s) (questAnswers s))) in
    (Ok (map (fun row => mkQuestAnswerRow (fst row) (joined_name (snd row))
                                          (joined_avatarUrl (snd row)))
             result), w)
  end.

Definition last_quest_of (s : Store) (userId : Z) : option Quest :=
  first_row (orderBy (desc quests_createdAt)
                     (filter (fun q => quests_userId q =? userId) (quests s))).

Definition createQuest (data : InsertQuest) (now : Z) (w : World) : Result Z * World :=
  let (db, w) := getDb w in
  match db with
  | None => (Throw DatabaseNotAvailable, w)
  | Some s =>
    match insert_quests s data now with
    | Throw e => (Throw e, w)
    | Ok s' =>
      (Ok (insertId_of (option_map quests_id (last_quest_of s' (iq_userId data)))),
       with_db w s')
    end
  end.

Definition createQuestAnswer (data : InsertQuestAnswer) (now : Z) (w : World)
  : Result Z * World :=
  let (db, w) := getDb w in
  match db with
  | None => (Throw DatabaseNotAvailable, w)
  | Some s =>
    match insert_questAnswers s data now with
    | Throw e => (Throw e, w)
    | Ok s' =>
      (Ok (insertId_of
             (option_map questAnswers_id
                (first_row
                   (orderBy (desc questAnswers_createdAt)
                      (filter (fun a => (questAnswers_questId a =? iqa_questId data)
                                        && (questAnswers_userId a =? iqa_userId data))
                              (questAnswers s')))))),
       with_db w s')
    end
  end.

Definition getQuestAnswerById (id : Z) (w : World) : Result (option QuestAnswer) * World :=
  let (db, w) := getDb w in
  match db with
  | None => (Ok None, w)
  | Some s => (Ok (first_row (filter (fun a => questAnswers_id a =? id) (questAnswers s))), w)
  end.

Inductive QuestClosedStatus : Type := Finished | Suspended | Unsolved.

Definition status_text (st : QuestClosedStatus) : string :=
  match st with
  | Finished => "finished"
  | Suspended => "suspended"
  | Unsolved => "unsolved"
  end.

Record CloseData : Type := mkCloseData {
  cd_status : QuestClosedStatus;
  cd_solvedAnswerId : option Z;
  cd_solverUserId : option Z
}.

Definition close_row (data : CloseData) (now : Z) (q : Quest) : Quest :=
  mkQuest (quests_id q) (quests_userId q) (quests_title q) (quests_content q)
          (status_text (cd_status data))
          (cd_solvedAnswerId data) (cd_solverUserId data)
          (quests_createdAt q) now (Some now).

Definition closeQuest (id : Z) (data : CloseData) (now : Z) (w : World)
  : Result bool * World :=
  let (db, w) := getDb w in
  match db with
  | None => (Throw DatabaseNotAvailable, w)
  | Some s =>
    (Ok true,
     with_db w (with_quests s
                  (map (fun q => if quests_id q =? id then close_row data now q else q)
                       (quests s))
                  (seq_quests s)))
  end.

(** ** Favorites and reports *)

Record FavoriteRow : Type := mkFavoriteRow {
  fr_id : Z;
  fr_caseStudyId : Z;
  fr_createdAt : Z;
  fr_caseStudy : CaseStudy
}.

Definition getUserFavorites (userId : Z) (w : World) : Result (list FavoriteRow) * World :=
  let (db, w) := getDb w in
  match db with
  | None => (Ok [], w)
  | Some s =>
    let joined :=
      flat_map (fun f => map (fun c => (f, c))
                             (filter (fun c => favorites_caseStudyId f =? caseStudies_id c)
                                     (caseStudies s)))
               (favorites s) in
    (Ok (map (fun row => mkFavoriteRow (favorites_id (fst row))
                                       (favorites_caseStudyId (fst row))
                                       (favorites_createdAt (fst row)) (snd row))
             (orderBy (asc (fun row => favorites_createdAt (fst row)))
                      (filter (fun row => favorites_userId (fst row) =? userId) joined))), w)
  end.

Definition getUserReportedCaseStudyIds (userId : Z) (w : World) : Result (list Z) * World :=
  let (db, w) := getDb w in
  match db with
  | None => (Ok [], w)
  | Some s =>
    (Ok (map reports_caseStudyId (filter (fun r => reports_userId r =? userId) (reports s))), w)
  end.

Definition favorite_of (userId caseStudyId : Z) (f : Favorite) : bool :=
  (favorites_userId f =? userId) && (favorites_caseStudyId f =? caseStudyId).

Definition isFavorite (userId caseStudyId : Z) (w : World) : Result bool * World :=
  let (db, w) := getDb w in
  match db with
  | None => (Ok false, w)
  | Some s =>
    (Ok (0 <? Z.of_nat (List.length (firstn 1 (filter (favorite_of userId caseStudyId)
                                                 (favorites s))))), w)
  end.

Definition addFavorite (userId caseStudyId : Z) (now : Z) (w : World) : Result bool * World :=
  let (db, w) := getDb w in
  match db with
  | None => (Throw DatabaseNotAvailable, w)
  | Some s =>
    match insert_favorites s (mkInsertFavorite None userId caseStudyId None) now with
    | Ok s' => (Ok true, with_db w s')
    | Throw _ => (Ok false, w)
    end
  end.

Record CreateReportResult : Type := mkCreateReportResult { created : bool }.

Definition createReport (data : InsertReport) (now : Z) (w : World)
  : Result CreateReportResult * World :=
  let (db, w) := getDb w in
  match db with
  | None => (Throw DatabaseNotAvailable, w)
  | Some s =>
    match insert_reports s data now with
    | Ok s' => (Ok (mkCreateReportResult true), with_db w s')
    | Throw _ => (Ok (mkCreateReportResult false), w)
    end
  end.

Definition removeFavorite (userId caseStudyId : Z) (w : World) : Result bool * World :=
  let (db, w) := getDb w in
  match db with
  | None => (Throw DatabaseNotAvailable, w)
  | Some s =>
    (Ok true,
     with_db w (with_favorites s
                  (delete_where (favorite_of userId caseStudyId) (favorites s))
                  (seq_favorites s)))
  end.

Definition deleteCaseStudy (id : Z) (w : World) : Result bool * World :=
  let (db, w) := getDb w in
  match db with
  | None => (Throw DatabaseNotAvailable, w)
  | Some s =>
    let s1 := with_favorites s
                (delete_where (fun f => favorites_caseStudyId f =? id) (favorites s))
                (seq_favorites s) in
    let s2 := with_reports s1
                (delete_where (fun r => reports_caseStudyId r =? id) (reports s1))
                (seq_reports s1) in
    (Ok true, with_db w (delete_caseStudies_by_id s2 id))
  end.

(** ** The quest page with four states *)

Module QuestPage.

Inductive QuestStatus : Type := open | finished | suspended | unsolved.

Definition QuestStatus_eqb (a b : QuestStatus) : bool :=
  match a, b with
  | open, open | finished, finished | suspended, suspended
  | unsolved, unsolved => true
  | _, _ => false
  end.

Inductive QuestFilter : Type := all | only (s : QuestStatus).

Definition normalizeQuestStatus (status : option string) : QuestStatus :=
  match status with
  | Some s =>
    if String.eqb s "open" then open
    else if String.eqb s "finished" then finished
    else if String.eqb s "suspended" then suspended
    else if String.eqb s "unsolved" then unsolved
    else if String.eqb s "closed" then unsolved
    else unsolved
  | None => unsolved
  end.

(** The [label] of [getQuestStatusMeta]; class name and icon follow the
    same case split. *)
Definition getQuestStatusMeta_label (status : QuestStatus) : string :=
  match status with
  | open => "Open"
  | finished => "Finished"
  | suspended => "Suspended"
  | unsolved => "Unsolved"
  end.

(** [selectedQuest?.status] *)
Definition status_of (selectedQuest : option QuestListRow) : option string :=
  option_map (fun q => quests_status (ql_quest q)) selectedQuest.

Definition selectedQuestStatus (selectedQuest : option QuestListRow) : QuestStatus :=
  normalizeQuestStatus (status_of selectedQuest).

Definition isSelectedQuestClosed (selectedQuest : option QuestListRow) : bool :=
  is_some selectedQuest
  && negb (QuestStatus_eqb (selectedQuestStatus selectedQuest) open).

Definition matchesFilter (filter : QuestFilter) (quest : QuestListRow) : bool :=
  let status := normalizeQuestStatus (Some (quests_status (ql_quest quest))) in
  match filter with
  | all => true
  | only f => QuestStatus_eqb status f
  end.

(** [matchesSearch] reads title, content and author name; how it compares
    them with the query is the argument [search]. *)
Definition filteredQuests (search : string -> string -> option string -> bool)
    (filter : QuestFilter) (quests : list QuestListRow) : list QuestListRow :=
  List.filter
    (fun quest =>
       matchesFilter filter quest
       && search (quests_title (ql_quest quest)) (quests_content (ql_quest quest))
                 (ql_authorName quest))
    quests.

Record QuestCounts : Type := mkQuestCounts {
  count_all : Z;
  count_open : Z;
  count_finished : Z;
  count_suspended : Z;
  count_unsolved : Z
}.

Definition bump (c : QuestCounts) (s : QuestStatus) : QuestCounts :=
  match s with
  | open => mkQuestCounts (count_all c) (count_open c + 1) (count_finished c)
                          (count_suspended c) (count_unsolved c)
  | finished => mkQuestCounts (count_all c) (count_open c) (count_finished c + 1)
                              (count_suspended c) (count_unsolved c)
  | suspended => mkQuestCounts (count_all c) (count_open c) (count_finished c)
                               (count_suspended c + 1) (count_unsolved c)
  | unsolved => mkQuestCounts (count_all c) (count_open c) (count_finished c)
                              (count_suspended c) (count_unsolved c + 1)
  end.

Definition questCounts (quests : list QuestListRow) : QuestCounts :=
  fold_left
    (fun c quest => bump c (normalizeQuestStatus (Some (quests_status (ql_quest quest)))))
    quests
    (mkQuestCounts (Z.of_nat (List.length quests)) 0 0 0 0).

(** The input of the [quests.close] mutation. *)
Record CloseInput : Type := mkCloseInput {
  questId : Z;
  outcome : QuestClosedStatus;
  solvedAnswerId : option Z
}.

Inductive Toast : Type :=
| ToastMessage (text : string)
| ToastSuccess (text : string).

(** [onSuccess] of [closeQuestMutation], after the two invalidations: the
    toast shown and whether the close dialog is dismissed. *)
Definition closeQuestMutation_onSuccess (alreadyClosed : bool) : Toast * bool :=
  if alreadyClosed then (ToastMessage "Quest was already closed.", false)
  else (ToastSuccess "Quest closed.", true).

Inductive Action : Type :=
| Nothing                          (* plain return *)
| ToastError (message : string)    (* toast.error and return *)
| Mutate (input : CloseInput).     (* closeQuestMutation.mutateAsync *)

Definition is_Finished (o : QuestClosedStatus) : bool :=
  match o with Finished => true | _ => false end.

(** [handleConfirmCloseQuest].  [selectedQuestId] is [None] for null;
    [Number] is the built-in that converts the selected option's value. *)
Definition handleConfirmCloseQuest (Number : string -> Z)
    (selectedQuestId : option Z) (isSelectedQuestOwner : bool)
    (closeOutcome : QuestClosedStatus) (answers : list QuestAnswerRow)
    (selectedSolvedAnswerId : string) : Action :=
  match selectedQuestId with
  | None => Nothing
  | Some id =>
    if (id =? 0) || negb isSelectedQuestOwner then Nothing
    else
      let isFinished := is_Finished closeOutcome in
      if isFinished && (Nat.eqb (List.length answers) 0)
      then ToastError "Cannot mark as finished without any answers."
      else if isFinished && negb (truthy selectedSolvedAnswerId)
      then ToastError "Choose the solver comment before closing as finished."
      else Mutate (mkCloseInput id closeOutcome
                     (if isFinished then Some (Number selectedSolvedAnswerId)
                      else None))
  end.

End QuestPage.

(** ** The quest page with two states (client/src/pages/Quest.tsx) *)

Module LegacyQuestPage.

Inductive QuestFilter : Type := all | open | closed.

Definition filter_text (f : QuestFilter) : string :=
  match f with all => "all" | open => "open" | closed => "closed" end.

Definition isSelectedQuestClosed (selectedQuest : option QuestListRow) : bool :=
  match selectedQuest with
  | Some q => String.eqb (quests_status (ql_quest q)) "closed"
  | None => false
  end.

Definition matchesFilter (filter : QuestFilter) (quest : QuestListRow) : bool :=
  match filter with
  | all => true
  | _ => String.eqb (quests_status (ql_quest quest)) (filter_text filter)
  end.

(** The text of the status badge of a list entry. *)
Definition badge (quest : QuestListRow) : string :=
  if String.eqb (quests_status (ql_quest quest)) "closed" then "Closed" else "Open".

End LegacyQuestPage.

(** ** The home page (client/src/pages/Home.tsx) *)

Module HomePage.

Inductive Action : Type :=
| RedirectToLogin
| ToastError (message : string)
| Mutate (caseStudyId : Z).        (* reportMutation.mutateAsync *)

(** [handleReportCase] up to the call of the mutation; [user] is the id of
    the signed-in user, if any. *)
Definition handleReportCase (isAuthenticated : bool) (user : option Z)
    (caseId ownerUserId : Z) : Action :=
  if negb isAuthenticated then RedirectToLogin
  else
    match user with
    | Some id =>
      if id =? ownerUserId then ToastError "You cannot report your own post."
      else Mutate caseId
    | None => Mutate caseId
    end.

End HomePage.

(** ** Procedures of the RPC layer *)

(** A computation over the module state that may throw. *)
Definition M (A : Type) : Type := World -> Result A * World.

Definition ret {A : Type} (a : A) : M A := fun w => (Ok a, w).

Definition throw {A : Type} (e : Error) : M A := fun w => (Throw e, w).

Definition bind {A B : Type} (m : M A) (k : A -> M B) : M B :=
  fun w =>
    match m w with
    | (Ok a, w') => k a w'
    | (Throw e, w') => (Throw e, w')
    end.

Notation "'do' x <- m ; k" := (bind m (fun x => k))
  (at level 10, x name, m at level 100, k at level 200).

(** The signed-in caller of a protected procedure. *)
Record Caller : Type := mkCaller {
  caller_id : Z;
  caller_role : Role
}.

Module Router.

Record CloseResult : Type := mkCloseResult {
  success : bool;
  alreadyClosed : bool
}.

(** Modelled from the spec: the procedure [quests.close] of server/routers.ts,
    which is not among the sources.  Section 4.3: only the quest's author may
    close it; re-closing a quest that has left [open] is a no-op that reports
    "already closed"; [finished] requires at least one existing answer and a
    designated solver-answer id belonging to that quest; closing sets the
    status, the solved-answer id (or null) and the solver-user id (the chosen
    answer's author, or null).  It is composed of the data-access functions
    of db.ts. *)
Definition quests_close (caller : Caller) (input : QuestPage.CloseInput) (now : Z)
  : M CloseResult :=
  do found <- getQuestById (QuestPage.questId input);
  match found with
  | None => throw (Trpc NOT_FOUND)
  | Some row =>
    let quest := qd_quest row in
    if negb (quests_userId quest =? caller_id caller) then throw (Trpc FORBIDDEN)
    else if negb (String.eqb (quests_status quest) "open")
    then ret (mkCloseResult true true)
    else
      match QuestPage.outcome input with
      | Finished =>
        do answers <- getQuestAnswers (QuestPage.questId input);
        match answers, QuestPage.solvedAnswerId input with
        | [], _ => throw (Trpc BAD_REQUEST)
        | _ :: _, None => throw (Trpc BAD_REQUEST)
        | _ :: _, Some answerId =>
          do solved <- getQuestAnswerById answerId;
          match solved with
          | None => throw (Trpc BAD_REQUEST)
          | Some answer =>
            if questAnswers_questId answer =? QuestPage.questId input
            then
              do _ <- closeQuest (QuestPage.questId input)
                        (mkCloseData Finished (Some answerId)
                                     (Some (questAnswers_userId answer))) now;
              ret (mkCloseResult true false)
            else throw (Trpc BAD_REQUEST)
          end
        end
      | other =>
        do _ <- closeQuest (QuestPage.questId input) (mkCloseData other None None) now;
        ret (mkCloseResult true false)
      end
  end.

Record ToggleResult : Type := mkToggleResult { isFavorite_now : bool }.

(** Modelled from the spec: the procedure [caseStudies.toggleFavorite] of
    server/routers.ts, which is not among the sources.  Section 4.2: it
    checks the existing favorite row; if present, deletes it; if absent,
    inserts it.  It is composed of [isFavorite], [removeFavorite] and
    [addFavorite] of db.ts. *)
Definition caseStudies_toggleFavorite (caller : Caller) (caseStudyId : Z) (now : Z)
  : M ToggleResult :=
  do present <- isFavorite (caller_id caller) caseStudyId;
  if present
  then do _ <- removeFavorite (caller_id caller) caseStudyId;
       ret (mkToggleResult false)
  else do _ <- addFavorite (caller_id caller) caseStudyId now;
       ret (mkToggleResult true).

Record ReportResult : Type := mkReportResult {
  report_success : bool;
  alreadyReported : bool
}.

(** Modelled from the spec: the procedure [caseStudies.report] of
    server/routers.ts, which is not among the sources.  Section 4.2: one
    report per (user, case study); reporting one's own post is rejected;
    a repeat report returns an "already reported" signal rather than
    erroring.  The author is read with [getCaseStudyById] and the row is
    written with [createReport] of db.ts. *)
Definition caseStudies_report (caller : Caller) (caseStudyId : Z) (now : Z)
  : M ReportResult :=
  do found <- getCaseStudyById caseStudyId;
  match found with
  | None => throw (Trpc NOT_FOUND)
  | Some post =>
    if caseStudies_userId post =? caller_id caller then throw (Trpc FORBIDDEN)
    else
      do r <- createReport (mkInsertReport None (caller_id caller) caseStudyId None) now;
      ret (mkReportResult true (negb (created r)))
  end.

End Router.

(** ** The handle after lazy initialisation *)

(** The store [getDb] hands out: the bound one, after the status backfill if
    that has not run yet. *)
Definition migrated (w : World) (s : Store) : Store :=
  if _questTablesEnsured w then s
  else with_quests s (map backfill_status (quests s)) (seq_quests s).

(** The module state once [getDb] has returned a handle on [s]. *)
Definition settled (s : Store) : World := mkWorld (Some s) true true true.


(** ** Sample states *)

(** A module on which [initDb] was never called with a binding. *)
Definition world_down : World := mkWorld None false false false.

Definition alice : User :=
  mkUser 1 "alice" (Some "Alice") None (Some "a.png") (Some "google") RoleUser 1000 1000 1000.

Definition bob : User :=
  mkUser 2 "bob" (Some "Bob") None None (Some "google") RoleUser 2000 2000 2000.

Definition post_of (id userId createdAt : Z) : CaseStudy :=
  mkCaseStudy id userId "title" "description" None None prompt "[]" "challenge"
              "solution" "[]" None "[]" 0 createdAt createdAt.

(** Two users, two posts of alice, bob's favorite and report on post 1 and
    alice's favorite on post 2. *)
Definition store_posts : Store :=
  mkStore true
          [alice; bob] 2
          [post_of 1 1 5000; post_of 2 1 6000] 2
          [mkFavorite 1 2 1 7000; mkFavorite 2 1 2 7000] 2
          [mkReport 1 2 1 8000] 1
          [] 0
          [] 0.

Definition world_posts : World := mkWorld (Some store_posts) false false false.

Definition quest_of (id userId : Z) (status : string) (createdAt : Z) : Quest :=
  mkQuest id userId "title" "content" status None None createdAt createdAt None.

Definition answer_of (id questId userId createdAt : Z) : QuestAnswer :=
  mkQuestAnswer id questId userId "content" createdAt createdAt.

(** Two open quests of alice; on quest 1 an answer by bob and an earlier one
    by a user (id 9) who is no longer in the users table; foreign keys are not
    enforced. *)
Definition store_quests : Store :=
  mkStore false
          [alice; bob] 2
          [] 0 [] 0 [] 0
          [quest_of 1 1 "open" 3000; quest_of 2 1 "open" 4000] 2
          [answer_of 1 1 2 6000; answer_of 2 1 9 5000] 2.

Definition world_quests : World := mkWorld (Some store_quests) true true true.

(** An environment whose allow-list is the single owner id. *)
Definition env_owner : Env := mkEnv EmptyString "owner-1".

(** The owner signs in with the role spelled out as the plain one. *)
Definition owner_as_user : InsertUser :=
  mkInsertUser "owner-1" (Some (Some "Owner")) None None None (Some RoleUser) None.

(** A sign-in that supplies no role. *)
Definition sign_in (openId : string) : InsertUser :=
  mkInsertUser openId None None None None None (Some 9000).

Definition store_empty : Store := mkStore true [] 0 [] 0 [] 0 [] 0 [] 0 [] 0.

Definition world_empty : World := mkWorld (Some store_empty) true true true.

(** A store in which "carol" was promoted to admin earlier. *)
Definition store_carol : Store :=
  mkStore true
          [mkUser 1 "carol" (Some "Carol") None None None RoleAdmin 1000 1000 1000] 1
          [] 0 [] 0 [] 0 [] 0 [] 0.

Definition world_carol : World := mkWorld (Some store_carol) true true true.

(** A post by alice (user 1) that leaves id and timestamps to the store. *)
Definition new_post : InsertCaseStudy :=
  mkInsertCaseStudy None 1 "new" "description" None None tools "[]" "challenge"
                    "solution" "[]" None "[]" None None None.

(** A quest by alice that leaves id, status and timestamps to the store. *)
Definition new_quest : InsertQuest :=
  mkInsertQuest None 1 "new" "content" None None None None None None.

(** The same list entry with another stored status. *)
Definition with_status (q : QuestListRow) (status : string) : QuestListRow :=
  mkQuestListRow
    (mkQuest (quests_id (ql_quest q)) (quests_userId (ql_quest q))
             (quests_title (ql_quest q)) (quests_content (ql_quest q))
             status
             (quests_solvedAnswerId (ql_quest q)) (quests_solverUserId (ql_quest q))
             (quests_createdAt (ql_quest q)) (quests_updatedAt (ql_quest q))
             (quests_closedAt (ql_quest q)))
    (ql_authorName q) (ql_authorAvatarUrl q) (ql_answerCount q).

Definition entry_closed : QuestListRow :=
  mkQuestListRow (quest_of 1 1 "closed" 3000) (Some "Alice") None 0.

Definition entry_unsolved : QuestListRow :=
  mkQuestListRow (quest_of 1 1 "unsolved" 3000) (Some "Alice") None 0.

(** ** Integrity of the favorites and reports tables *)

(** The unique index [favorites_user_case_unique]. *)
Definition favorites_unique (s : Store) : Prop :=
  forall u c, (List.length (filter (favorite_of u c) (favorites s)) <= 1)%nat.

(** The REFERENCES clauses of favorites hold, as far as the engine enforces
    them. *)
Definition favorites_refer (s : Store) : Prop :=
  forall f, In f (favorites s) ->
    fk_ok s (map users_id (users s)) (favorites_userId f) = true
    /\ fk_ok s (map caseStudies_id (caseStudies s)) (favorites_caseStudyId f) = true.

(** What one call of the toggle does to the store. *)
Definition toggled (u c now : Z) (s : Store) : Store :=
  if existsb (favorite_of u c) (favorites s)
  then with_favorites s (delete_where (favorite_of u c) (favorites s)) (seq_favorites s)
  else match insert_favorites s (mkInsertFavorite None u c None) now with
       | Ok s' => s'
       | Throw _ => s
       end.

Definition report_of (userId caseStudyId : Z) (r : Report) : bool :=
  (reports_userId r =? userId) && (reports_caseStudyId r =? caseStudyId).

Definition caller_alice : Caller := mkCaller 1 RoleUser.
Definition caller_bob : Caller := mkCaller 2 RoleUser.

(** Quest 1 of alice finished with bob's answer, quest 2 still open. *)
Definition store_finished : Store :=
  mkStore false
          [alice; bob] 2
          [] 0 [] 0 [] 0
          [mkQuest 1 1 "title" "content" "finished" (Some 1) (Some 2) 3000 7000 (Some 7000);
           quest_of 2 1 "open" 4000] 2
          [answer_of 1 1 2 6000] 1.

Definition world_finished : World := mkWorld (Some store_finished) true true true.

(** ** More of db.ts *)

Definition rename_user (name : string) (now : Z) (u : User) : User :=
  mkUser (users_id u) (users_openId u) (Some name) (users_email u)
         (users_avatarUrl u) (users_loginMethod u) (users_role u)
         (users_createdAt u) now (users_lastSignedIn u).

Definition updateUserName (userId : Z) (name : string) (now : Z) (w : World)
  : Result bool * World :=
  let (db, w) := getDb w in
  match db with
  | None => (Ok false, w)
  | Some s =>
    (Ok true,
     with_db w (with_users s
                  (map (fun u => if users_id u =? userId then rename_user name now u
                                 else u) (users s))
                  (seq_users s)))
  end.

(** ** Strings *)




(** A string of white space only. *)
Fixpoint blank (s : string) : bool :=
  match s with
  | EmptyString => true
  | String c s' => is_space c && blank s'
  end.

(** ** Keys of the schema *)

(** The unique index [reports_user_case_unique]. *)
Definition reports_unique (s : Store) : Prop :=
  forall u c, (List.length (filter (report_of u c) (reports s)) <= 1)%nat.

(** The six primary keys. *)
Definition primary_keys (s : Store) : Prop :=
  NoDup (map users_id (users s))
  /\ NoDup (map caseStudies_id (caseStudies s))
  /\ NoDup (map favorites_id (favorites s))
  /\ NoDup (map reports_id (reports s))
  /\ NoDup (map quests_id (quests s))
  /\ NoDup (map questAnswers_id (questAnswers s)).

(** [openId text not null unique] and the two unique indexes. *)
Definition unique_indexes (s : Store) : Prop :=
  NoDup (map users_openId (users s))
  /\ favorites_unique s
  /\ reports_unique s.

Definition keys_hold (s : Store) : Prop := primary_keys s /\ unique_indexes s.

(** The completion of an operation left a bound store on which the keys
    hold. *)
Definition keys_kept {A : Type} (completion : Result A * World) : Prop :=
  exists s', _db (snd completion) = Some s' /\ keys_hold s'.

(** A store with all keys in force: [store_posts] with quests and answers. *)
Definition store_full : Store :=
  mkStore true
          [alice; bob] 2
          [post_of 1 1 5000; post_of 2 1 6000] 2
          [mkFavorite 1 2 1 7000; mkFavorite 2 1 2 7000] 2
          [mkReport 1 2 1 8000] 1
          [quest_of 1 1 "open" 3000; quest_of 2 1 "closed" 4000] 2
          [answer_of 1 1 2 6000] 1.

(** A module that has not fetched its handle yet. *)
Definition world_full : World := mkWorld (Some store_full) false false false.

(** A sign-in that carries nothing but the openId. *)
Definition bare_sign_in (openId : string) : InsertUser :=
  mkInsertUser openId None None None None None None.

(** An environment without owners. *)
Definition env_none : Env := mkEnv EmptyString EmptyString.

(** ** More of the four-state quest page *)

Module QuestBoard.

(** The effect that keeps a quest selected: what [selectedQuestId] is once it
    has run. *)
Definition selection_effect (quests : list QuestListRow) (selectedQuestId : option Z)
  : option Z :=
  match quests with
  | [] => None
  | first :: _ =>
    match selectedQuestId with
    | Some id =>
      if (id =? 0) || negb (existsb (fun quest => quests_id (ql_quest quest) =? id) quests)
      then Some (quests_id (ql_quest first))
      else Some id
    | None => Some (quests_id (ql_quest first))
    end
  end.

(** The two pieces of state of the close dialog. *)
Record DialogState : Type := mkDialogState {
  closeOutcome : QuestClosedStatus;
  selectedSolvedAnswerId : string
}.

(** The effect that runs when the dialog opens.  [solvedAnswerId] is
    [selectedQuest?.solvedAnswerId]; [String_] is the built-in [String] on
    answer ids. *)
Definition dialog_effect (String_ : Z -> string) (isCloseDialogOpen : bool)
    (solvedAnswerId : option Z) (answers : list QuestAnswerRow) (st : DialogState)
  : DialogState :=
  if negb isCloseDialogOpen then st
  else
    let unsolved_yet :=
      mkDialogState (if (0 <? List.length answers)%nat then Finished else Unsolved)
                    EmptyString in
    match solvedAnswerId with
    | Some id => if id =? 0 then unsolved_yet else mkDialogState Finished (String_ id)
    | None => unsolved_yet
    end.

(** The effect that withdraws "finished" while there is no answer. *)
Definition outcome_effect (answers : list QuestAnswerRow) (st : DialogState)
  : DialogState :=
  if QuestPage.is_Finished (closeOutcome st) && Nat.eqb (List.length answers) 0
  then mkDialogState Unsolved (selectedSolvedAnswerId st)
  else st.

(** The [disabled] attribute of the Confirm button. *)
Definition confirmDisabled (isPending : bool) (answers : list QuestAnswerRow)
    (st : DialogState) : bool :=
  isPending
  || (QuestPage.is_Finished (closeOutcome st)
      && (Nat.eqb (List.length answers) 0 || negb (truthy (selectedSolvedAnswerId st)))).

Inductive Action : Type :=
| Nothing
| RedirectToLogin
| ToastError (message : string)
| PostAnswer (questId : Z) (content : string)     (* answerMutation.mutateAsync *)
| CreateQuest (title content : string).           (* createQuestMutation.mutateAsync *)



End QuestBoard.

(** ** More of the home page *)

Module HomeView.

(** The signed-in user as the page reads it. *)
Record Viewer : Type := mkViewer {
  viewer_id : Z;
  viewer_role : Role;
  viewer_loginMethod : option string
}.

(** A case study of the list, with the fields the page decides on. *)
Record Case : Type := mkCase {
  case_id : Z;
  case_userId : Z;
  case_category : Category;
  case_isFavorite : bool;
  case_isReported : bool
}.

Definition Category_eqb (a b : Category) : bool :=
  match a, b with
  | prompt, prompt | automation, automation | tools, tools
  | business, business => true
  | _, _ => false
  end.

Definition is_google (loginMethod : option string) : bool :=
  match loginMethod with
  | Some m => String.eqb m "google"
  | None => false
  end.

Definition is_admin (r : Role) : bool :=
  match r with RoleAdmin => true | RoleUser => false end.

Definition canManageSelected (selectedCase : option Case) (user : option Viewer) : bool :=
  match selectedCase, user with
  | Some c, Some u => case_userId c =? viewer_id u
  | _, _ => false
  end.

Definition canEditSelected (selectedCase : option Case) (user : option Viewer) : bool :=
  canManageSelected selectedCase user
  && match user with
     | Some u => is_google (viewer_loginMethod u)
     | None => false
     end.

Definition canDeleteSelected (selectedCase : option Case) (user : option Viewer) : bool :=
  match selectedCase, user with
  | Some c, Some u => (case_userId c =? viewer_id u) || is_admin (viewer_role u)
  | _, _ => false
  end.

Definition canReportSelected (selectedCase : option Case) (user : option Viewer) : bool :=
  match selectedCase with
  | Some c =>
    negb (match user with
          | Some u => case_userId c =? viewer_id u
          | None => false
          end)
    && negb (case_isReported c)
  | None => false
  end.

Inductive Filter : Type := all | liked | only (c : Category).

(** [filteredCases]; how a case matches the search box is [matchesSearch]. *)
Definition filteredCases (matchesSearch : Case -> bool) (activeCategory : Filter)
    (cases : list Case) : list Case :=
  List.filter
    (fun c =>
       matchesSearch c
       && match activeCategory with
          | all => true
          | liked => case_isFavorite c
          | only k => Category_eqb (case_category c) k
          end)
    cases.

Record Counts : Type := mkCounts {
  n_all : Z;
  n_liked : Z;
  n_prompt : Z;
  n_automation : Z;
  n_tools : Z;
  n_business : Z
}.

Definition count_case (counts : Counts) (item : Case) : Counts :=
  let counts :=
    match case_category item with
    | prompt => mkCounts (n_all counts) (n_liked counts) (n_prompt counts + 1)
                         (n_automation counts) (n_tools counts) (n_business counts)
    | automation => mkCounts (n_all counts) (n_liked counts) (n_prompt counts)
                             (n_automation counts + 1) (n_tools counts) (n_business counts)
    | tools => mkCounts (n_all counts) (n_liked counts) (n_prompt counts)
                        (n_automation counts) (n_tools counts + 1) (n_business counts)
    | business => mkCounts (n_all counts) (n_liked counts) (n_prompt counts)
                           (n_automation counts) (n_tools counts) (n_business counts + 1)
    end in
  if case_isFavorite item
  then mkCounts (n_all counts) (n_liked counts + 1) (n_prompt counts)
                (n_automation counts) (n_tools counts) (n_business counts)
  else counts.

Definition categoryCounts (cases : list Case) : Counts :=
  fold_left count_case cases (mkCounts (Z.of_nat (List.length cases)) 0 0 0 0 0).

Definition count_of (counts : Counts) (f : Filter) : Z :=
  match f with
  | all => n_all counts
  | liked => n_liked counts
  | only prompt => n_prompt counts
  | only automation => n_automation counts
  | only tools => n_tools counts
  | only business => n_business counts
  end.

End HomeView.

(** ** The profile pages (MyProfile.tsx, UserProfile.tsx) *)

Module Profile.

Inductive Action : Type :=
| Nothing
| ToastError (message : string)
| UpdateName (name : string).      (* updateNameMutation.mutateAsync *)



End Profile.

(** The counter the four-state quest page shows on the button of a filter. *)
Definition questCount_of (c : QuestPage.QuestCounts) (f : QuestPage.QuestFilter) : Z :=
  match f with
  | QuestPage.all => QuestPage.count_all c
  | QuestPage.only QuestPage.open => QuestPage.count_open c
  | QuestPage.only QuestPage.finished => QuestPage.count_finished c
  | QuestPage.only QuestPage.suspended => QuestPage.count_suspended c
  | QuestPage.only QuestPage.unsolved => QuestPage.count_unsolved c
  end.

(** A search box that is empty: every entry matches. *)
Definition no_search : string -> string -> option string -> bool :=
  fun _ _ _ => true.
(** * Properties *)

(** ** The lazily initialised handle *)

Lemma getDb_uninitialised (w : World) :
  _db w = None -> getDb w = (None, w).
Proof.
  intros H. unfold getDb. now rewrite H.
Qed.

Lemma getDb_initialised (w : World) (s : Store) :
  _db w = Some s -> getDb w = (Some (migrated w s), settled (migrated w s)).
Proof.
  destruct w as [d a r q]. simpl. intros ->.
  unfold getDb, migrated, settled, ensureQuestTables, ensureReportsTable,
    ensureAvatarColumn; simpl.
  destruct a, r, q; reflexivity.
Qed.

Lemma migrated_tables (w : World) (s : Store) :
  foreign_keys (migrated w s) = foreign_keys s
  /\ users (migrated w s) = users s
  /\ caseStudies (migrated w s) = caseStudies s
  /\ favorites (migrated w s) = favorites s
  /\ reports (migrated w s) = reports s
  /\ questAnswers (migrated w s) = questAnswers s
  /\ seq_favorites (migrated w s) = seq_favorites s
  /\ seq_reports (migrated w s) = seq_reports s.
Proof.
  unfold migrated. destruct (_questTablesEnsured w); repeat split; reflexivity.
Qed.

Lemma migrated_settled (s : Store) : migrated (settled s) s = s.
Proof. reflexivity. Qed.

(** ** Ordering *)

Section OrderByFacts.
Context {A : Type} (le : A -> A -> bool).

Lemma place_perm (x : A) (l : list A) : Permutation (x :: l) (place le x l).
Proof.
  induction l as [|y l IH]; simpl.
  - apply Permutation_refl.
  - destruct (le x y).
    + apply Permutation_refl.
    + eapply perm_trans; [apply perm_swap | now apply perm_skip].
Qed.

Lemma orderBy_perm (l : list A) : Permutation l (orderBy le l).
Proof.
  induction l as [|x l IH]; simpl.
  - constructor.
  - eapply perm_trans; [apply perm_skip, IH | apply place_perm].
Qed.

Lemma In_place (x y : A) (l : list A) : In y (place le x l) <-> y = x \/ In y l.
Proof.
  split; intros H.
  - apply Permutation_in with (l' := x :: l) in H.
    + destruct H; auto.
    + apply Permutation_sym, place_perm.
  - apply Permutation_in with (l := x :: l).
    + apply place_perm.
    + destruct H; [left | right]; auto.
Qed.

Lemma In_orderBy (y : A) (l : list A) : In y (orderBy le l) <-> In y l.
Proof.
  split; intros H.
  - eapply Permutation_in; [apply Permutation_sym, orderBy_perm | exact H].
  - eapply Permutation_in; [apply orderBy_perm | exact H].
Qed.

Hypothesis le_total : forall x y, le x y = true \/ le y x = true.
Hypothesis le_trans : forall x y z, le x y = true -> le y z = true -> le x z = true.

Lemma place_sorted (x : A) (l : list A) :
  StronglySorted (fun a b => le a b = true) l ->
  StronglySorted (fun a b => le a b = true) (place le x l).
Proof.
  induction 1 as [|y l Hs IH Hall]; simpl.
  - repeat constructor.
  - destruct (le x y) eqn:E.
    + constructor; [now constructor|].
      constructor; [exact E|].
      rewrite Forall_forall in *. intros z Hz. eauto.
    + constructor; [exact IH|].
      rewrite Forall_forall in *. intros z Hz.
      apply In_place in Hz. destruct Hz as [->|Hz]; auto.
      destruct (le_total x y) as [C|C]; [congruence | exact C].
Qed.

Lemma orderBy_sorted (l : list A) :
  StronglySorted (fun a b => le a b = true) (orderBy le l).
Proof.
  induction l; simpl; [constructor | now apply place_sorted].
Qed.
End OrderByFacts.

Lemma asc_sorted {A : Type} (key : A -> Z) (l : list A) :
  StronglySorted (fun a b => key a <= key b) (orderBy (asc key) l).
Proof.
  assert (H : StronglySorted (fun a b => asc key a b = true) (orderBy (asc key) l)).
  { apply orderBy_sorted; unfold asc; intros.
    - destruct (Z.leb_spec (key x) (key y)); [now left | right; apply Z.leb_le; lia].
    - rewrite Z.leb_le in *. lia. }
  induction H; constructor; auto.
  eapply Forall_impl; [|eassumption]. unfold asc. intros b Hb. now apply Z.leb_le.
Qed.

Lemma desc_sorted {A : Type} (key : A -> Z) (l : list A) :
  StronglySorted (fun a b => key b <= key a) (orderBy (desc key) l).
Proof.
  assert (H : StronglySorted (fun a b => desc key a b = true) (orderBy (desc key) l)).
  { apply orderBy_sorted; unfold desc; intros.
    - destruct (Z.leb_spec (key y) (key x)); [now left | right; apply Z.leb_le; lia].
    - rewrite Z.leb_le in *. lia. }
  induction H; constructor; auto.
  eapply Forall_impl; [|eassumption]. unfold desc. intros b Hb. now apply Z.leb_le.
Qed.

Lemma StronglySorted_map {A B : Type} (f : A -> B) (R : B -> B -> Prop) (l : list A) :
  StronglySorted (fun a b => R (f a) (f b)) l -> StronglySorted R (map f l).
Proof.
  induction 1 as [|x l Hs IH Hall]; simpl; constructor; auto.
  rewrite Forall_forall in *. intros b Hb.
  apply in_map_iff in Hb. destruct Hb as [a [<- Ha]]. auto.
Qed.

Lemma first_row_head {A : Type} (l : list A) : first_row l = hd_error l.
Proof. destruct l; reflexivity. Qed.

(** ** Reads without a database *)

(** C8: with no database bound, every read of the data-access layer completes
    normally with the empty list, [false] or [undefined], and leaves the
    module state as it was. *)
Theorem reads_without_database (w : World) :
  _db w = None ->
  getAllCaseStudies w = (Ok [], w)
  /\ getAllQuests w = (Ok [], w)
  /\ (forall questId, getQuestAnswers questId w = (Ok [], w))
  /\ (forall userId, getUserFavorites userId w = (Ok [], w))
  /\ (forall userId caseStudyId, isFavorite userId caseStudyId w = (Ok false, w))
  /\ (forall openId, getUserByOpenId openId w = (Ok None, w))
  /\ (forall userId, getUserPublicById userId w = (Ok None, w))
  /\ (forall id, getCaseStudyById id w = (Ok None, w))
  /\ (forall userId, getUserCaseStudies userId w = (Ok [], w))
  /\ (forall id, getQuestById id w = (Ok None, w))
  /\ (forall id, getQuestAnswerById id w = (Ok None, w))
  /\ (forall userId, getUserReportedCaseStudyIds userId w = (Ok [], w)).
Proof.
  intros H.
  unfold getAllCaseStudies, getAllQuests, getQuestAnswers, getUserFavorites,
    isFavorite, getUserByOpenId, getUserPublicById, getCaseStudyById,
    getUserCaseStudies, getQuestById, getQuestAnswerById,
    getUserReportedCaseStudyIds.
  rewrite (getDb_uninitialised w H).
  repeat split.
Qed.

Lemma reads_without_database_witness :
  _db world_down = None
  /\ getAllQuests world_down = (Ok [], world_down)
  /\ isFavorite 1 1 world_down = (Ok false, world_down).
Proof.
  split; [reflexivity|].
  split; apply (reads_without_database world_down); reflexivity.
Defined.

(** ** Deleting a case study *)

Lemma filter_twice {A : Type} (p : A -> bool) (l : list A) :
  filter p (filter p l) = filter p l.
Proof.
  induction l as [|x l IH]; simpl; [reflexivity|].
  destruct (p x) eqn:E; simpl; rewrite ?E, IH; reflexivity.
Qed.

Lemma delete_where_spec {A : Type} (p : A -> bool) (l : list A) (x : A) :
  In x (delete_where p l) <-> In x l /\ p x = false.
Proof.
  unfold delete_where. rewrite filter_In, negb_true_iff. reflexivity.
Qed.

(** C5: once [deleteCaseStudy id] has completed, no favorite and no report
    refers to [id], no case study has that id, and what is left of the three
    tables is exactly the rows of the other case studies; users and quest
    answers are untouched. *)
Theorem deleteCaseStudy_cascade (id : Z) (w : World) (s : Store) :
  _db w = Some s ->
  exists s' : Store,
    deleteCaseStudy id w = (Ok true, settled s')
    /\ (forall f, In f (favorites s') -> favorites_caseStudyId f <> id)
    /\ (forall r, In r (reports s') -> reports_caseStudyId r <> id)
    /\ (forall c, In c (caseStudies s') -> caseStudies_id c <> id)
    /\ favorites s' = filter (fun f => negb (favorites_caseStudyId f =? id)) (favorites s)
    /\ reports s' = filter (fun r => negb (reports_caseStudyId r =? id)) (reports s)
    /\ caseStudies s' = filter (fun c => negb (caseStudies_id c =? id)) (caseStudies s)
    /\ users s' = users s
    /\ questAnswers s' = questAnswers s
    /\ quests s' = quests (migrated w s).
Proof.
  intros H. unfold deleteCaseStudy. rewrite (getDb_initialised w s H).
  destruct (migrated_tables w s) as (Hfk & Hu & Hc & Hf & Hr & Ha & _).
  eexists. split; [reflexivity|].
  unfold delete_caseStudies_by_id; cbn [foreign_keys with_reports with_favorites
    with_caseStudies favorites reports caseStudies users questAnswers quests
    seq_favorites seq_reports seq_caseStudies].
  destruct (foreign_keys (migrated w s));
    cbn [foreign_keys with_reports with_favorites with_caseStudies favorites
         reports caseStudies users questAnswers quests];
    unfold delete_where; rewrite ?filter_twice, Hf, Hr, Hc, Hu, Ha;
    (repeat split; try reflexivity;
     intros x Hx; apply filter_In in Hx; destruct Hx as [_ Hx];
     apply negb_true_iff, Z.eqb_neq in Hx; exact Hx).
Qed.

Lemma deleteCaseStudy_cascade_witness :
  _db world_posts = Some store_posts
  /\ exists s' : Store,
       deleteCaseStudy 1 world_posts = (Ok true, settled s')
       /\ favorites s' = [mkFavorite 2 1 2 7000]
       /\ reports s' = []
       /\ caseStudies s' = [post_of 2 1 6000].
Proof.
  split; [reflexivity|].
  destruct (deleteCaseStudy_cascade 1 world_posts store_posts eq_refl)
    as (s' & Hrun & _ & _ & _ & Hf & Hr & Hc & _).
  exists s'. repeat split; assumption.
Defined.

(** ** Listings *)

Section LeftJoin.
Context {A : Type} (uid : A -> Z) (us : list User).

Lemma leftJoin_users_In (r : A) (ou : option User) (l : list A) :
  In (r, ou) (leftJoin_users uid us l) ->
  In r l
  /\ match ou with
     | Some u => In u us /\ users_id u = uid r
     | None => forall u, In u us -> users_id u <> uid r
     end.
Proof.
  unfold leftJoin_users. rewrite in_flat_map. intros (r' & Hr' & Hin).
  destruct (filter (fun u => uid r' =? users_id u) us) as [|u0 m] eqn:E.
  - destruct Hin as [Heq|[]]. inversion Heq; subst. split; [assumption|].
    intros u Hu Hid.
    assert (Hf : In u (filter (fun u => uid r =? users_id u) us)).
    { apply filter_In. split; [assumption|]. apply Z.eqb_eq. congruence. }
    rewrite E in Hf. exact Hf.
  - apply in_map_iff in Hin. destruct Hin as (u & Heq & Hu).
    inversion Heq; subst. split; [assumption|].
    rewrite <- E in Hu. apply filter_In in Hu. destruct Hu as [Hu Hid].
    apply Z.eqb_eq in Hid. split; [assumption | congruence].
Qed.

Lemma leftJoin_users_covers (r : A) (l : list A) :
  In r l -> exists ou, In (r, ou) (leftJoin_users uid us l).
Proof.
  intros Hr. unfold leftJoin_users.
  destruct (filter (fun u => uid r =? users_id u) us) as [|u0 m] eqn:E.
  - exists None. apply in_flat_map. exists r. split; [assumption|].
    rewrite E. now left.
  - exists (Some u0). apply in_flat_map. exists r. split; [assumption|].
    rewrite E. now left.
Qed.

Lemma primary_key_matches_once (i : Z) :
  NoDup (map users_id us) ->
  (List.length (filter (fun u => (i =? users_id u)%Z) us) <= 1)%nat.
Proof.
  induction us as [|u l IH]; simpl; intros Hnd; [lia|].
  inversion Hnd as [|? ? Hnotin Hnd']; subst.
  destruct (Z.eqb_spec i (users_id u)) as [Heq|Hne]; simpl.
  - assert (Hnil : filter (fun u0 => i =? users_id u0) l = []).
    { destruct (filter (fun u0 => i =? users_id u0) l) as [|v m] eqn:E;
        [reflexivity|].
      exfalso. apply Hnotin.
      assert (Hv : In v (filter (fun u0 => i =? users_id u0) l))
        by (rewrite E; now left).
      apply filter_In in Hv. destruct Hv as [Hv Hid]. apply Z.eqb_eq in Hid.
      rewrite <- Heq, Hid. now apply in_map. }
    rewrite Hnil. simpl. lia.
  - now apply IH.
Qed.

Lemma leftJoin_users_rows (l : list A) :
  NoDup (map users_id us) -> map fst (leftJoin_users uid us l) = l.
Proof.
  intros Hnd. unfold leftJoin_users.
  induction l as [|r l IH]; [reflexivity|].
  cbn [flat_map]. rewrite map_app, IH.
  change (r :: l) with ([r] ++ l)%list. f_equal.
  pose proof (primary_key_matches_once (uid r) Hnd) as Hlen.
  destruct (filter (fun u => uid r =? users_id u) us) as [|u0 [|u1 m]];
    simpl in *; try reflexivity; lia.
Qed.
End LeftJoin.

Lemma map_fst_filter {A B : Type} (p : A -> bool) (l : list (A * B)) :
  map fst (filter (fun row => p (fst row)) l) = filter p (map fst l).
Proof.
  induction l as [|x l IH]; simpl; [reflexivity|].
  destruct (p (fst x)); simpl; now rewrite IH.
Qed.

(** C7: [getAllQuests] lists the quests newest first; [getQuestAnswers] lists
    the answers of the given quest oldest first, each with the name and
    avatar of its author, or null for both when no user has the author's id.
    With the primary key of users in force each quest and each answer is
    listed exactly once. *)
Theorem listings_ordered (w : World) (s : Store) :
  _db w = Some s ->
  (exists l,
     getAllQuests w = (Ok l, settled (migrated w s))
     /\ StronglySorted
          (fun a b => quests_createdAt (ql_quest b) <= quests_createdAt (ql_quest a)) l
     /\ (NoDup (map users_id (users s)) ->
         Permutation (map ql_quest l) (quests (migrated w s))))
  /\ forall questId, exists l,
       getQuestAnswers questId w = (Ok l, settled (migrated w s))
       /\ StronglySorted
            (fun a b => questAnswers_createdAt (ar_answer a)
                        <= questAnswers_createdAt (ar_answer b)) l
       /\ (forall r, In r l ->
             In (ar_answer r) (questAnswers s)
             /\ questAnswers_questId (ar_answer r) = questId
             /\ ((exists u, In u (users s)
                            /\ users_id u = questAnswers_userId (ar_answer r)
                            /\ ar_authorName r = users_name u
                            /\ ar_authorAvatarUrl r = users_avatarUrl u)
                 \/ ((forall u, In u (users s) ->
                                users_id u <> questAnswers_userId (ar_answer r))
                     /\ ar_authorName r = None
                     /\ ar_authorAvatarUrl r = None)))
       /\ (forall a, In a (questAnswers s) -> questAnswers_questId a = questId ->
                     exists r, In r l /\ ar_answer r = a)
       /\ (NoDup (map users_id (users s)) ->
           Permutation (map ar_answer l)
                       (filter (fun a => questAnswers_questId a =? questId)
                               (questAnswers s))).
Proof.
  intros H.
  destruct (migrated_tables w s) as (_ & Hu & _ & _ & _ & Ha & _).
  split.
  - unfold getAllQuests. rewrite (getDb_initialised w s H). rewrite Hu, Ha.
    eexists. split; [reflexivity|]. split.
    + apply StronglySorted_map; cbn [ql_quest].
      apply (desc_sorted (fun row : Quest * option User => quests_createdAt (fst row))).
    + intros Hnd. rewrite map_map; cbn [ql_quest].
      eapply perm_trans.
      * apply Permutation_map, Permutation_sym, orderBy_perm.
      * rewrite leftJoin_users_rows by assumption. apply Permutation_refl.
  - intros questId. unfold getQuestAnswers. rewrite (getDb_initialised w s H).
    rewrite Hu, Ha. eexists. split; [reflexivity|].
    split; [|split; [|split]].
    + apply StronglySorted_map; cbn [ar_answer].
      apply (asc_sorted (fun row : QuestAnswer * option User =>
                           questAnswers_createdAt (fst row))).
    + intros r Hr. apply in_map_iff in Hr. destruct Hr as ([a ou] & <- & Hrow).
      apply In_orderBy, filter_In in Hrow. destruct Hrow as [Hrow Hq].
      apply leftJoin_users_In in Hrow. destruct Hrow as [Hin Hou].
      cbn [fst snd ar_answer ar_authorName ar_authorAvatarUrl] in *.
      apply Z.eqb_eq in Hq. split; [assumption|]. split; [assumption|].
      destruct ou as [u|]; [left | right].
      * exists u. destruct Hou. repeat split; assumption.
      * repeat split. assumption.
    + intros a Hin Hq.
      destruct (leftJoin_users_covers questAnswers_userId (users s) a _ Hin)
        as [ou Hrow].
      exists (mkQuestAnswerRow a (joined_name ou) (joined_avatarUrl ou)).
      split; [|reflexivity].
      apply in_map_iff. exists (a, ou). split; [reflexivity|].
      apply In_orderBy, filter_In. split; [assumption|].
      cbn [fst]. now apply Z.eqb_eq.
    + intros Hnd. rewrite map_map; cbn [ar_answer].
      eapply perm_trans.
      * apply Permutation_map, Permutation_sym, orderBy_perm.
      * rewrite (map_fst_filter (fun a => questAnswers_questId a =? questId)).
        rewrite leftJoin_users_rows by assumption. apply Permutation_refl.
Qed.

Lemma listings_ordered_witness :
  _db world_quests = Some store_quests
  /\ exists l,
       getQuestAnswers 1 world_quests
       = (Ok l, settled (migrated world_quests store_quests))
       /\ StronglySorted
            (fun a b => questAnswers_createdAt (ar_answer a)
                        <= questAnswers_createdAt (ar_answer b)) l.
Proof.
  split; [reflexivity|].
  destruct (listings_ordered world_quests store_quests eq_refl) as [_ Hanswers].
  destruct (Hanswers 1) as (l & Hrun & Hsorted & _).
  exists l. split; assumption.
Defined.

Example getQuestAnswers_sample :
  fst (getQuestAnswers 1 world_quests)
  = Ok [mkQuestAnswerRow (answer_of 2 1 9 5000) None None;
        mkQuestAnswerRow (answer_of 1 1 2 6000) (Some "Bob") None].
Proof. reflexivity. Qed.

Example getAllQuests_sample :
  fst (getAllQuests world_quests)
  = Ok [mkQuestListRow (quest_of 2 1 "open" 4000) (Some "Alice") (Some "a.png") 0;
        mkQuestListRow (quest_of 1 1 "open" 3000) (Some "Alice") (Some "a.png") 2].
Proof. reflexivity. Qed.

(** ** Roles on sign-in *)

Example parseCsvList_sample :
  parseCsvList " a , b,,c " = ["a"; "b"; "c"].
Proof. reflexivity. Qed.

Example ownerOpenIds_single : ownerOpenIds env_owner = ["owner-1"].
Proof. reflexivity. Qed.

Lemma truthy_nonempty (s : string) : s <> EmptyString -> truthy s = true.
Proof. destruct s; [congruence | reflexivity]. Qed.

Lemma upsert_users_present (s : Store) (o : string) (values us : UserFields) (now : Z) :
  exists u, In u (users (upsert_users s o values us now)) /\ users_openId u = o.
Proof.
  unfold upsert_users.
  destruct (existsb (fun u => String.eqb (users_openId u) o) (users s)) eqn:E.
  - apply existsb_exists in E. destruct E as (u0 & Hin & Ho).
    exists (apply_updateSet us u0). cbn [users with_users]. split.
    + apply in_map_iff. exists u0. rewrite Ho. split; [reflexivity | assumption].
    + apply String.eqb_eq in Ho. exact Ho.
  - eexists. cbn [users with_users]. split.
    + apply In_place. left. reflexivity.
    + reflexivity.
Qed.

Lemma upsert_users_role (s : Store) (o : string) (values us : UserFields) (now : Z)
    (u : User) :
  In u (users (upsert_users s o values us now)) ->
  users_openId u = o ->
  (exists u0, In u0 (users s) /\ users_openId u0 = o
              /\ users_role u = orElse (uf_role us) (users_role u0))
  \/ ((forall u0, In u0 (users s) -> users_openId u0 <> o)
      /\ users_role u = orElse (uf_role values) RoleUser).
Proof.
  unfold upsert_users.
  destruct (existsb (fun u => String.eqb (users_openId u) o) (users s)) eqn:E;
    cbn [users with_users]; intros Hin Ho.
  - left. apply in_map_iff in Hin. destruct Hin as (u0 & Hu & Hin).
    destruct (String.eqb_spec (users_openId u0) o) as [Heq|Hne].
    + exists u0. subst u. repeat split; assumption.
    + subst u. contradiction.
  - right.
    assert (Hnone : forall u0, In u0 (users s) -> users_openId u0 <> o).
    { intros u0 Hu0 Heq.
      assert (Hex : existsb (fun u => String.eqb (users_openId u) o) (users s) = true).
      { apply existsb_exists. exists u0. split; [assumption|]. now apply String.eqb_eq. }
      congruence. }
    split; [assumption|].
    apply In_place in Hin. destruct Hin as [->|Hin]; [reflexivity|].
    exfalso. exact (Hnone u Hin Ho).
Qed.

Lemma updateSet_role (assigned : UserFields) (now : Z) :
  uf_role (if no_keys assigned
           then mkUserFields None None None None (Some now) None
           else assigned)
  = uf_role assigned.
Proof.
  unfold no_keys. destruct assigned as [n e a l t r]; cbn.
  destruct n, e, a, l, t, r; reflexivity.
Qed.

(** C9, as the code has it: a role that is supplied is stored as given, also
    for an owner; without a supplied role an identity of the owner allow-list
    is stored as admin, an identity outside it is created with the default
    role [user], and an existing user outside it keeps the role it has. *)
Theorem upsertUser_role (env : Env) (user : InsertUser) (now : Z) (w : World) (s : Store) :
  _db w = Some s ->
  iu_openId user <> EmptyString ->
  exists s' : Store,
    upsertUser env user now w = (Ok tt, settled s')
    /\ (exists u, In u (users s') /\ users_openId u = iu_openId user)
    /\ forall u, In u (users s') -> users_openId u = iu_openId user ->
         match iu_role user with
         | Some r => users_role u = r
         | None =>
           if includes (ownerOpenIds env) (iu_openId user)
           then users_role u = RoleAdmin
           else (exists u0, In u0 (users s) /\ users_openId u0 = iu_openId user
                            /\ users_role u = users_role u0)
                \/ ((forall u0, In u0 (users s) -> users_openId u0 <> iu_openId user)
                    /\ users_role u = RoleUser)
         end.
Proof.
  intros H Hopen. unfold upsertUser.
  rewrite (truthy_nonempty _ Hopen). cbn [negb].
  rewrite (getDb_initialised w s H).
  destruct (migrated_tables w s) as (_ & Hu & _).
  eexists. split; [reflexivity|]. split; [apply upsert_users_present|].
  intros u Hin Ho.
  apply upsert_users_role in Hin; [|assumption].
  rewrite Hu, updateSet_role in Hin. cbn [uf_role] in Hin.
  destruct (iu_role user) as [r|].
  - destruct Hin as [(u0 & _ & _ & Hr)|[_ Hr]]; exact Hr.
  - destruct (includes (ownerOpenIds env) (iu_openId user)).
    + destruct Hin as [(u0 & _ & _ & Hr)|[_ Hr]]; exact Hr.
    + destruct Hin as [(u0 & Hu0 & Ho0 & Hr)|[Hnone Hr]].
      * left. exists u0. repeat split; assumption.
      * right. split; assumption.
Qed.

Lemma upsertUser_role_witness :
  _db world_empty = Some store_empty
  /\ iu_openId (sign_in "owner-1") <> EmptyString
  /\ exists s' : Store,
       upsertUser env_owner (sign_in "owner-1") 9000 world_empty = (Ok tt, settled s')
       /\ forall u, In u (users s') -> users_openId u = "owner-1" ->
                    users_role u = RoleAdmin.
Proof.
  split; [reflexivity|]. split; [discriminate|].
  destruct (upsertUser_role env_owner (sign_in "owner-1") 9000 world_empty store_empty
              eq_refl ltac:(discriminate)) as (s' & Hrun & _ & Hrole).
  exists s'. split; [exact Hrun | exact Hrole].
Defined.

(** C9 as stated fails in both halves.  The allow-list contains "owner-1",
    yet the owner who signs in with the role [user] spelled out is stored as
    [user].  And "carol", outside the allow-list and signing in without a
    role, stays the admin she was. *)
Lemma upsertUser_owner_not_promoted :
  (includes (ownerOpenIds env_owner) (iu_openId owner_as_user) = true
   /\ fst (getUserByOpenId "owner-1"
             (snd (upsertUser env_owner owner_as_user 9000 world_empty)))
      = Ok (Some (mkUser 1 "owner-1" (Some "Owner") None None None RoleUser
                         9000 9000 9000)))
  /\ (includes (ownerOpenIds env_owner) "carol" = false
      /\ iu_role (sign_in "carol") = None
      /\ fst (getUserByOpenId "carol"
                (snd (upsertUser env_owner (sign_in "carol") 9000 world_carol)))
         = Ok (Some (mkUser 1 "carol" (Some "Carol") None None None RoleAdmin
                            1000 1000 9000))).
Proof. repeat split. Qed.

(** ** The id reported after an insert *)

(** Whatever order the engine gives to rows with equal keys, the first row
    of a descending result has the greatest key. *)
Lemma descending_head_greatest {A : Type} (key : A -> Z) (l l' : list A) (c : A) :
  Permutation l l' ->
  StronglySorted (fun a b => key b <= key a) l' ->
  hd_error l' = Some c ->
  In c l /\ forall c', In c' l -> key c' <= key c.
Proof.
  intros Hperm Hs Hhd.
  destruct l' as [|x rest]; [discriminate|]. inversion Hhd; subst x.
  split; [eapply Permutation_in; [apply Permutation_sym, Hperm | now left]|].
  intros c' Hc'. apply (Permutation_in _ Hperm) in Hc'.
  destruct Hc' as [->|Hc']; [lia|].
  inversion Hs as [|? ? _ Hall]; subst. rewrite Forall_forall in Hall. auto.
Qed.

Lemma first_row_desc_greatest {A : Type} (key : A -> Z) (l : list A) (c : A) :
  first_row (orderBy (desc key) l) = Some c ->
  In c l /\ forall c', In c' l -> key c' <= key c.
Proof.
  rewrite first_row_head.
  apply descending_head_greatest; [apply orderBy_perm | apply desc_sorted].
Qed.

Lemma first_row_orderBy_some {A : Type} (le : A -> A -> bool) (l : list A) (x : A) :
  In x l -> exists c, first_row (orderBy le l) = Some c.
Proof.
  intros Hx. apply (In_orderBy le) in Hx. rewrite first_row_head.
  destruct (orderBy le l) as [|c rest]; [destruct Hx | now exists c].
Qed.

Lemma first_row_orderBy_none {A : Type} (le : A -> A -> bool) (l : list A) :
  l = [] -> first_row (orderBy le l) = None.
Proof. intros ->. reflexivity. Qed.

Lemma filter_none {A : Type} (p : A -> bool) (l : list A) :
  (forall x, In x l -> p x = false) -> filter p l = [].
Proof.
  induction l as [|x l IH]; simpl; intros H; [reflexivity|].
  rewrite (H x (or_introl eq_refl)). apply IH. intros y Hy. apply H. now right.
Qed.

Lemma insertId_of_id (i : Z) : insertId_of (Some i) = i.
Proof. unfold insertId_of. destruct (Z.eqb_spec i 0); congruence. Qed.

Lemma insert_caseStudies_row (s s' : Store) (data : InsertCaseStudy) (now : Z) :
  insert_caseStudies s data now = Ok s' ->
  exists i, In (row_of_InsertCaseStudy i data now) (caseStudies s').
Proof.
  unfold insert_caseStudies.
  destruct (new_rowid _ _ _) as [i|e]; [|discriminate].
  destruct (fk_ok _ _ _); [|discriminate].
  intros Heq. inversion Heq; subst. exists i. cbn [caseStudies with_caseStudies].
  apply In_place. now left.
Qed.

Lemma insert_quests_row (s s' : Store) (data : InsertQuest) (now : Z) :
  insert_quests s data now = Ok s' ->
  exists i, In (row_of_InsertQuest i data now) (quests s').
Proof.
  unfold insert_quests.
  destruct (new_rowid _ _ _) as [i|e]; [|discriminate].
  destruct (fk_ok _ _ _); [|discriminate].
  intros Heq. inversion Heq; subst. exists i. cbn [quests with_quests].
  apply In_place. now left.
Qed.

(** C10: when its insert succeeds, [createCaseStudy] answers with the id of a
    case study of the same author whose [createdAt] is greatest among that
    author's rows as they are after the insert (when the insert is refused it
    throws); the id it reports for an empty lookup is 0; and there is a state
    in which the author already has a row with the [createdAt] the new row
    gets, and the id answered is that older row's, not the new one's.
    [createQuest] behaves alike. *)
Theorem create_reports_latest_of_author :
  (forall (data : InsertCaseStudy) (now : Z) (w : World) (s : Store),
      _db w = Some s ->
      match insert_caseStudies (migrated w s) data now with
      | Throw e => createCaseStudy data now w = (Throw e, settled (migrated w s))
      | Ok s' =>
        exists c,
          createCaseStudy data now w = (Ok (caseStudies_id c), settled s')
          /\ In c (caseStudies s')
          /\ caseStudies_userId c = ics_userId data
          /\ forall c', In c' (caseStudies s') ->
                        caseStudies_userId c' = ics_userId data ->
                        caseStudies_createdAt c' <= caseStudies_createdAt c
      end)
  /\ (forall (data : InsertQuest) (now : Z) (w : World) (s : Store),
      _db w = Some s ->
      match insert_quests (migrated w s) data now with
      | Throw e => createQuest data now w = (Throw e, settled (migrated w s))
      | Ok s' =>
        exists q,
          createQuest data now w = (Ok (quests_id q), settled s')
          /\ In q (quests s')
          /\ quests_userId q = iq_userId data
          /\ forall q', In q' (quests s') ->
                        quests_userId q' = iq_userId data ->
                        quests_createdAt q' <= quests_createdAt q
      end)
  /\ (forall (s : Store) (userId : Z),
      (forall c, In c (caseStudies s) -> caseStudies_userId c <> userId) ->
      insertId_of (option_map caseStudies_id (last_caseStudy_of s userId)) = 0)
  /\ (forall (s : Store) (userId : Z),
      (forall q, In q (quests s) -> quests_userId q <> userId) ->
      insertId_of (option_map quests_id (last_quest_of s userId)) = 0)
  /\ (exists (w : World) (s : Store) (data : InsertCaseStudy) (now : Z)
             (s' : Store) (older newer : CaseStudy),
      _db w = Some s
      /\ createCaseStudy data now w = (Ok (caseStudies_id older), settled s')
      /\ In older (caseStudies s)
      /\ ~ In newer (caseStudies s)
      /\ In newer (caseStudies s')
      /\ newer = row_of_InsertCaseStudy (caseStudies_id newer) data now
      /\ caseStudies_userId older = caseStudies_userId newer
      /\ caseStudies_createdAt older = caseStudies_createdAt newer
      /\ caseStudies_id older <> caseStudies_id newer)
  /\ (exists (w : World) (s : Store) (data : InsertQuest) (now : Z)
             (s' : Store) (older newer : Quest),
      _db w = Some s
      /\ createQuest data now w = (Ok (quests_id older), settled s')
      /\ In older (quests s)
      /\ ~ In newer (quests s)
      /\ In newer (quests s')
      /\ newer = row_of_InsertQuest (quests_id newer) data now
      /\ quests_userId older = quests_userId newer
      /\ quests_createdAt older = quests_createdAt newer
      /\ quests_id older <> quests_id newer).
Proof.
  split; [|split; [|split; [|split; [|split]]]].
  - intros data now w s H. unfold createCaseStudy.
    rewrite (getDb_initialised w s H).
    destruct (insert_caseStudies (migrated w s) data now) as [s'|e] eqn:E;
      [|reflexivity].
    destruct (insert_caseStudies_row _ _ _ _ E) as [i Hrow].
    assert (Hsel : In (row_of_InsertCaseStudy i data now)
                      (filter (fun c => caseStudies_userId c =? ics_userId data)
                              (caseStudies s'))).
    { apply filter_In. split; [assumption|]. apply Z.eqb_refl. }
    destruct (first_row_orderBy_some (desc caseStudies_createdAt) _ _ Hsel) as [c Hc].
    exists c. unfold last_caseStudy_of. rewrite Hc. cbn [option_map].
    rewrite insertId_of_id. split; [reflexivity|].
    apply first_row_desc_greatest in Hc. destruct Hc as [Hin Hmax].
    apply filter_In in Hin. destruct Hin as [Hin Hu]. apply Z.eqb_eq in Hu.
    repeat split; try assumption.
    intros c' Hc' Hu'. apply Hmax. apply filter_In. split; [assumption|].
    now apply Z.eqb_eq.
  - intros data now w s H. unfold createQuest.
    rewrite (getDb_initialised w s H).
    destruct (insert_quests (migrated w s) data now) as [s'|e] eqn:E;
      [|reflexivity].
    destruct (insert_quests_row _ _ _ _ E) as [i Hrow].
    assert (Hsel : In (row_of_InsertQuest i data now)
                      (filter (fun q => quests_userId q =? iq_userId data)
                              (quests s'))).
    { apply filter_In. split; [assumption|]. apply Z.eqb_refl. }
    destruct (first_row_orderBy_some (desc quests_createdAt) _ _ Hsel) as [q Hq].
    exists q. unfold last_quest_of. rewrite Hq. cbn [option_map].
    rewrite insertId_of_id. split; [reflexivity|].
    apply first_row_desc_greatest in Hq. destruct Hq as [Hin Hmax].
    apply filter_In in Hin. destruct Hin as [Hin Hu]. apply Z.eqb_eq in Hu.
    repeat split; try assumption.
    intros q' Hq' Hu'. apply Hmax. apply filter_In. split; [assumption|].
    now apply Z.eqb_eq.
  - intros s userId Hnone. unfold last_caseStudy_of.
    rewrite first_row_orderBy_none; [reflexivity|].
    apply filter_none. intros c Hc. apply Z.eqb_neq. auto.
  - intros s userId Hnone. unfold last_quest_of.
    rewrite first_row_orderBy_none; [reflexivity|].
    apply filter_none. intros q Hq. apply Z.eqb_neq. auto.
  - exists world_posts, store_posts, new_post, 6400.
    eexists. exists (post_of 2 1 6000), (row_of_InsertCaseStudy 3 new_post 6400).
    split; [reflexivity|]. split; [reflexivity|].
    split; [right; left; reflexivity|].
    split; [intros [Hin|[Hin|[]]]; discriminate|].
    split; [right; right; left; reflexivity|].
    repeat split; discriminate.
  - exists world_quests, store_quests, new_quest, 4999.
    eexists. exists (quest_of 2 1 "open" 4000), (row_of_InsertQuest 3 new_quest 4999).
    split; [reflexivity|]. split; [reflexivity|].
    split; [right; left; reflexivity|].
    split; [intros [Hin|[Hin|[]]]; discriminate|].
    split; [right; right; left; reflexivity|].
    repeat split; discriminate.
Qed.

Example createCaseStudy_tie :
  fst (createCaseStudy new_post 6400 world_posts) = Ok 2
  /\ option_map caseStudies (_db (snd (createCaseStudy new_post 6400 world_posts)))
     = Some [post_of 1 1 5000; post_of 2 1 6000;
             row_of_InsertCaseStudy 3 new_post 6400].
Proof. split; reflexivity. Qed.

Lemma create_reports_latest_of_author_witness :
  _db world_posts = Some store_posts
  /\ exists c,
       createCaseStudy new_post 6400 world_posts
       = (Ok (caseStudies_id c),
          settled (with_caseStudies store_posts
                     [post_of 1 1 5000; post_of 2 1 6000;
                      row_of_InsertCaseStudy 3 new_post 6400] 3))
       /\ caseStudies_userId c = 1.
Proof.
  split; [reflexivity|].
  destruct (proj1 create_reports_latest_of_author new_post 6400 world_posts
              store_posts eq_refl) as (c & Hrun & _ & Hu & _).
  exists c. split; [exact Hrun | exact Hu].
Defined.

(** ** Reading the status *)

Lemma questCounts_fold (l : list QuestListRow) (c : QuestPage.QuestCounts) :
  fold_left
    (fun c quest =>
       QuestPage.bump c (QuestPage.normalizeQuestStatus
                           (Some (quests_status (ql_quest quest))))) l c
  = fold_left QuestPage.bump
      (map (fun quest => QuestPage.normalizeQuestStatus
                           (Some (quests_status (ql_quest quest)))) l) c.
Proof.
  revert c. induction l as [|q l IH]; intros c; simpl; [reflexivity | apply IH].
Qed.

(** C6, as the code has it: [normalizeQuestStatus] reads the stored value
    "closed" as [unsolved], and every consumer of the four-state quest page
    (the status shown, the closed flag, the status filter, the badge and the
    counters) goes through it, so an entry stored as "closed" is treated as
    the same entry stored as "unsolved". *)
Theorem closed_reads_as_unsolved :
  QuestPage.normalizeQuestStatus (Some "closed") = QuestPage.unsolved
  /\ QuestPage.normalizeQuestStatus (Some "unsolved") = QuestPage.unsolved
  /\ forall q : QuestListRow,
       QuestPage.selectedQuestStatus (Some (with_status q "closed"))
       = QuestPage.selectedQuestStatus (Some (with_status q "unsolved"))
       /\ QuestPage.isSelectedQuestClosed (Some (with_status q "closed"))
          = QuestPage.isSelectedQuestClosed (Some (with_status q "unsolved"))
       /\ (forall f, QuestPage.matchesFilter f (with_status q "closed")
                     = QuestPage.matchesFilter f (with_status q "unsolved"))
       /\ QuestPage.getQuestStatusMeta_label
            (QuestPage.normalizeQuestStatus
               (Some (quests_status (ql_quest (with_status q "closed")))))
          = "Unsolved"
       /\ (forall search f,
              map (fun x => with_status x "unsolved")
                  (QuestPage.filteredQuests search f [with_status q "closed"])
              = QuestPage.filteredQuests search f [with_status q "unsolved"])
       /\ (forall before after,
              QuestPage.questCounts (before ++ with_status q "closed" :: after)%list
              = QuestPage.questCounts (before ++ with_status q "unsolved" :: after)%list).
Proof.
  split; [reflexivity|]. split; [reflexivity|].
  intros q. split; [reflexivity|]. split; [reflexivity|].
  split; [intros f; reflexivity|]. split; [reflexivity|].
  split.
  { intros search f. unfold QuestPage.filteredQuests. cbn [List.filter].
    change (QuestPage.matchesFilter f (with_status q "closed"))
      with (QuestPage.matchesFilter f (with_status q "unsolved")).
    cbn [with_status ql_quest ql_authorName quests_title quests_content].
    destruct (_ && _); reflexivity. }
  intros before after. unfold QuestPage.questCounts.
  rewrite !questCounts_fold, !map_app, !length_app. reflexivity.
Qed.

(** C6 as stated fails on the two-state quest page, which compares the stored
    text with "closed": the same entry counts as closed when stored as
    "closed" and as open when stored as "unsolved". *)
Lemma legacy_page_tells_closed_from_unsolved :
  entry_closed = with_status entry_unsolved "closed"
  /\ LegacyQuestPage.isSelectedQuestClosed (Some entry_closed) = true
  /\ LegacyQuestPage.isSelectedQuestClosed (Some entry_unsolved) = false
  /\ LegacyQuestPage.matchesFilter LegacyQuestPage.closed entry_closed = true
  /\ LegacyQuestPage.matchesFilter LegacyQuestPage.closed entry_unsolved = false
  /\ LegacyQuestPage.badge entry_closed = "Closed"
  /\ LegacyQuestPage.badge entry_unsolved = "Open".
Proof. repeat split. Qed.

(** The one-time backfill of [ensureQuestTables]: the first handle handed out
    is on a store without the stored value "closed". *)
Lemma getDb_backfills (w : World) (s : Store) :
  _db w = Some s ->
  _questTablesEnsured w = false ->
  forall q, In q (quests (migrated w s)) -> quests_status q <> "closed".
Proof.
  intros _ Hflag q. unfold migrated. rewrite Hflag. cbn [quests with_quests].
  intros Hin. apply in_map_iff in Hin. destruct Hin as (q0 & <- & _).
  unfold backfill_status.
  destruct (String.eqb_spec (quests_status q0) "closed"); cbn [quests_status];
    [discriminate | assumption].
Qed.

(** ** Favorites *)

Lemma limit1_nonempty {A : Type} (p : A -> bool) (l : list A) :
  (0 <? Z.of_nat (List.length (firstn 1 (filter p l)))) = existsb p l.
Proof.
  induction l as [|x l IH]; [reflexivity|].
  cbn [filter existsb]. destruct (p x); [reflexivity | exact IH].
Qed.

Lemma isFavorite_run (u c : Z) (w : World) (s : Store) :
  _db w = Some s ->
  isFavorite u c w
  = (Ok (existsb (favorite_of u c) (favorites s)), settled (migrated w s)).
Proof.
  intros H. unfold isFavorite. rewrite (getDb_initialised w s H).
  destruct (migrated_tables w s) as (_ & _ & _ & Hf & _).
  now rewrite limit1_nonempty, Hf.
Qed.

Lemma toggleFavorite_run (caller : Caller) (c now : Z) (w : World) (s : Store) :
  _db w = Some s ->
  Router.caseStudies_toggleFavorite caller c now w
  = (Ok (Router.mkToggleResult
           (negb (existsb (favorite_of (caller_id caller) c) (favorites s)))),
     settled (toggled (caller_id caller) c now (migrated w s))).
Proof.
  intros H. unfold Router.caseStudies_toggleFavorite, bind.
  rewrite (isFavorite_run _ _ w s H).
  destruct (migrated_tables w s) as (_ & _ & _ & Hf & _).
  rewrite <- Hf. unfold toggled.
  destruct (existsb (favorite_of (caller_id caller) c) (favorites (migrated w s))).
  - unfold removeFavorite. rewrite (getDb_initialised (settled _) _ eq_refl).
    reflexivity.
  - unfold addFavorite. rewrite (getDb_initialised (settled _) _ eq_refl).
    rewrite migrated_settled.
    destruct (insert_favorites (migrated w s) _ now); reflexivity.
Qed.

Section CountingRows.
Context {A : Type} (le : A -> A -> bool) (p : A -> bool).

Lemma filter_place_length (x : A) (l : list A) :
  List.length (filter p (place le x l)) = List.length (filter p (x :: l)).
Proof.
  induction l as [|y l IH]; [reflexivity|].
  cbn [place]. destruct (le x y); [reflexivity|].
  cbn [filter] in *. destruct (p y), (p x); cbn [List.length] in *; lia.
Qed.

Lemma existsb_place (x : A) (l : list A) :
  existsb p (place le x l) = p x || existsb p l.
Proof.
  induction l as [|y l IH]; [reflexivity|].
  cbn [place]. destruct (le x y); [reflexivity|].
  cbn [existsb]. rewrite IH. destruct (p x), (p y); reflexivity.
Qed.

Lemma filter_delete_length (d : A -> bool) (l : list A) :
  (List.length (filter p (delete_where d l)) <= List.length (filter p l))%nat.
Proof.
  induction l as [|y l IH]; [apply le_n|].
  cbn [delete_where filter] in *. fold (delete_where d l).
  destruct (d y); cbn [negb filter]; destruct (p y); cbn [List.length]; lia.
Qed.

Lemma delete_where_none (l : list A) :
  existsb p l = false -> delete_where p l = l.
Proof.
  induction l as [|y l IH]; [reflexivity|].
  cbn [existsb delete_where filter]. intros Hl.
  apply orb_false_iff in Hl. destruct Hl as [Hy Hl].
  rewrite Hy. cbn [negb]. f_equal. apply IH, Hl.
Qed.

Lemma delete_where_place_new (x : A) (l : list A) :
  p x = true -> existsb p l = false ->
  delete_where p (place le x l) = l.
Proof.
  intros Hx. induction l as [|y l IH]; cbn [place existsb delete_where filter].
  - now rewrite Hx.
  - intros Hl. apply orb_false_iff in Hl. destruct Hl as [Hy Hl].
    destruct (le x y); cbn [filter]; rewrite ?Hx, Hy; cbn [negb].
    + f_equal. apply delete_where_none. exact Hl.
    + f_equal. apply IH, Hl.
Qed.

Lemma existsb_delete_same (l : list A) : existsb p (delete_where p l) = false.
Proof.
  induction l as [|y l IH]; [reflexivity|].
  cbn [delete_where filter]. destruct (p y) eqn:E; cbn [negb existsb];
    rewrite ?E; exact IH.
Qed.

Lemma existsb_delete_other (d : A -> bool) (l : list A) :
  (forall x, p x = true -> d x = false) ->
  existsb p (delete_where d l) = existsb p l.
Proof.
  intros Hpd. induction l as [|y l IH]; [reflexivity|].
  cbn [delete_where filter existsb]. fold (delete_where d l).
  destruct (d y) eqn:E; cbn [negb existsb]; rewrite IH; [|reflexivity].
  destruct (p y) eqn:Ep; [|reflexivity].
  rewrite (Hpd y Ep) in E. discriminate.
Qed.
End CountingRows.

Lemma favorite_of_row (i u c t : Z) : favorite_of u c (mkFavorite i u c t) = true.
Proof. unfold favorite_of. cbn. now rewrite !Z.eqb_refl. Qed.

Lemma favorite_of_pair (u c u' c' : Z) (f : Favorite) :
  favorite_of u c f = true -> favorite_of u' c' f = true -> u' = u /\ c' = c.
Proof.
  unfold favorite_of. rewrite !andb_true_iff, !Z.eqb_eq. intuition congruence.
Qed.

Lemma filter_absent {A : Type} (p : A -> bool) (l : list A) :
  existsb p l = false -> filter p l = [].
Proof.
  intros H. apply filter_none. intros x Hx.
  destruct (p x) eqn:E; [|reflexivity].
  assert (existsb p l = true) by (apply existsb_exists; eauto). congruence.
Qed.

(** One toggle, on the store alone. *)
Lemma toggled_step (u c now : Z) (s : Store) :
  favorites_unique s ->
  favorites_unique (toggled u c now s)
  /\ foreign_keys (toggled u c now s) = foreign_keys s
  /\ users (toggled u c now s) = users s
  /\ caseStudies (toggled u c now s) = caseStudies s
  /\ (existsb (favorite_of u c) (favorites s) = true ->
      favorites (toggled u c now s) = delete_where (favorite_of u c) (favorites s))
  /\ (existsb (favorite_of u c) (favorites s) = false ->
      (fk_ok s (map users_id (users s)) u
       && fk_ok s (map caseStudies_id (caseStudies s)) c = true
       /\ exists i t,
            favorites (toggled u c now s)
            = place (asc favorites_id) (mkFavorite i u c t) (favorites s))
      \/ (fk_ok s (map users_id (users s)) u
          && fk_ok s (map caseStudies_id (caseStudies s)) c = false
          /\ toggled u c now s = s)).
Proof.
  intros Huniq. unfold toggled, insert_favorites.
  cbn [new_rowid ifv_id ifv_userId ifv_caseStudyId ifv_createdAt orElse].
  change (fun f => same_pair u c (favorites_userId f) (favorites_caseStudyId f))
    with (favorite_of u c).
  destruct (existsb (favorite_of u c) (favorites s)) eqn:E.
  - cbn [favorites foreign_keys users caseStudies with_favorites].
    repeat split; try discriminate.
    intros u' c'. eapply Nat.le_trans; [apply filter_delete_length | apply Huniq].
  - destruct (fk_ok s (map users_id (users s)) u
              && fk_ok s (map caseStudies_id (caseStudies s)) c) eqn:Efk.
    + cbn [favorites foreign_keys users caseStudies with_favorites].
      repeat split; try discriminate.
      * intros u' c'. cbn [favorites with_favorites].
        rewrite filter_place_length. cbn [filter].
        destruct (favorite_of u' c' (mkFavorite _ u c (nowMs now))) eqn:Enew.
        -- destruct (favorite_of_pair _ _ _ _ _ (favorite_of_row _ u c _) Enew)
             as [-> ->].
           rewrite (filter_absent _ _ E). cbn. lia.
        -- apply Huniq.
      * intros _. left. split; [reflexivity|]. eauto.
    + repeat split; try discriminate; try assumption.
      intros _. right. split; reflexivity.
Qed.

Lemma filter_delete_same {A : Type} (p : A -> bool) (l : list A) :
  filter p (delete_where p l) = [].
Proof. apply filter_absent, existsb_delete_same. Qed.

(** C3: two toggles by the same user on the same case study bring the
    favorites relation back: every pair is a favorite afterwards exactly when
    it was before; when the pair was absent the favorites table itself is as
    it was; and with the unique index in force at the start it is in force
    after each of the two toggles, so the pair never has more than one row. *)
Theorem toggleFavorite_twice (caller : Caller) (caseStudyId now1 now2 : Z)
    (w : World) (s : Store) :
  _db w = Some s ->
  favorites_unique s ->
  favorites_refer s ->
  exists (s1 s2 : Store) (r1 r2 : Router.ToggleResult),
    Router.caseStudies_toggleFavorite caller caseStudyId now1 w = (Ok r1, settled s1)
    /\ Router.caseStudies_toggleFavorite caller caseStudyId now2 (settled s1)
       = (Ok r2, settled s2)
    /\ (forall u c, existsb (favorite_of u c) (favorites s2)
                    = existsb (favorite_of u c) (favorites s))
    /\ (existsb (favorite_of (caller_id caller) caseStudyId) (favorites s) = false ->
        favorites s2 = favorites s)
    /\ favorites_unique s1
    /\ favorites_unique s2.
Proof.
  intros H Huniq Hrefer.
  destruct (migrated_tables w s) as (Hfk & Hu & Hc & Hf & _).
  set (me := caller_id caller).
  set (s0 := migrated w s) in *.
  set (s1 := toggled me caseStudyId now1 s0).
  set (s2 := toggled me caseStudyId now2 s1).
  assert (Huniq0 : favorites_unique s0).
  { intros u c. rewrite Hf. apply Huniq. }
  destruct (toggled_step me caseStudyId now1 s0 Huniq0)
    as (Huniq1 & Hfk1 & Hu1 & Hc1 & Hdel1 & Hins1).
  destruct (toggled_step me caseStudyId now2 s1 Huniq1)
    as (Huniq2 & Hfk2 & Hu2 & Hc2 & Hdel2 & Hins2).
  fold s1 in Huniq1, Hfk1, Hu1, Hc1, Hdel1, Hins1, Hdel2, Hins2.
  fold s2 in Huniq2, Hfk2, Hu2, Hc2, Hdel2, Hins2.
  exists s1, s2. do 2 eexists.
  split; [apply (toggleFavorite_run caller caseStudyId now1 w s H)|].
  split.
  { rewrite (toggleFavorite_run caller caseStudyId now2 (settled s1) s1 eq_refl).
    rewrite migrated_settled. reflexivity. }
  assert (Hfkeq : forall (parents : list Z) i,
             fk_ok s1 parents i = fk_ok s0 parents i).
  { intros parents i. unfold fk_ok. now rewrite Hfk1. }
  rewrite <- Hf.
  destruct (existsb (favorite_of me caseStudyId) (favorites s0)) eqn:E.
  - (* present: deleted, then inserted again *)
    specialize (Hdel1 eq_refl). clear Hins1.
    assert (E1 : existsb (favorite_of me caseStudyId) (favorites s1) = false)
      by (rewrite Hdel1; apply existsb_delete_same).
    assert (Hok : fk_ok s1 (map users_id (users s1)) me
                  && fk_ok s1 (map caseStudies_id (caseStudies s1)) caseStudyId = true).
    { apply existsb_exists in E. destruct E as (f & Hin & Hpair).
      rewrite Hu1, Hc1, !Hfkeq.
      unfold favorite_of in Hpair. apply andb_true_iff in Hpair.
      destruct Hpair as [Hfu Hfc]. apply Z.eqb_eq in Hfu, Hfc.
      assert (Hin' : In f (favorites s)) by (rewrite <- Hf; exact Hin).
      destruct (Hrefer f Hin') as [Hru Hrc]. rewrite Hfu, Hfc in *.
      unfold s0, fk_ok in *. rewrite Hfk, Hu, Hc. now rewrite Hru, Hrc. }
    destruct (Hins2 E1) as [(_ & i & t & Hfav2)|(Hbad & _)]; [|congruence].
    repeat split; try assumption; try discriminate.
    intros u c. rewrite Hfav2, existsb_place, Hdel1.
    destruct (favorite_of u c (mkFavorite i me caseStudyId t)) eqn:Enew.
    + destruct (favorite_of_pair _ _ _ _ _ (favorite_of_row i me caseStudyId t) Enew)
        as [-> ->].
      cbn [orb]. symmetry. apply existsb_exists.
      apply existsb_exists in E. exact E.
    + cbn [orb]. apply existsb_delete_other. intros f Hpair.
      destruct (favorite_of me caseStudyId f) eqn:Eme; [|reflexivity].
      destruct (favorite_of_pair _ _ _ _ _ Eme Hpair) as [-> ->].
      unfold favorite_of in *. cbn in Enew. rewrite !Z.eqb_refl in Enew.
      discriminate.
  - (* absent: inserted and deleted again, or refused both times *)
    clear Hdel1.
    destruct (Hins1 eq_refl) as [(_ & i & t & Hfav1)|(Hbad & Hsame)].
    + assert (E1 : existsb (favorite_of me caseStudyId) (favorites s1) = true).
      { rewrite Hfav1, existsb_place, favorite_of_row. reflexivity. }
      specialize (Hdel2 E1).
      assert (Hback : favorites s2 = favorites s0).
      { rewrite Hdel2, Hfav1.
        apply delete_where_place_new; [apply favorite_of_row | exact E]. }
      split; [intros u c; now rewrite Hback|].
      split; [intros _; exact Hback|]. split; assumption.
    + assert (E1 : existsb (favorite_of me caseStudyId) (favorites s1) = false)
        by (rewrite Hsame; exact E).
      destruct (Hins2 E1) as [(Hgood & _)|(_ & Hsame2)].
      * rewrite Hsame in Hgood. congruence.
      * assert (Hback : favorites s2 = favorites s0) by (rewrite Hsame2, Hsame; reflexivity).
        split; [intros u c; now rewrite Hback|].
        split; [intros _; exact Hback|]. split; assumption.
Qed.

Lemma store_posts_unique : favorites_unique store_posts.
Proof.
  intros u c. unfold store_posts. cbn [favorites filter]. unfold favorite_of.
  cbn [favorites_userId favorites_caseStudyId].
  destruct (Z.eqb_spec 2 u), (Z.eqb_spec 1 c), (Z.eqb_spec 1 u), (Z.eqb_spec 2 c);
    cbn [andb List.length]; lia.
Qed.

Lemma store_posts_refer : favorites_refer store_posts.
Proof.
  intros f [<-|[<-|[]]]; split; reflexivity.
Qed.

Lemma toggleFavorite_twice_witness :
  _db world_posts = Some store_posts
  /\ favorites_unique store_posts
  /\ favorites_refer store_posts
  /\ exists (s1 s2 : Store) (r1 r2 : Router.ToggleResult),
       Router.caseStudies_toggleFavorite caller_bob 1 9000 world_posts
       = (Ok r1, settled s1)
       /\ Router.caseStudies_toggleFavorite caller_bob 1 9500 (settled s1)
          = (Ok r2, settled s2)
       /\ (forall u c, existsb (favorite_of u c) (favorites s2)
                       = existsb (favorite_of u c) (favorites store_posts)).
Proof.
  split; [reflexivity|].
  split; [exact store_posts_unique|].
  split; [exact store_posts_refer|].
  destruct (toggleFavorite_twice caller_bob 1 9000 9500 world_posts store_posts
              eq_refl store_posts_unique store_posts_refer)
    as (s1 & s2 & r1 & r2 & Hrun1 & Hrun2 & Hsame & _).
  exists s1, s2, r1, r2. repeat split; assumption.
Defined.

Example toggle_absent_twice :
  let w1 := snd (Router.caseStudies_toggleFavorite caller_bob 2 9000 world_posts) in
  let w2 := snd (Router.caseStudies_toggleFavorite caller_bob 2 9500 w1) in
  option_map favorites (_db w1)
  = Some [mkFavorite 1 2 1 7000; mkFavorite 2 1 2 7000; mkFavorite 3 2 2 9000]
  /\ option_map favorites (_db w2) = Some (favorites store_posts).
Proof. split; reflexivity. Qed.

Example toggle_present_twice :
  let w1 := snd (Router.caseStudies_toggleFavorite caller_bob 1 9000 world_posts) in
  let w2 := snd (Router.caseStudies_toggleFavorite caller_bob 1 9500 w1) in
  option_map favorites (_db w1) = Some [mkFavorite 2 1 2 7000]
  /\ option_map favorites (_db w2)
     = Some [mkFavorite 2 1 2 7000; mkFavorite 3 2 1 9000].
Proof. split; reflexivity. Qed.

(** ** Reports *)

Lemma getCaseStudyById_run (id : Z) (w : World) (s : Store) :
  _db w = Some s ->
  getCaseStudyById id w
  = (Ok (first_row (filter (fun c => caseStudies_id c =? id) (caseStudies s))),
     settled (migrated w s)).
Proof.
  intros H. unfold getCaseStudyById. rewrite (getDb_initialised w s H).
  destruct (migrated_tables w s) as (_ & _ & Hc & _). now rewrite Hc.
Qed.

Lemma report_of_row (i u c t : Z) : report_of u c (mkReport i u c t) = true.
Proof. unfold report_of. cbn. now rewrite !Z.eqb_refl. Qed.

Lemma first_row_found {A : Type} (p : A -> bool) (l : list A) (x : A) :
  first_row (filter p l) = Some x -> In x l /\ p x = true.
Proof.
  rewrite first_row_head. intros Hhd. apply filter_In.
  destruct (filter p l) as [|y rest]; [discriminate|].
  inversion Hhd; subst. now left.
Qed.

Lemma has_id_In (ids : list Z) (i : Z) : In i ids -> has_id ids i = true.
Proof.
  intros Hin. unfold has_id. apply existsb_exists. exists i.
  split; [assumption | apply Z.eqb_refl].
Qed.

(** C4: a report by the author of the case study is rejected, by the
    procedure and already by the page; a first report by another user
    succeeds and adds exactly one row for the pair; a second one by the same
    user answers "already reported" and leaves the store as it is. *)
Theorem report_once (caller : Caller) (caseStudyId now1 now2 : Z)
    (w : World) (s : Store) (post : CaseStudy) :
  _db w = Some s ->
  fst (getCaseStudyById caseStudyId w) = Ok (Some post) ->
  (caseStudies_userId post = caller_id caller ->
   Router.caseStudies_report caller caseStudyId now1 w
   = (Throw (Trpc FORBIDDEN), settled (migrated w s))
   /\ HomePage.handleReportCase true (Some (caller_id caller)) caseStudyId
        (caseStudies_userId post)
      = HomePage.ToastError "You cannot report your own post.")
  /\ (caseStudies_userId post <> caller_id caller ->
      fk_ok s (map users_id (users s)) (caller_id caller) = true ->
      existsb (report_of (caller_id caller) caseStudyId) (reports s) = false ->
      exists (s1 : Store) (r : Report),
        Router.caseStudies_report caller caseStudyId now1 w
        = (Ok (Router.mkReportResult true false), settled s1)
        /\ reports_userId r = caller_id caller
        /\ reports_caseStudyId r = caseStudyId
        /\ Permutation (r :: reports s) (reports s1)
        /\ List.length (filter (report_of (caller_id caller) caseStudyId) (reports s1))
           = 1%nat
        /\ Router.caseStudies_report caller caseStudyId now2 (settled s1)
           = (Ok (Router.mkReportResult true true), settled s1)).
Proof.
  intros H Hfound.
  rewrite (getCaseStudyById_run caseStudyId w s H) in Hfound. cbn [fst] in Hfound.
  inversion Hfound as [Hpost]. clear Hfound.
  destruct (migrated_tables w s) as (Hfk & Hu & Hc & _ & Hr & _).
  set (me := caller_id caller). set (s0 := migrated w s) in *.
  split.
  - intros Hown. split.
    + unfold Router.caseStudies_report, bind.
      rewrite (getCaseStudyById_run caseStudyId w s H), Hpost.
      fold me. rewrite Hown, Z.eqb_refl. reflexivity.
    + unfold HomePage.handleReportCase. cbn [negb]. fold me.
      rewrite Hown, Z.eqb_refl. reflexivity.
  - intros Hother Huser Hfirst.
    apply first_row_found in Hpost as Hpost'. destruct Hpost' as [Hin Hid].
    apply Z.eqb_eq in Hid.
    assert (Hparent : fk_ok s0 (map caseStudies_id (caseStudies s0)) caseStudyId = true).
    { unfold fk_ok. rewrite Hc. apply orb_true_iff. right.
      apply has_id_In. rewrite <- Hid. now apply in_map. }
    assert (Huser0 : fk_ok s0 (map users_id (users s0)) me = true).
    { unfold fk_ok in *. now rewrite Hfk, Hu. }
    assert (Hfirst0 : existsb (report_of me caseStudyId) (reports s0) = false)
      by now rewrite Hr.
    set (i := Z.max (seq_reports s0) (max_id (map reports_id (reports s0))) + 1).
    set (r := mkReport i me caseStudyId (nowMs now1)).
    set (s1 := with_reports s0 (place (asc reports_id) r (reports s0))
                            (Z.max (seq_reports s0) i)).
    assert (Hins1 : insert_reports s0 (mkInsertReport None me caseStudyId None) now1
                    = Ok s1).
    { unfold insert_reports.
      cbn [new_rowid irp_id irp_userId irp_caseStudyId irp_createdAt orElse].
      change (fun x => same_pair me caseStudyId (reports_userId x) (reports_caseStudyId x))
        with (report_of me caseStudyId).
      now rewrite Hfirst0, Huser0, Hparent. }
    assert (Hins2 : insert_reports s1 (mkInsertReport None me caseStudyId None) now2
                    = Throw (Sql UniqueConstraint)).
    { unfold insert_reports.
      cbn [new_rowid irp_id irp_userId irp_caseStudyId irp_createdAt orElse].
      change (fun x => same_pair me caseStudyId (reports_userId x) (reports_caseStudyId x))
        with (report_of me caseStudyId).
      replace (reports s1) with (place (asc reports_id) r (reports s0))
        by reflexivity.
      rewrite existsb_place. unfold r at 1. now rewrite report_of_row. }
    assert (Hneq : (caseStudies_userId post =? me) = false) by now apply Z.eqb_neq.
    exists s1, r. split; [|split; [|split; [|split; [|split]]]].
    + unfold Router.caseStudies_report, bind.
      rewrite (getCaseStudyById_run caseStudyId w s H), Hpost.
      fold me. rewrite Hneq. fold s0.
      unfold createReport. rewrite (getDb_initialised (settled s0) s0 eq_refl).
      rewrite migrated_settled. fold me. rewrite Hins1. reflexivity.
    + reflexivity.
    + reflexivity.
    + unfold s1. cbn [reports with_reports]. rewrite <- Hr. apply place_perm.
    + unfold s1. cbn [reports with_reports]. rewrite filter_place_length.
      cbn [filter]. unfold r at 1. rewrite report_of_row.
      rewrite (filter_absent _ _ Hfirst0). reflexivity.
    + unfold Router.caseStudies_report, bind.
      rewrite (getCaseStudyById_run caseStudyId (settled s1) s1 eq_refl).
      rewrite migrated_settled.
      replace (caseStudies s1) with (caseStudies s) by (symmetry; exact Hc).
      rewrite Hpost. fold me. rewrite Hneq.
      unfold createReport. rewrite (getDb_initialised (settled s1) s1 eq_refl).
      rewrite migrated_settled. fold me. rewrite Hins2. reflexivity.
Qed.

Lemma report_once_witness :
  _db world_posts = Some store_posts
  /\ fst (getCaseStudyById 2 world_posts) = Ok (Some (post_of 2 1 6000))
  /\ caseStudies_userId (post_of 2 1 6000) <> caller_id caller_bob
  /\ exists (s1 : Store) (r : Report),
       Router.caseStudies_report caller_bob 2 9000 world_posts
       = (Ok (Router.mkReportResult true false), settled s1)
       /\ Router.caseStudies_report caller_bob 2 9500 (settled s1)
          = (Ok (Router.mkReportResult true true), settled s1).
Proof.
  split; [reflexivity|]. split; [reflexivity|]. split; [discriminate|].
  destruct (proj2 (report_once caller_bob 2 9000 9500 world_posts store_posts
                     (post_of 2 1 6000) eq_refl eq_refl)
              ltac:(discriminate) eq_refl eq_refl)
    as (s1 & r & Hfirst & _ & _ & _ & _ & Hsecond).
  exists s1, r. split; assumption.
Defined.

Example report_own_post :
  Router.caseStudies_report caller_alice 2 9000 world_posts
  = (Throw (Trpc FORBIDDEN), settled store_posts).
Proof. reflexivity. Qed.

(** ** Closing a quest *)

Lemma getQuestById_run (id : Z) (w : World) (s : Store) :
  _db w = Some s ->
  getQuestById id w
  = (Ok (option_map
           (fun row => mkQuestDetailRow (fst row) (joined_name (snd row))
                                        (joined_avatarUrl (snd row)))
           (first_row
              (filter (fun row => quests_id (fst row) =? id)
                      (leftJoin_users quests_userId (users s)
                                      (quests (migrated w s)))))),
     settled (migrated w s)).
Proof.
  intros H. unfold getQuestById. rewrite (getDb_initialised w s H).
  destruct (migrated_tables w s) as (_ & Hu & _). now rewrite Hu.
Qed.

Lemma getQuestById_again (id : Z) (w : World) (s : Store) :
  _db w = Some s ->
  fst (getQuestById id (settled (migrated w s))) = fst (getQuestById id w).
Proof.
  intros H.
  rewrite (getQuestById_run id w s H).
  rewrite (getQuestById_run id (settled (migrated w s)) (migrated w s) eq_refl).
  rewrite migrated_settled.
  destruct (migrated_tables w s) as (_ & Hu & _). now rewrite Hu.
Qed.

(** C2: closing a quest that is already finished, suspended or unsolved, by
    its author, answers "already closed" whatever outcome and answer are
    requested, writes nothing, and the quest reads back exactly as before;
    the page then shows the "already closed" message and keeps the dialog. *)
Theorem close_again_is_noop (caller : Caller) (input : QuestPage.CloseInput) (now : Z)
    (w : World) (s : Store) (row : QuestDetailRow) :
  _db w = Some s ->
  fst (getQuestById (QuestPage.questId input) w) = Ok (Some row) ->
  quests_userId (qd_quest row) = caller_id caller ->
  quests_status (qd_quest row) = "finished"
  \/ quests_status (qd_quest row) = "suspended"
  \/ quests_status (qd_quest row) = "unsolved" ->
  exists w',
    Router.quests_close caller input now w = (Ok (Router.mkCloseResult true true), w')
    /\ w' = snd (getDb w)
    /\ fst (getQuestById (QuestPage.questId input) w') = Ok (Some row)
    /\ QuestPage.closeQuestMutation_onSuccess true
       = (QuestPage.ToastMessage "Quest was already closed.", false).
Proof.
  intros H Hfound Hauthor Hterminal.
  exists (settled (migrated w s)).
  split; [|split; [|split]].
  - unfold Router.quests_close, bind.
    rewrite (getQuestById_run _ w s H) in Hfound |- *.
    cbn [fst] in Hfound. inversion Hfound as [Hrow]. rewrite Hrow.
    rewrite Hauthor, Z.eqb_refl. cbn [negb].
    destruct Hterminal as [ -> | [ -> | -> ] ]; reflexivity.
  - now rewrite (getDb_initialised w s H).
  - rewrite (getQuestById_again _ w s H). exact Hfound.
  - reflexivity.
Qed.

Lemma close_again_is_noop_witness :
  _db world_finished = Some store_finished
  /\ exists row,
       fst (getQuestById 1 world_finished) = Ok (Some row)
       /\ quests_status (qd_quest row) = "finished"
       /\ Router.quests_close caller_alice (QuestPage.mkCloseInput 1 Unsolved None) 9000
                              world_finished
          = (Ok (Router.mkCloseResult true true), world_finished).
Proof.
  split; [reflexivity|]. eexists. split; [reflexivity|]. split; [reflexivity|].
  destruct (close_again_is_noop caller_alice (QuestPage.mkCloseInput 1 Unsolved None)
              9000 world_finished store_finished _ eq_refl eq_refl eq_refl
              (or_introl eq_refl))
    as (w' & Hrun & Hw' & _).
  rewrite Hrun, Hw'. reflexivity.
Defined.

(** The data-access function on its own has no such guard: called on the
    finished quest it overwrites status, answer and solver. *)
Example closeQuest_unguarded :
  option_map (fun s => map quests_status (quests s))
             (_db (snd (closeQuest 1 (mkCloseData Unsolved None None) 9000 world_finished)))
  = Some ["unsolved"; "open"].
Proof. reflexivity. Qed.

Lemma NoDup_map_eq {A B : Type} (f : A -> B) (l : list A) (a b : A) :
  NoDup (map f l) -> In a l -> In b l -> f a = f b -> a = b.
Proof.
  induction l as [|x l IH]; cbn [map]; intros Hnd Ha Hb Hf; [destruct Ha|].
  inversion Hnd as [|? ? Hnotin Hnd']; subst.
  destruct Ha as [->|Ha], Hb as [->|Hb]; auto.
  - exfalso. apply Hnotin. rewrite Hf. now apply in_map.
  - exfalso. apply Hnotin. rewrite <- Hf. now apply in_map.
Qed.

Lemma backfill_status_id (q : Quest) : quests_id (backfill_status q) = quests_id q.
Proof. unfold backfill_status. destruct (String.eqb _ _); reflexivity. Qed.

Lemma backfill_status_open (q : Quest) :
  quests_status q = "open" -> backfill_status q = q.
Proof. unfold backfill_status. intros ->. reflexivity. Qed.

(** A store that was only read shows an open quest as it was. *)
Lemma untouched_quest (w : World) (s : Store) (q q' : Quest) :
  NoDup (map quests_id (quests s)) ->
  In q (quests s) -> quests_status q = "open" ->
  In q' (quests (migrated w s)) -> quests_id q' = quests_id q ->
  q' = q.
Proof.
  intros Hnd Hq Hopen Hq' Hid. unfold migrated in Hq'.
  destruct (_questTablesEnsured w).
  - exact (NoDup_map_eq quests_id _ _ _ Hnd Hq' Hq Hid).
  - cbn [quests with_quests] in Hq'. apply in_map_iff in Hq'.
    destruct Hq' as (q0 & <- & Hq0). rewrite backfill_status_id in Hid.
    rewrite (NoDup_map_eq quests_id _ _ _ Hnd Hq0 Hq Hid).
    now apply backfill_status_open.
Qed.

(** The store after [closeQuest id data]. *)
Lemma closeQuest_settled (id : Z) (data : CloseData) (now : Z) (s : Store) :
  closeQuest id data now (settled s)
  = (Ok true,
     settled (with_quests s
                (map (fun q => if quests_id q =? id then close_row data now q else q)
                     (quests s))
                (seq_quests s))).
Proof.
  unfold closeQuest. rewrite (getDb_initialised (settled s) s eq_refl).
  now rewrite migrated_settled.
Qed.

Lemma getQuestAnswers_settled (questId : Z) (s : Store) :
  getQuestAnswers questId (settled s)
  = (Ok (map (fun row => mkQuestAnswerRow (fst row) (joined_name (snd row))
                                          (joined_avatarUrl (snd row)))
             (orderBy (asc (fun row => questAnswers_createdAt (fst row)))
                (filter (fun row => questAnswers_questId (fst row) =? questId)
                   (leftJoin_users questAnswers_userId (users s) (questAnswers s))))),
     settled s).
Proof.
  unfold getQuestAnswers. rewrite (getDb_initialised (settled s) s eq_refl).
  now rewrite migrated_settled.
Qed.

Lemma getQuestAnswerById_settled (id : Z) (s : Store) :
  getQuestAnswerById id (settled s)
  = (Ok (first_row (filter (fun a => questAnswers_id a =? id) (questAnswers s))),
     settled s).
Proof.
  unfold getQuestAnswerById. rewrite (getDb_initialised (settled s) s eq_refl).
  now rewrite migrated_settled.
Qed.

Lemma no_answers_listed (questId : Z) (s : Store) :
  (forall a, In a (questAnswers s) -> questAnswers_questId a <> questId) ->
  fst (getQuestAnswers questId (settled s)) = Ok [].
Proof.
  intros Hnone. rewrite getQuestAnswers_settled. cbn [fst].
  rewrite filter_none; [reflexivity|].
  intros [a ou] Hrow. apply leftJoin_users_In in Hrow. destruct Hrow as [Hin _].
  cbn [fst]. apply Z.eqb_neq. auto.
Qed.

(** What [quests.close] can leave behind: the store as it was read, or the
    store after [closeQuest] with the data of the request. *)
Lemma quests_close_cases (caller : Caller) (input : QuestPage.CloseInput) (now : Z)
    (w : World) (s : Store) :
  _db w = Some s ->
  snd (Router.quests_close caller input now w) = settled (migrated w s)
  \/ exists data,
       snd (Router.quests_close caller input now w)
       = settled (with_quests (migrated w s)
                    (map (fun q => if quests_id q =? QuestPage.questId input
                                   then close_row data now q else q)
                         (quests (migrated w s)))
                    (seq_quests (migrated w s)))
       /\ cd_status data = QuestPage.outcome input
       /\ (cd_status data = Finished ->
           exists a, In a (questAnswers s)
                     /\ questAnswers_questId a = QuestPage.questId input
                     /\ QuestPage.solvedAnswerId input = Some (questAnswers_id a)).
Proof.
  intros H. unfold Router.quests_close, bind, throw, ret.
  rewrite (getQuestById_run _ w s H).
  destruct (migrated_tables w s) as (_ & _ & _ & _ & _ & Ha & _).
  set (s0 := migrated w s) in *.
  destruct (first_row _) as [[q0 ou]|]; cbn [option_map qd_quest fst snd];
    [|left; reflexivity].
  destruct (quests_userId q0 =? caller_id caller); cbn [negb]; [|left; reflexivity].
  destruct (String.eqb (quests_status q0) "open"); cbn [negb]; [|left; reflexivity].
  destruct (QuestPage.outcome input) eqn:Eout.
  - rewrite getQuestAnswers_settled.
    destruct (map _ _) as [|r rs]; [left; reflexivity|].
    destruct (QuestPage.solvedAnswerId input) as [aid|] eqn:Esol; [|left; reflexivity].
    rewrite getQuestAnswerById_settled.
    destruct (first_row (filter _ (questAnswers s0))) as [answer|] eqn:Eans;
      [|left; reflexivity].
    destruct (questAnswers_questId answer =? QuestPage.questId input) eqn:Eq;
      [|left; reflexivity].
    rewrite closeQuest_settled. right. eexists. split; [reflexivity|].
    split; [reflexivity|].
    intros _. exists answer. apply first_row_found in Eans.
    destruct Eans as [Hin Hid]. apply Z.eqb_eq in Hid, Eq.
    rewrite <- Ha. repeat split; [assumption | assumption | now rewrite Hid].
  - rewrite closeQuest_settled. right. eexists.
    split; [reflexivity|]. split; [reflexivity | discriminate].
  - rewrite closeQuest_settled. right. eexists.
    split; [reflexivity|]. split; [reflexivity | discriminate].
Qed.

Lemma status_text_finished (st : QuestClosedStatus) :
  status_text st = "finished" -> st = Finished.
Proof. destruct st; [reflexivity | discriminate | discriminate]. Qed.

(** C1: whenever a close request leaves a quest finished that was open, the
    request named an answer of that very quest as the solving one (so the
    quest has an answer); a request to finish a quest without answers writes
    nothing, and is answered with an error when it comes from the author of
    the open quest; the page does not even send it. *)
Theorem finish_needs_answer_of_quest (caller : Caller) (input : QuestPage.CloseInput)
    (now : Z) (w : World) (s : Store) :
  _db w = Some s ->
  NoDup (map quests_id (quests s)) ->
  (forall (s' : Store) (q q' : Quest),
      _db (snd (Router.quests_close caller input now w)) = Some s' ->
      In q (quests s) -> quests_status q = "open" ->
      In q' (quests s') -> quests_id q' = quests_id q ->
      quests_status q' = "finished" ->
      exists a, In a (questAnswers s)
                /\ questAnswers_questId a = quests_id q
                /\ QuestPage.solvedAnswerId input = Some (questAnswers_id a))
  /\ (QuestPage.outcome input = Finished ->
      (forall a, In a (questAnswers s) ->
                 questAnswers_questId a <> QuestPage.questId input) ->
      snd (Router.quests_close caller input now w) = snd (getDb w)
      /\ forall row,
           fst (getQuestById (QuestPage.questId input) w) = Ok (Some row) ->
           quests_userId (qd_quest row) = caller_id caller ->
           quests_status (qd_quest row) = "open" ->
           fst (Router.quests_close caller input now w) = Throw (Trpc BAD_REQUEST)
           /\ fst (getQuestById (QuestPage.questId input)
                     (snd (Router.quests_close caller input now w)))
              = Ok (Some row))
  /\ (forall Number selectedQuestId isSelectedQuestOwner selectedSolvedAnswerId sent,
        QuestPage.handleConfirmCloseQuest Number selectedQuestId isSelectedQuestOwner
          Finished [] selectedSolvedAnswerId
        <> QuestPage.Mutate sent).
Proof.
  intros H Hnd. split; [|split].
  - intros s' q q' Hs' Hq Hopen Hq' Hid Hfin.
    destruct (quests_close_cases caller input now w s H) as [Hsame|(data & Hrun & _ & Hdata)].
    + rewrite Hsame in Hs'. inversion Hs'; subst s'.
      rewrite (untouched_quest w s q q' Hnd Hq Hopen Hq' Hid) in Hfin.
      rewrite Hopen in Hfin. discriminate.
    + rewrite Hrun in Hs'. inversion Hs'; subst s'. clear Hs'.
      cbn [quests with_quests] in Hq'. apply in_map_iff in Hq'.
      destruct Hq' as (q1 & Hq1 & Hin1).
      destruct (Z.eqb_spec (quests_id q1) (QuestPage.questId input)) as [Heq|Hne].
      * subst q'. cbn [close_row quests_status quests_id] in Hfin, Hid.
        destruct (Hdata (status_text_finished _ Hfin)) as (a & Ha & Haq & Hsol).
        exists a. repeat split; [assumption | congruence | assumption].
      * subst q'.
        rewrite (untouched_quest w s q q1 Hnd Hq Hopen Hin1 Hid) in Hfin.
        rewrite Hopen in Hfin. discriminate.
  - intros Hout Hnone.
    assert (Hrun : forall q0 ou,
               first_row
                 (filter (fun row => quests_id (fst row) =? QuestPage.questId input)
                    (leftJoin_users quests_userId (users s) (quests (migrated w s))))
               = Some (q0, ou) ->
               quests_userId q0 = caller_id caller ->
               quests_status q0 = "open" ->
               Router.quests_close caller input now w
               = (Throw (Trpc BAD_REQUEST), settled (migrated w s))).
    { intros q0 ou Hrow Hauthor Hopen.
      unfold Router.quests_close, bind, throw, ret.
      rewrite (getQuestById_run _ w s H), Hrow.
      cbn [option_map qd_quest fst snd].
      rewrite Hauthor, Z.eqb_refl, Hopen, Hout, String.eqb_refl. cbn [negb].
      pose proof (no_answers_listed (QuestPage.questId input) (migrated w s)) as Hempty.
      destruct (migrated_tables w s) as (_ & _ & _ & _ & _ & Ha & _).
      rewrite Ha in Hempty. specialize (Hempty Hnone).
      rewrite getQuestAnswers_settled in Hempty |- *. cbn [fst] in Hempty.
      inversion Hempty as [Hnil]. rewrite Hnil. reflexivity. }
    split.
    + rewrite (getDb_initialised w s H). cbn [snd].
      destruct (quests_close_cases caller input now w s H)
        as [Hsame|(data & _ & Hstatus & Hdata)]; [exact Hsame|].
      rewrite Hout in Hstatus. destruct (Hdata Hstatus) as (a & Ha & Haq & _).
      exfalso. exact (Hnone a Ha Haq).
    + intros row Hfound Hauthor Hopen.
      pose proof Hfound as Hfound'.
      rewrite (getQuestById_run _ w s H) in Hfound'. cbn [fst] in Hfound'.
      destruct (first_row _) as [[q0 ou]|] eqn:Erow; [|discriminate].
      cbn [option_map fst snd] in Hfound'. inversion Hfound' as [Hrow].
      rewrite <- Hrow in Hauthor, Hopen. cbn [qd_quest] in Hauthor, Hopen.
      rewrite (Hrun q0 ou eq_refl Hauthor Hopen). cbn [fst snd].
      split; [reflexivity|].
      rewrite (getQuestById_again _ w s H), Hrow. exact Hfound.
  - intros Number selectedQuestId owner sel sent.
    unfold QuestPage.handleConfirmCloseQuest.
    destruct selectedQuestId as [id|]; [|discriminate].
    destruct ((id =? 0) || negb owner); [discriminate|].
    cbn. discriminate.
Qed.

Lemma store_quests_primary_key : NoDup (map quests_id (quests store_quests)).
Proof.
  cbn. constructor; [intros [Heq|[]]; discriminate|].
  constructor; [intros []|constructor].
Qed.

Lemma finish_needs_answer_of_quest_witness :
  _db world_quests = Some store_quests
  /\ NoDup (map quests_id (quests store_quests))
  /\ fst (Router.quests_close caller_alice (QuestPage.mkCloseInput 1 Finished (Some 1))
            9000 world_quests)
     = Ok (Router.mkCloseResult true false)
  /\ exists a, In a (questAnswers store_quests)
               /\ questAnswers_questId a = quests_id (quest_of 1 1 "open" 3000)
               /\ Some 1 = Some (questAnswers_id a).
Proof.
  split; [reflexivity|]. split; [exact store_quests_primary_key|].
  split; [reflexivity|].
  eapply (proj1 (finish_needs_answer_of_quest caller_alice
                   (QuestPage.mkCloseInput 1 Finished (Some 1)) 9000
                   world_quests store_quests eq_refl store_quests_primary_key))
    with (q := quest_of 1 1 "open" 3000)
         (q' := close_row (mkCloseData Finished (Some 1) (Some 2)) 9000
                          (quest_of 1 1 "open" 3000)).
  - reflexivity.
  - left. reflexivity.
  - reflexivity.
  - left. reflexivity.
  - reflexivity.
  - reflexivity.
Defined.

Example finish_without_answers :
  Router.quests_close caller_alice (QuestPage.mkCloseInput 2 Finished (Some 1)) 9000
                      world_quests
  = (Throw (Trpc BAD_REQUEST), world_quests).
Proof. reflexivity. Qed.

Example finish_with_foreign_answer :
  Router.quests_close caller_alice (QuestPage.mkCloseInput 2 Finished (Some 1)) 9000
    (mkWorld (Some (with_questAnswers store_quests
                      (questAnswers store_quests ++ [answer_of 3 2 2 7000])%list 3))
             true true true)
  = (Throw (Trpc BAD_REQUEST),
     mkWorld (Some (with_questAnswers store_quests
                      (questAnswers store_quests ++ [answer_of 3 2 2 7000])%list 3))
             true true true).
Proof. reflexivity. Qed.

Example finish_with_own_answer :
  option_map quests (_db (snd (Router.quests_close caller_alice
                                 (QuestPage.mkCloseInput 1 Finished (Some 1)) 9000
                                 world_quests)))
  = Some [mkQuest 1 1 "title" "content" "finished" (Some 1) (Some 2) 3000 9000 (Some 9000);
          quest_of 2 1 "open" 4000].
Proof. reflexivity. Qed.

(** * Further properties of the data-access layer *)

(** ** Keys *)

Lemma max_id_ge (ids : list Z) (i : Z) : In i ids -> i <= max_id ids.
Proof.
  unfold max_id. induction ids as [|j ids IH]; cbn [fold_right In]; [tauto|].
  intros [->|Hin]; [lia|]. specialize (IH Hin). lia.
Qed.

Lemma has_id_spec (ids : list Z) (i : Z) : has_id ids i = true <-> In i ids.
Proof.
  unfold has_id. rewrite existsb_exists. split.
  - intros (j & Hj & Heq). apply Z.eqb_eq in Heq. now subst.
  - intros Hin. exists i. split; [assumption | apply Z.eqb_refl].
Qed.

Lemma new_rowid_fresh (explicit : option Z) (seq : Z) (ids : list Z) (i : Z) :
  new_rowid explicit seq ids = Ok i -> ~ In i ids.
Proof.
  unfold new_rowid. destruct explicit as [j|].
  - destruct (has_id ids j) eqn:E; [discriminate|].
    intros Heq. inversion Heq; subst. rewrite <- has_id_spec. congruence.
  - intros Heq. inversion Heq; subst. intros Hin. apply max_id_ge in Hin. lia.
Qed.

Lemma NoDup_map_place {A B : Type} (f : A -> B) (le : A -> A -> bool)
    (x : A) (l : list A) :
  NoDup (map f l) -> ~ In (f x) (map f l) -> NoDup (map f (place le x l)).
Proof.
  intros Hnd Hnew.
  apply (Permutation_NoDup (l := map f (x :: l))).
  - apply Permutation_map, place_perm.
  - cbn [map]. now constructor.
Qed.

Lemma NoDup_map_filter {Row Key : Type} (key : Row -> Key) (keep : Row -> bool)
    (rows : list Row) (Hkey : NoDup (map key rows)) :
  NoDup (map key (filter keep rows)).
Proof.
  induction rows as [|row rows IH]; cbn [map filter] in *; [constructor|].
  inversion Hkey as [|? ? Hfresh Hrest]; subst.
  destruct (keep row); cbn [map]; [|now apply IH].
  constructor; [|now apply IH].
  intros Hin. apply Hfresh. apply in_map_iff in Hin.
  destruct Hin as (other & Hsame & Hin). apply filter_In in Hin.
  rewrite <- Hsame. apply in_map. tauto.
Qed.

Lemma map_key_update {A B : Type} (f : A -> B) (g : A -> A) (l : list A) :
  (forall x, f (g x) = f x) -> map f (map g l) = map f l.
Proof.
  intros Hfg. rewrite map_map. apply map_ext. exact Hfg.
Qed.

Lemma keys_hold_migrated (w : World) (s : Store) :
  keys_hold s -> keys_hold (migrated w s).
Proof.
  unfold migrated. destruct (_questTablesEnsured w); [tauto|].
  unfold keys_hold, primary_keys, unique_indexes, favorites_unique, reports_unique.
  cbn [users caseStudies favorites reports quests questAnswers with_quests].
  rewrite (map_key_update quests_id backfill_status) by apply backfill_status_id.
  tauto.
Qed.

(** Exposes the nine keys of a store built with the [with_] functions. *)
Ltac open_keys :=
  unfold keys_hold, primary_keys, unique_indexes, favorites_unique, reports_unique in *;
  cbn [users caseStudies favorites reports quests questAnswers
       with_users with_caseStudies with_favorites with_reports with_quests
       with_questAnswers] in *.

Lemma report_of_pair (u c u' c' : Z) (r : Report) :
  report_of u c r = true -> report_of u' c' r = true -> u' = u /\ c' = c.
Proof.
  unfold report_of. rewrite !andb_true_iff, !Z.eqb_eq. intuition congruence.
Qed.

Lemma insert_favorites_keys (s s' : Store) (d : InsertFavorite) (now : Z) :
  insert_favorites s d now = Ok s' -> keys_hold s -> keys_hold s'.
Proof.
  unfold insert_favorites.
  destruct (new_rowid _ _ _) as [i|e] eqn:Eid; [|discriminate].
  apply new_rowid_fresh in Eid.
  destruct (existsb _ (favorites s)) eqn:Epair; [discriminate|].
  destruct (_ && _); [|discriminate].
  intros Heq Hk. inversion Heq; subst s'. clear Heq. open_keys.
  destruct Hk as ((Hu & Hc & Hf & Hr & Hq & Ha) & Ho & Hfu & Hru).
  repeat split; try assumption.
  - now apply NoDup_map_place.
  - intros u c. rewrite filter_place_length. cbn [filter].
    destruct (favorite_of u c (mkFavorite i _ _ _)) eqn:Enew; [|apply Hfu].
    destruct (favorite_of_pair _ _ _ _ _
                (favorite_of_row i (ifv_userId d) (ifv_caseStudyId d) _) Enew)
      as [-> ->].
    change (fun f => same_pair (ifv_userId d) (ifv_caseStudyId d)
                               (favorites_userId f) (favorites_caseStudyId f))
      with (favorite_of (ifv_userId d) (ifv_caseStudyId d)) in Epair.
    rewrite (filter_absent _ _ Epair). cbn. lia.
Qed.

Lemma insert_reports_keys (s s' : Store) (d : InsertReport) (now : Z) :
  insert_reports s d now = Ok s' -> keys_hold s -> keys_hold s'.
Proof.
  unfold insert_reports.
  destruct (new_rowid _ _ _) as [i|e] eqn:Eid; [|discriminate].
  apply new_rowid_fresh in Eid.
  destruct (existsb _ (reports s)) eqn:Epair; [discriminate|].
  destruct (_ && _); [|discriminate].
  intros Heq Hk. inversion Heq; subst s'. clear Heq. open_keys.
  destruct Hk as ((Hu & Hc & Hf & Hr & Hq & Ha) & Ho & Hfu & Hru).
  repeat split; try assumption.
  - now apply NoDup_map_place.
  - intros u c. rewrite filter_place_length. cbn [filter].
    destruct (report_of u c (mkReport i _ _ _)) eqn:Enew; [|apply Hru].
    destruct (report_of_pair _ _ _ _ _
                (report_of_row i (irp_userId d) (irp_caseStudyId d) _) Enew)
      as [-> ->].
    change (fun r => same_pair (irp_userId d) (irp_caseStudyId d)
                               (reports_userId r) (reports_caseStudyId r))
      with (report_of (irp_userId d) (irp_caseStudyId d)) in Epair.
    rewrite (filter_absent _ _ Epair). cbn. lia.
Qed.

Lemma store_full_keys : keys_hold store_full.
Proof.
  open_keys. unfold store_full. cbn [map users caseStudies favorites reports quests
    questAnswers users_id users_openId caseStudies_id favorites_id reports_id
    quests_id questAnswers_id alice bob post_of quest_of answer_of].
  assert (H2 : forall a b : Z, a <> b -> NoDup [a; b]).
  { intros a b Hab. constructor; [intros [Heq|[]]; congruence|].
    constructor; [intros []|constructor]. }
  assert (H1 : forall a : Z, NoDup [a]).
  { intros a. constructor; [intros []|constructor]. }
  repeat split; try (apply H2; discriminate); try apply H1.
  - constructor; [intros [Heq|[]]; discriminate|].
    constructor; [intros []|constructor].
  - apply store_posts_unique.
  - intros u c. cbn [filter]. destruct (report_of u c _); cbn; lia.
Qed.

(** Favorites, reports and the deletion of a case study keep all primary keys
    and unique indexes of the store. *)
Theorem favorites_and_reports_keep_keys (userId caseStudyId now : Z)
    (data : InsertReport) (w : World) (s : Store) :
  _db w = Some s ->
  keys_hold s ->
  keys_kept (addFavorite userId caseStudyId now w)
  /\ keys_kept (removeFavorite userId caseStudyId w)
  /\ keys_kept (createReport data now w)
  /\ keys_kept (deleteCaseStudy caseStudyId w).
Proof.
  intros H Hk. apply (keys_hold_migrated w) in Hk.
  unfold keys_kept, addFavorite, removeFavorite, createReport, deleteCaseStudy.
  rewrite (getDb_initialised w s H).
  set (s0 := migrated w s) in *.
  split; [|split; [|split]].
  - destruct (insert_favorites s0 _ now) as [s'|e] eqn:E; cbn [snd].
    + exists s'. split; [reflexivity|]. exact (insert_favorites_keys _ _ _ _ E Hk).
    + exists s0. split; [reflexivity | exact Hk].
  - cbn [snd]. eexists. split; [reflexivity|]. open_keys.
    destruct Hk as ((Hu & Hc & Hf & Hr & Hq & Ha) & Ho & Hfu & Hru).
    repeat split; try assumption.
    + now apply NoDup_map_filter.
    + intros u c. eapply Nat.le_trans; [apply filter_delete_length | apply Hfu].
  - destruct (insert_reports s0 data now) as [s'|e] eqn:E; cbn [snd].
    + exists s'. split; [reflexivity|]. exact (insert_reports_keys _ _ _ _ E Hk).
    + exists s0. split; [reflexivity | exact Hk].
  - cbn [snd]. eexists. split; [reflexivity|].
    unfold delete_caseStudies_by_id.
    cbn [foreign_keys with_favorites with_reports with_caseStudies favorites reports
         caseStudies seq_favorites seq_reports seq_caseStudies].
    destruct (foreign_keys s0); open_keys;
      destruct Hk as ((Hu & Hc & Hf & Hr & Hq & Ha) & Ho & Hfu & Hru);
      unfold delete_where;
      (repeat split; try assumption; try (repeat apply NoDup_map_filter; assumption);
       intros u c;
       repeat (eapply Nat.le_trans; [apply filter_delete_length|]);
       auto).
Qed.

Lemma favorites_and_reports_keep_keys_witness :
  _db world_full = Some store_full
  /\ keys_hold store_full
  /\ keys_kept (addFavorite 2 2 9000 world_full)
  /\ keys_kept (deleteCaseStudy 1 world_full).
Proof.
  split; [reflexivity|]. split; [exact store_full_keys|].
  destruct (favorites_and_reports_keep_keys 2 1 9000 (mkInsertReport None 2 2 None)
              world_full store_full eq_refl store_full_keys)
    as (_ & _ & _ & Hdel).
  destruct (favorites_and_reports_keep_keys 2 2 9000 (mkInsertReport None 2 2 None)
              world_full store_full eq_refl store_full_keys)
    as (Hadd & _).
  split; assumption.
Defined.

Lemma close_row_id (data : CloseData) (now : Z) (q : Quest) (id : Z) :
  quests_id (if quests_id q =? id then close_row data now q else q) = quests_id q.
Proof. destruct (quests_id q =? id); reflexivity. Qed.

(** The three inserts of posts, quests and answers, whether the id is left
    to the store or supplied, and [closeQuest] keep all primary keys and
    unique indexes of the store. *)
Theorem content_writes_keep_keys (post : InsertCaseStudy) (quest : InsertQuest)
    (answer : InsertQuestAnswer) (id : Z) (close : CloseData) (now : Z)
    (w : World) (s : Store) :
  _db w = Some s ->
  keys_hold s ->
  keys_kept (createCaseStudy post now w)
  /\ keys_kept (createQuest quest now w)
  /\ keys_kept (createQuestAnswer answer now w)
  /\ keys_kept (closeQuest id close now w).
Proof.
  intros H Hk. apply (keys_hold_migrated w) in Hk.
  unfold keys_kept, createCaseStudy, createQuest, createQuestAnswer, closeQuest.
  rewrite (getDb_initialised w s H).
  set (s0 := migrated w s) in *.
  split; [|split; [|split]].
  - unfold insert_caseStudies.
    destruct (new_rowid _ _ _) as [i|e] eqn:Eid; cbn [snd];
      [|exists s0; split; [reflexivity | exact Hk]].
    apply new_rowid_fresh in Eid.
    destruct (fk_ok _ _ _); cbn [snd]; [|exists s0; split; [reflexivity | exact Hk]].
    eexists. split; [reflexivity|]. open_keys.
    destruct Hk as ((Hu & Hc & Hf & Hr & Hq & Ha) & Ho & Hfu & Hru).
    repeat split; try assumption. now apply NoDup_map_place.
  - unfold insert_quests.
    destruct (new_rowid _ _ _) as [i|e] eqn:Eid; cbn [snd];
      [|exists s0; split; [reflexivity | exact Hk]].
    apply new_rowid_fresh in Eid.
    destruct (fk_ok _ _ _); cbn [snd]; [|exists s0; split; [reflexivity | exact Hk]].
    eexists. split; [reflexivity|]. open_keys.
    destruct Hk as ((Hu & Hc & Hf & Hr & Hq & Ha) & Ho & Hfu & Hru).
    repeat split; try assumption. now apply NoDup_map_place.
  - unfold insert_questAnswers.
    destruct (new_rowid _ _ _) as [i|e] eqn:Eid; cbn [snd];
      [|exists s0; split; [reflexivity | exact Hk]].
    apply new_rowid_fresh in Eid.
    destruct (_ && _); cbn [snd]; [|exists s0; split; [reflexivity | exact Hk]].
    eexists. split; [reflexivity|]. open_keys.
    destruct Hk as ((Hu & Hc & Hf & Hr & Hq & Ha) & Ho & Hfu & Hru).
    repeat split; try assumption. now apply NoDup_map_place.
  - cbn [snd]. eexists. split; [reflexivity|]. open_keys.
    destruct Hk as ((Hu & Hc & Hf & Hr & Hq & Ha) & Ho & Hfu & Hru).
    repeat split; try assumption.
    rewrite map_map. erewrite map_ext; [exact Hq|].
    intros q. apply close_row_id.
Qed.

Lemma content_writes_keep_keys_witness :
  _db world_full = Some store_full
  /\ keys_hold store_full
  /\ keys_kept (createCaseStudy new_post 6400 world_full)
  /\ keys_kept (closeQuest 1 (mkCloseData Unsolved None None) 9000 world_full).
Proof.
  split; [reflexivity|]. split; [exact store_full_keys|].
  destruct (content_writes_keep_keys new_post new_quest
              (mkInsertQuestAnswer None 1 2 "content" None None) 1
              (mkCloseData Unsolved None None) 6400 world_full store_full
              eq_refl store_full_keys) as (Hpost & _).
  destruct (content_writes_keep_keys new_post new_quest
              (mkInsertQuestAnswer None 1 2 "content" None None) 1
              (mkCloseData Unsolved None None) 9000 world_full store_full
              eq_refl store_full_keys) as (_ & _ & _ & Hclose).
  split; assumption.
Defined.

Lemma apply_updateSet_keys (f : UserFields) (u : User) :
  users_id (apply_updateSet f u) = users_id u
  /\ users_openId (apply_updateSet f u) = users_openId u.
Proof. split; reflexivity. Qed.

Lemma upsert_users_keys (s : Store) (o : string) (values us : UserFields) (now : Z) :
  keys_hold s -> keys_hold (upsert_users s o values us now).
Proof.
  intros Hk. unfold upsert_users.
  destruct (existsb (fun u => String.eqb (users_openId u) o) (users s)) eqn:E;
    open_keys; destruct Hk as ((Hu & Hc & Hf & Hr & Hq & Ha) & Ho & Hfu & Hru);
    repeat split; try assumption.
  - rewrite map_map. erewrite map_ext; [exact Hu|].
    intros u. now destruct (String.eqb (users_openId u) o).
  - rewrite map_map. erewrite map_ext; [exact Ho|].
    intros u. now destruct (String.eqb (users_openId u) o).
  - apply NoDup_map_place; [assumption|]. cbn [users_id row_of_values].
    intros Hin. apply max_id_ge in Hin. lia.
  - apply NoDup_map_place; [assumption|]. cbn [users_openId row_of_values].
    intros Hin. apply in_map_iff in Hin. destruct Hin as (u & Hou & Hin).
    assert (Hex : existsb (fun u => String.eqb (users_openId u) o) (users s) = true).
    { apply existsb_exists. exists u. split; [assumption|]. now apply String.eqb_eq. }
    congruence.
Qed.

(** [upsertUser] and [updateUserName] keep all primary keys and unique
    indexes of the store; in particular no two users ever share an openId. *)
Theorem user_writes_keep_keys (env : Env) (user : InsertUser) (userId : Z)
    (name : string) (now : Z) (w : World) (s : Store) :
  _db w = Some s ->
  keys_hold s ->
  keys_kept (upsertUser env user now w)
  /\ keys_kept (updateUserName userId name now w).
Proof.
  intros H Hk. unfold keys_kept, upsertUser, updateUserName. split.
  - destruct (negb (truthy (iu_openId user))); cbn [snd].
    + exists s. split; assumption.
    + rewrite (getDb_initialised w s H). cbn [snd].
      eexists. split; [reflexivity|].
      apply upsert_users_keys, keys_hold_migrated, Hk.
  - rewrite (getDb_initialised w s H). cbn [snd].
    apply (keys_hold_migrated w) in Hk.
    eexists. split; [reflexivity|]. open_keys.
    destruct Hk as ((Hu & Hc & Hf & Hr & Hq & Ha) & Ho & Hfu & Hru).
    repeat split; try assumption.
    + rewrite map_map. erewrite map_ext; [exact Hu|].
      intros u. now destruct (users_id u =? userId).
    + rewrite map_map. erewrite map_ext; [exact Ho|].
      intros u. now destruct (users_id u =? userId).
Qed.

Lemma user_writes_keep_keys_witness :
  _db world_full = Some store_full
  /\ keys_hold store_full
  /\ keys_kept (upsertUser env_owner (sign_in "owner-1") 9000 world_full)
  /\ keys_kept (updateUserName 2 "Robert" 9000 world_full).
Proof.
  split; [reflexivity|]. split; [exact store_full_keys|].
  exact (user_writes_keep_keys env_owner (sign_in "owner-1") 2 "Robert" 9000
           world_full store_full eq_refl store_full_keys).
Defined.

(** ** Favorites: add, look up, remove *)

Lemma isFavorite_settled (u c : Z) (s : Store) :
  isFavorite u c (settled s) = (Ok (existsb (favorite_of u c) (favorites s)), settled s).
Proof.
  rewrite (isFavorite_run u c (settled s) s eq_refl). now rewrite migrated_settled.
Qed.

(** [addFavorite] never throws once a store is bound.  It answers [true]
    exactly when the pair was not a favorite yet and the references hold, and
    then the pair is a favorite and one row was added; when it answers
    [false] the store is as it was. *)
Theorem addFavorite_outcome (userId caseStudyId now : Z) (w : World) (s : Store) :
  _db w = Some s ->
  let added :=
    negb (existsb (favorite_of userId caseStudyId) (favorites s))
    && (fk_ok s (map users_id (users s)) userId
        && fk_ok s (map caseStudies_id (caseStudies s)) caseStudyId) in
  exists s' : Store,
    addFavorite userId caseStudyId now w = (Ok added, settled s')
    /\ fst (isFavorite userId caseStudyId (settled s'))
       = Ok (added || existsb (favorite_of userId caseStudyId) (favorites s))
    /\ (added = false -> s' = migrated w s)
    /\ (added = true ->
        exists row, favorites_userId row = userId
                    /\ favorites_caseStudyId row = caseStudyId
                    /\ ~ In (favorites_id row) (map favorites_id (favorites s))
                    /\ Permutation (row :: favorites s) (favorites s')).
Proof.
  intros H added. subst added.
  destruct (migrated_tables w s) as (Hfk & Hu & Hc & Hf & _).
  unfold addFavorite. rewrite (getDb_initialised w s H).
  set (s0 := migrated w s) in *.
  destruct (insert_favorites s0 (mkInsertFavorite None userId caseStudyId None) now)
    as [s'|e] eqn:E.
  - pose proof E as E'. unfold insert_favorites in E'.
    cbn [new_rowid ifv_id ifv_userId ifv_caseStudyId ifv_createdAt orElse] in E'.
    change (fun f => same_pair userId caseStudyId (favorites_userId f)
                               (favorites_caseStudyId f))
      with (favorite_of userId caseStudyId) in E'.
    rewrite Hf, Hu, Hc in E'. unfold fk_ok in *. rewrite Hfk in E'.
    destruct (existsb (favorite_of userId caseStudyId) (favorites s)) eqn:Epair;
      [discriminate|].
    destruct (_ && _) eqn:Efk in E'; [|discriminate].
    rewrite Efk. cbn [negb andb orb].
    inversion E' as [Hs']. exists s'. split; [rewrite <- Hs'; reflexivity|].
    rewrite isFavorite_settled, <- Hs'. cbn [favorites with_favorites fst].
    rewrite existsb_place, favorite_of_row. cbn [orb].
    split; [reflexivity|]. split; [discriminate|]. intros _.
    exists (mkFavorite (Z.max (seq_favorites s0)
                               (max_id (map favorites_id (favorites s))) + 1)
                       userId caseStudyId (nowMs now)).
    split; [reflexivity|]. split; [reflexivity|]. split.
    + cbn [favorites_id]. intros Hin. apply max_id_ge in Hin. lia.
    + apply place_perm.
  - exists s0. pose proof E as E'. unfold insert_favorites in E'.
    cbn [new_rowid ifv_id ifv_userId ifv_caseStudyId ifv_createdAt orElse] in E'.
    change (fun f => same_pair userId caseStudyId (favorites_userId f)
                               (favorites_caseStudyId f))
      with (favorite_of userId caseStudyId) in E'.
    rewrite Hf, Hu, Hc in E'. unfold fk_ok in *. rewrite Hfk in E'.
    rewrite isFavorite_settled. cbn [fst]. fold s0. rewrite Hf.
    destruct (existsb (favorite_of userId caseStudyId) (favorites s)) eqn:Epair.
    + cbn [negb andb orb]. repeat split; discriminate.
    + destruct (_ && _) eqn:Efk in E'; [discriminate|].
      rewrite Efk. cbn [negb andb orb]. repeat split; discriminate.
Qed.

Lemma addFavorite_outcome_witness :
  _db world_full = Some store_full
  /\ exists s' : Store,
       addFavorite 2 2 9000 world_full = (Ok true, settled s')
       /\ fst (isFavorite 2 2 (settled s')) = Ok true.
Proof.
  split; [reflexivity|].
  destruct (addFavorite_outcome 2 2 9000 world_full store_full eq_refl)
    as (s' & Hrun & Hread & _).
  exists s'. split; [exact Hrun | exact Hread].
Defined.

(** [removeFavorite] leaves exactly the rows of the other pairs: afterwards
    the pair is no favorite, every other pair is what it was, and a second
    removal changes nothing. *)
Theorem removeFavorite_outcome (userId caseStudyId : Z) (w : World) (s : Store) :
  _db w = Some s ->
  exists s' : Store,
    removeFavorite userId caseStudyId w = (Ok true, settled s')
    /\ favorites s'
       = filter (fun f => negb (favorite_of userId caseStudyId f)) (favorites s)
    /\ fst (isFavorite userId caseStudyId (settled s')) = Ok false
    /\ (forall u c, (u, c) <> (userId, caseStudyId) ->
          fst (isFavorite u c (settled s')) = fst (isFavorite u c w))
    /\ removeFavorite userId caseStudyId (settled s') = (Ok true, settled s').
Proof.
  intros H.
  destruct (migrated_tables w s) as (_ & _ & _ & Hf & _).
  unfold removeFavorite at 1. rewrite (getDb_initialised w s H).
  eexists. split; [reflexivity|].
  cbn [favorites with_favorites]. rewrite Hf.
  split; [reflexivity|]. split; [|split].
  - rewrite isFavorite_settled. cbn [fst favorites with_favorites].
    now rewrite existsb_delete_same.
  - intros u c Hother.
    rewrite isFavorite_settled, (isFavorite_run u c w s H).
    cbn [fst favorites with_favorites]. f_equal.
    apply existsb_delete_other. intros f Hpair.
    destruct (favorite_of userId caseStudyId f) eqn:Eme; [|reflexivity].
    destruct (favorite_of_pair _ _ _ _ _ Eme Hpair) as [-> ->].
    now elim Hother.
  - unfold removeFavorite. rewrite (getDb_initialised (settled _) _ eq_refl).
    rewrite migrated_settled. cbn [favorites with_favorites seq_favorites].
    unfold delete_where. rewrite filter_twice. reflexivity.
Qed.

Lemma removeFavorite_outcome_witness :
  _db world_full = Some store_full
  /\ exists s' : Store,
       removeFavorite 2 1 world_full = (Ok true, settled s')
       /\ favorites s' = [mkFavorite 2 1 2 7000].
Proof.
  split; [reflexivity|].
  destruct (removeFavorite_outcome 2 1 world_full store_full eq_refl)
    as (s' & Hrun & Hrows & _).
  exists s'. split; [exact Hrun | exact Hrows].
Defined.

(** [getUserFavorites] lists, oldest first, exactly the favorites of the user
    whose case study still exists, each with that case study; a favorite
    whose case study is gone is left out. *)
Theorem getUserFavorites_listing (userId : Z) (w : World) (s : Store) :
  _db w = Some s ->
  exists l,
    getUserFavorites userId w = (Ok l, settled (migrated w s))
    /\ StronglySorted (fun a b => fr_createdAt a <= fr_createdAt b) l
    /\ (forall r, In r l ->
          In (fr_caseStudy r) (caseStudies s)
          /\ caseStudies_id (fr_caseStudy r) = fr_caseStudyId r
          /\ In (mkFavorite (fr_id r) userId (fr_caseStudyId r) (fr_createdAt r))
                (favorites s))
    /\ (forall f c, In f (favorites s) -> favorites_userId f = userId ->
                    In c (caseStudies s) ->
                    caseStudies_id c = favorites_caseStudyId f ->
                    In (mkFavoriteRow (favorites_id f) (favorites_caseStudyId f)
                                      (favorites_createdAt f) c) l).
Proof.
  intros H.
  destruct (migrated_tables w s) as (_ & _ & Hc & Hf & _).
  unfold getUserFavorites. rewrite (getDb_initialised w s H). rewrite Hc, Hf.
  eexists. split; [reflexivity|].
  assert (Hrows : forall f c,
             In (f, c)
                (orderBy (asc (fun row : Favorite * CaseStudy =>
                                 favorites_createdAt (fst row)))
                   (filter (fun row => favorites_userId (fst row) =? userId)
                      (flat_map
                         (fun f => map (fun c => (f, c))
                                       (filter (fun c => favorites_caseStudyId f
                                                         =? caseStudies_id c)
                                               (caseStudies s)))
                         (favorites s))))
             <-> In f (favorites s) /\ favorites_userId f = userId
                 /\ In c (caseStudies s)
                 /\ caseStudies_id c = favorites_caseStudyId f).
  { intros f c. rewrite In_orderBy, filter_In, in_flat_map. cbn [fst]. split.
    - intros [(f' & Hf' & Hin) Hu]. apply in_map_iff in Hin.
      destruct Hin as (c' & Heq & Hc'). inversion Heq; subst f' c'.
      apply filter_In in Hc'. destruct Hc' as [Hc' Hid].
      apply Z.eqb_eq in Hid, Hu. auto.
    - intros (Hin & Hu & Hcin & Hid). split; [|now apply Z.eqb_eq].
      exists f. split; [assumption|]. apply in_map_iff. exists c.
      split; [reflexivity|]. apply filter_In. split; [assumption|].
      now apply Z.eqb_eq. }
  split; [|split].
  - apply StronglySorted_map; cbn [fr_createdAt].
    apply (asc_sorted (fun row : Favorite * CaseStudy => favorites_createdAt (fst row))).
  - intros r Hr. apply in_map_iff in Hr. destruct Hr as ([f c] & <- & Hin).
    apply Hrows in Hin. destruct Hin as (Hin & Hu & Hcin & Hid).
    cbn [fst snd fr_caseStudy fr_caseStudyId fr_id fr_createdAt].
    repeat split; try assumption. subst userId. now destruct f.
  - intros f c Hin Hu Hcin Hid. apply in_map_iff. exists (f, c).
    split; [reflexivity|]. apply Hrows. auto.
Qed.

Lemma getUserFavorites_listing_witness :
  _db world_full = Some store_full
  /\ exists l,
       getUserFavorites 2 world_full = (Ok l, settled (migrated world_full store_full))
       /\ In (mkFavoriteRow 1 1 7000 (post_of 1 1 5000)) l.
Proof.
  split; [reflexivity|].
  destruct (getUserFavorites_listing 2 world_full store_full eq_refl)
    as (l & Hrun & _ & _ & Hall).
  exists l. split; [exact Hrun|].
  apply (Hall (mkFavorite 1 2 1 7000) (post_of 1 1 5000)).
  - left. reflexivity.
  - reflexivity.
  - left. reflexivity.
  - reflexivity.
Defined.

(** ** Counts in the listings *)

Lemma count_by_acc (keys : list Z) (m : NumMap) (k : Z) :
  orElse (Map_get
            (fold_left (fun m k => Map_set m k (orElse (Map_get m k) 0 + 1)) keys m) k) 0
  = orElse (Map_get m k) 0 + Z.of_nat (List.length (filter (Z.eqb k) keys)).
Proof.
  revert m. induction keys as [|j keys IH]; intros m; cbn [fold_left filter].
  - cbn. lia.
  - rewrite IH. unfold Map_get, Map_set.
    destruct (Z.eqb_spec k j) as [->|Hne].
    + cbn [orElse List.length]. lia.
    + lia.
Qed.

Lemma count_by_spec (keys : list Z) (k : Z) :
  orElse (Map_get (count_by keys) k) 0
  = Z.of_nat (List.length (filter (Z.eqb k) keys)).
Proof. unfold count_by. rewrite count_by_acc. reflexivity. Qed.

Lemma filter_map_length {A : Type} (key : A -> Z) (k : Z) (l : list A) :
  List.length (filter (Z.eqb k) (map key l))
  = List.length (filter (fun x => key x =? k) l).
Proof.
  induction l as [|x l IH]; [reflexivity|]. cbn [map filter].
  rewrite (Z.eqb_sym k (key x)). destruct (key x =? k); cbn [List.length]; now rewrite IH.
Qed.

(** [getAllCaseStudies] lists the case studies oldest first; the report count
    of a row is the number of reports on that case study, and 0 when there is
    none. *)
Theorem getAllCaseStudies_counts (w : World) (s : Store) :
  _db w = Some s ->
  exists l,
    getAllCaseStudies w = (Ok l, settled (migrated w s))
    /\ StronglySorted
         (fun a b => caseStudies_createdAt (cl_caseStudy a)
                     <= caseStudies_createdAt (cl_caseStudy b)) l
    /\ (forall r, In r l ->
          In (cl_caseStudy r) (caseStudies s)
          /\ cl_reportCount r
             = Z.of_nat (List.length
                           (filter (fun rp => reports_caseStudyId rp
                                              =? caseStudies_id (cl_caseStudy r))
                                   (reports s))))
    /\ (forall c, In c (caseStudies s) -> exists r, In r l /\ cl_caseStudy r = c)
    /\ (NoDup (map users_id (users s)) ->
        Permutation (map cl_caseStudy l) (caseStudies s)).
Proof.
  intros H.
  destruct (migrated_tables w s) as (_ & Hu & Hc & _ & Hr & _).
  unfold getAllCaseStudies. rewrite (getDb_initialised w s H). rewrite Hu, Hc, Hr.
  eexists. split; [reflexivity|]. split; [|split; [|split]].
  - apply StronglySorted_map; cbn [cl_caseStudy].
    apply (asc_sorted (fun row : CaseStudy * option User =>
                         caseStudies_createdAt (fst row))).
  - intros r Hin. apply in_map_iff in Hin. destruct Hin as ([c ou] & <- & Hrow).
    apply In_orderBy, leftJoin_users_In in Hrow. destruct Hrow as [Hin _].
    cbn [fst snd cl_caseStudy cl_reportCount]. split; [assumption|].
    now rewrite count_by_spec, filter_map_length.
  - intros c Hin.
    destruct (leftJoin_users_covers caseStudies_userId (users s) c _ Hin) as [ou Hrow].
    exists (mkCaseStudyListRow c (joined_name ou) (joined_avatarUrl ou)
              (orElse (Map_get (count_by (map reports_caseStudyId (reports s)))
                               (caseStudies_id c)) 0)).
    split; [|reflexivity].
    apply in_map_iff. exists (c, ou). split; [reflexivity|]. now apply In_orderBy.
  - intros Hnd. rewrite map_map; cbn [cl_caseStudy].
    eapply perm_trans.
    + apply Permutation_map, Permutation_sym, orderBy_perm.
    + rewrite leftJoin_users_rows by assumption. apply Permutation_refl.
Qed.

Lemma getAllCaseStudies_counts_witness :
  _db world_full = Some store_full
  /\ exists l,
       getAllCaseStudies world_full = (Ok l, settled (migrated world_full store_full))
       /\ exists r, In r l /\ cl_caseStudy r = post_of 1 1 5000.
Proof.
  split; [reflexivity|].
  destruct (getAllCaseStudies_counts world_full store_full eq_refl)
    as (l & Hrun & _ & _ & Hall & _).
  exists l. split; [exact Hrun|]. apply Hall. left. reflexivity.
Defined.

Example getAllCaseStudies_sample :
  fst (getAllCaseStudies world_full)
  = Ok [mkCaseStudyListRow (post_of 1 1 5000) (Some "Alice") (Some "a.png") 1;
        mkCaseStudyListRow (post_of 2 1 6000) (Some "Alice") (Some "a.png") 0].
Proof. reflexivity. Qed.

(** The answer count of a row of [getAllQuests] is the number of answers to
    that quest, and every quest of the store is listed. *)
Theorem getAllQuests_counts (w : World) (s : Store) :
  _db w = Some s ->
  exists l,
    getAllQuests w = (Ok l, settled (migrated w s))
    /\ (forall r, In r l ->
          In (ql_quest r) (quests (migrated w s))
          /\ ql_answerCount r
             = Z.of_nat (List.length
                           (filter (fun a => questAnswers_questId a
                                             =? quests_id (ql_quest r))
                                   (questAnswers s))))
    /\ (forall q, In q (quests (migrated w s)) -> exists r, In r l /\ ql_quest r = q).
Proof.
  intros H.
  destruct (migrated_tables w s) as (_ & Hu & _ & _ & _ & Ha & _).
  unfold getAllQuests. rewrite (getDb_initialised w s H). rewrite Hu, Ha.
  eexists. split; [reflexivity|]. split.
  - intros r Hin. apply in_map_iff in Hin. destruct Hin as ([q ou] & <- & Hrow).
    apply In_orderBy, leftJoin_users_In in Hrow. destruct Hrow as [Hin _].
    cbn [fst snd ql_quest ql_answerCount]. split; [assumption|].
    now rewrite count_by_spec, filter_map_length.
  - intros q Hin.
    destruct (leftJoin_users_covers quests_userId (users s) q _ Hin) as [ou Hrow].
    exists (mkQuestListRow q (joined_name ou) (joined_avatarUrl ou)
              (orElse (Map_get (count_by (map questAnswers_questId (questAnswers s)))
                               (quests_id q)) 0)).
    split; [|reflexivity].
    apply in_map_iff. exists (q, ou). split; [reflexivity|]. now apply In_orderBy.
Qed.

Lemma getAllQuests_counts_witness :
  _db world_full = Some store_full
  /\ exists l,
       getAllQuests world_full = (Ok l, settled (migrated world_full store_full))
       /\ exists r, In r l /\ ql_quest r = quest_of 1 1 "open" 3000.
Proof.
  split; [reflexivity|].
  destruct (getAllQuests_counts world_full store_full eq_refl)
    as (l & Hrun & _ & Hall).
  exists l. split; [exact Hrun|]. apply Hall. left. reflexivity.
Defined.

(** ** Reports and deletions, seen through the listings *)

Lemma filter_place_count {A : Type} (le : A -> A -> bool) (p : A -> bool)
    (x : A) (l : list A) :
  Z.of_nat (List.length (filter p (place le x l)))
  = Z.of_nat (List.length (filter p l)) + (if p x then 1 else 0).
Proof.
  rewrite filter_place_length. cbn [filter].
  destruct (p x); cbn [List.length]; lia.
Qed.

(** A report that [createReport] accepts raises the report count that
    [getAllCaseStudies] shows for that case study by one and no other count;
    a report it refuses changes no count. *)
Theorem createReport_raises_count (data : InsertReport) (now : Z)
    (w : World) (s : Store) :
  _db w = Some s ->
  exists (accepted : bool) (s' : Store) (before after : list CaseStudyListRow),
    createReport data now w = (Ok (mkCreateReportResult accepted), settled s')
    /\ fst (getAllCaseStudies w) = Ok before
    /\ fst (getAllCaseStudies (settled s')) = Ok after
    /\ map cl_caseStudy after = map cl_caseStudy before
    /\ forall r', In r' after ->
         exists r, In r before
                   /\ cl_caseStudy r = cl_caseStudy r'
                   /\ cl_reportCount r'
                      = cl_reportCount r
                        + (if accepted
                              && (irp_caseStudyId data =? caseStudies_id (cl_caseStudy r'))
                           then 1 else 0).
Proof.
  intros H.
  destruct (migrated_tables w s) as (_ & Hu & Hc & _ & Hr & _).
  unfold createReport, getAllCaseStudies at 1. rewrite (getDb_initialised w s H).
  set (s0 := migrated w s) in *.
  assert (Hlist : forall s1 : Store,
             users s1 = users s0 -> caseStudies s1 = caseStudies s0 ->
             forall bump : Z -> Z,
               (forall id, Z.of_nat (List.length
                                       (filter (fun rp => reports_caseStudyId rp =? id)
                                               (reports s1)))
                           = Z.of_nat (List.length
                                         (filter (fun rp => reports_caseStudyId rp =? id)
                                                 (reports s0))) + bump id) ->
               exists after,
                 fst (getAllCaseStudies (settled s1)) = Ok after
                 /\ after
                    = map (fun r => mkCaseStudyListRow
                                      (cl_caseStudy r) (cl_authorName r)
                                      (cl_authorAvatarUrl r)
                                      (cl_reportCount r
                                       + bump (caseStudies_id (cl_caseStudy r))))
                          (map (fun row =>
                                  mkCaseStudyListRow
                                    (fst row) (joined_name (snd row))
                                    (joined_avatarUrl (snd row))
                                    (orElse (Map_get
                                               (count_by (map reports_caseStudyId
                                                              (reports s0)))
                                               (caseStudies_id (fst row))) 0))
                               (orderBy (asc (fun row : CaseStudy * option User =>
                                                caseStudies_createdAt (fst row)))
                                        (leftJoin_users caseStudies_userId (users s0)
                                                        (caseStudies s0))))).
  { intros s1 Hu1 Hc1 bump Hbump. unfold getAllCaseStudies.
    rewrite (getDb_initialised (settled s1) s1 eq_refl), migrated_settled.
    rewrite Hu1, Hc1. eexists. split; [reflexivity|].
    cbn [fst]. rewrite map_map. apply map_ext. intros [c ou].
    cbn [fst snd cl_caseStudy cl_authorName cl_authorAvatarUrl cl_reportCount].
    f_equal. rewrite !count_by_spec, !filter_map_length. apply Hbump. }
  destruct (insert_reports s0 data now) as [s'|e] eqn:E.
  - unfold insert_reports in E.
    destruct (new_rowid _ _ _) as [i|e]; [|discriminate].
    destruct (existsb _ _); [discriminate|].
    destruct (_ && _); [|discriminate].
    inversion E as [Hs']. clear E.
    destruct (Hlist s' ltac:(now subst s') ltac:(now subst s')
                (fun id => if irp_caseStudyId data =? id then 1 else 0))
      as (after & Hafter & Hrows).
    { intros id. subst s'. cbn [reports with_reports].
      rewrite filter_place_count. cbn [reports_caseStudyId]. reflexivity. }
    exists true, s'. eexists. exists after.
    split; [subst s'; reflexivity|]. split; [reflexivity|].
    split; [exact Hafter|]. split.
    + rewrite Hrows, !map_map. reflexivity.
    + intros r' Hr'. rewrite Hrows in Hr'. apply in_map_iff in Hr'.
      destruct Hr' as (r & <- & Hin). exists r.
      cbn [cl_caseStudy cl_reportCount andb]. repeat split. exact Hin.
  - destruct (Hlist s0 eq_refl eq_refl (fun _ => 0)) as (after & Hafter & Hrows).
    { intros id. lia. }
    exists false, s0. eexists. exists after.
    split; [reflexivity|]. split; [reflexivity|].
    split; [exact Hafter|]. split.
    + rewrite Hrows, !map_map. reflexivity.
    + intros r' Hr'. rewrite Hrows in Hr'. apply in_map_iff in Hr'.
      destruct Hr' as (r & <- & Hin). exists r.
      cbn [cl_caseStudy cl_reportCount andb]. repeat split. exact Hin.
Qed.

Lemma createReport_raises_count_witness :
  _db world_full = Some store_full
  /\ fst (createReport (mkInsertReport None 2 2 None) 9000 world_full)
     = Ok (mkCreateReportResult true)
  /\ exists (accepted : bool) (s' : Store) (before after : list CaseStudyListRow),
       createReport (mkInsertReport None 2 2 None) 9000 world_full
       = (Ok (mkCreateReportResult accepted), settled s')
       /\ map cl_caseStudy after = map cl_caseStudy before.
Proof.
  split; [reflexivity|]. split; [reflexivity|].
  destruct (createReport_raises_count (mkInsertReport None 2 2 None) 9000
              world_full store_full eq_refl)
    as (accepted & s' & before & after & Hrun & _ & _ & Hsame & _).
  exists accepted, s', before, after. split; assumption.
Defined.

Lemma existsb_conj_delete {A : Type} (p d : A -> bool) (l : list A) :
  (forall x, p x = true -> d x = true) ->
  existsb p (delete_where d l) = false.
Proof.
  intros Hpd. induction l as [|x l IH]; [reflexivity|].
  cbn [delete_where filter]. fold (delete_where d l).
  destruct (d x) eqn:Ed; cbn [negb existsb]; [exact IH|].
  rewrite IH, orb_false_r.
  destruct (p x) eqn:Ep; [|reflexivity]. rewrite (Hpd x Ep) in Ed. discriminate.
Qed.

(** After [deleteCaseStudy id] the case study can no longer be read by id, it
    is in no listing, nobody has it as a favorite, and deleting it again
    changes nothing. *)
Theorem deleteCaseStudy_then_reads (id : Z) (w : World) (s : Store) :
  _db w = Some s ->
  exists s' : Store,
    deleteCaseStudy id w = (Ok true, settled s')
    /\ fst (getCaseStudyById id (settled s')) = Ok None
    /\ (forall userId, fst (isFavorite userId id (settled s')) = Ok false)
    /\ (exists l, fst (getAllCaseStudies (settled s')) = Ok l
                  /\ forall r, In r l -> caseStudies_id (cl_caseStudy r) <> id)
    /\ deleteCaseStudy id (settled s') = (Ok true, settled s').
Proof.
  intros H. unfold deleteCaseStudy at 1. rewrite (getDb_initialised w s H).
  set (s0 := migrated w s).
  eexists. split; [reflexivity|].
  unfold delete_caseStudies_by_id.
  cbn [foreign_keys with_favorites with_reports with_caseStudies favorites reports
       caseStudies seq_favorites seq_reports seq_caseStudies].
  assert (Hgone : forall l : list CaseStudy,
             filter (fun c => caseStudies_id c =? id)
                    (delete_where (fun c => caseStudies_id c =? id) l) = [])
    by (intros l; apply filter_delete_same).
  destruct (foreign_keys s0) eqn:Efk.
  - split; [|split; [|split]].
    + rewrite (getCaseStudyById_run id (settled _) _ eq_refl).
      cbn [fst caseStudies with_reports with_favorites with_caseStudies].
      now rewrite Hgone.
    + intros userId. rewrite isFavorite_settled.
      cbn [fst favorites with_reports with_favorites with_caseStudies].
      f_equal. apply existsb_conj_delete. intros f Hpair.
      unfold favorite_of in Hpair. apply andb_true_iff in Hpair. tauto.
    + unfold getAllCaseStudies.
      rewrite (getDb_initialised (settled _) _ eq_refl), migrated_settled.
      eexists. split; [reflexivity|].
      intros r Hr. apply in_map_iff in Hr. destruct Hr as ([c ou] & <- & Hrow).
      apply In_orderBy, leftJoin_users_In in Hrow. destruct Hrow as [Hin _].
      cbn [caseStudies with_reports with_favorites with_caseStudies] in Hin.
      apply delete_where_spec in Hin. destruct Hin as [_ Hne].
      cbn [fst cl_caseStudy]. now apply Z.eqb_neq.
    + unfold deleteCaseStudy.
      rewrite (getDb_initialised (settled _) _ eq_refl), migrated_settled.
      unfold delete_caseStudies_by_id.
      cbn [foreign_keys with_favorites with_reports with_caseStudies favorites
           reports caseStudies seq_favorites seq_reports seq_caseStudies].
      rewrite Efk. unfold delete_where. rewrite !filter_twice. reflexivity.
  - split; [|split; [|split]].
    + rewrite (getCaseStudyById_run id (settled _) _ eq_refl).
      cbn [fst caseStudies with_reports with_favorites with_caseStudies].
      now rewrite Hgone.
    + intros userId. rewrite isFavorite_settled.
      cbn [fst favorites with_reports with_favorites with_caseStudies].
      f_equal. apply existsb_conj_delete. intros f Hpair.
      unfold favorite_of in Hpair. apply andb_true_iff in Hpair. tauto.
    + unfold getAllCaseStudies.
      rewrite (getDb_initialised (settled _) _ eq_refl), migrated_settled.
      eexists. split; [reflexivity|].
      intros r Hr. apply in_map_iff in Hr. destruct Hr as ([c ou] & <- & Hrow).
      apply In_orderBy, leftJoin_users_In in Hrow. destruct Hrow as [Hin _].
      cbn [caseStudies with_reports with_favorites with_caseStudies] in Hin.
      apply delete_where_spec in Hin. destruct Hin as [_ Hne].
      cbn [fst cl_caseStudy]. now apply Z.eqb_neq.
    + unfold deleteCaseStudy.
      rewrite (getDb_initialised (settled _) _ eq_refl), migrated_settled.
      unfold delete_caseStudies_by_id.
      cbn [foreign_keys with_favorites with_reports with_caseStudies favorites
           reports caseStudies seq_favorites seq_reports seq_caseStudies].
      rewrite Efk. unfold delete_where. rewrite !filter_twice. reflexivity.
Qed.

Lemma deleteCaseStudy_then_reads_witness :
  _db world_full = Some store_full
  /\ exists s' : Store,
       deleteCaseStudy 1 world_full = (Ok true, settled s')
       /\ fst (getCaseStudyById 1 (settled s')) = Ok None.
Proof.
  split; [reflexivity|].
  destruct (deleteCaseStudy_then_reads 1 world_full store_full eq_refl)
    as (s' & Hrun & Hread & _).
  exists s'. split; assumption.
Defined.

(** ** Insert and read back *)

Lemma migrated_seqs (w : World) (s : Store) :
  seq_users (migrated w s) = seq_users s
  /\ seq_caseStudies (migrated w s) = seq_caseStudies s
  /\ seq_quests (migrated w s) = seq_quests s
  /\ seq_questAnswers (migrated w s) = seq_questAnswers s.
Proof.
  unfold migrated. destruct (_questTablesEnsured w); repeat split; reflexivity.
Qed.

Lemma migrated_quests (w : World) (s : Store) (q' : Quest) :
  In q' (quests (migrated w s)) ->
  exists q, In q (quests s)
            /\ quests_id q' = quests_id q
            /\ quests_userId q' = quests_userId q
            /\ quests_createdAt q' = quests_createdAt q.
Proof.
  unfold migrated. destruct (_questTablesEnsured w).
  - intros Hin. exists q'. auto.
  - cbn [quests with_quests]. intros Hin. apply in_map_iff in Hin.
    destruct Hin as (q & <- & Hin). exists q. unfold backfill_status.
    destruct (String.eqb _ _); auto.
Qed.

(** The first row of a descending lookup is the new row when every other row
    the lookup selects is strictly older. *)
Lemma newest_is_first {A : Type} (key : A -> Z) (p : A -> bool) (le : A -> A -> bool)
    (x : A) (l : list A) :
  p x = true ->
  (forall y, In y l -> p y = true -> key y < key x) ->
  first_row (orderBy (desc key) (filter p (place le x l))) = Some x.
Proof.
  intros Hx Holder.
  assert (Hsel : In x (filter p (place le x l))).
  { apply filter_In. split; [|assumption]. apply In_place. now left. }
  destruct (first_row_orderBy_some (desc key) _ _ Hsel) as [c Hc].
  rewrite Hc. f_equal.
  apply first_row_desc_greatest in Hc. destruct Hc as [Hin Hmax].
  apply filter_In in Hin. destruct Hin as [Hin Hpc].
  apply In_place in Hin. destruct Hin as [->|Hin]; [reflexivity|].
  specialize (Holder c Hin Hpc). specialize (Hmax x Hsel). lia.
Qed.

(** Looking a fresh id up finds the row just placed. *)
Lemma fresh_id_found {A : Type} (key : A -> Z) (le : A -> A -> bool)
    (x : A) (l : list A) :
  (forall y, In y l -> key y <> key x) ->
  filter (fun y => key y =? key x) (place le x l) = [x].
Proof.
  intros Hfresh. induction l as [|y l IH]; cbn [place filter].
  - now rewrite Z.eqb_refl.
  - assert (Hy : (key y =? key x) = false)
      by (apply Z.eqb_neq, Hfresh; now left).
    assert (Hl : filter (fun z => key z =? key x) l = []).
    { apply filter_none. intros z Hz. apply Z.eqb_neq, Hfresh. now right. }
    destruct (le x y); cbn [filter].
    + now rewrite Z.eqb_refl, Hy, Hl.
    + rewrite Hy. apply IH. intros z Hz. apply Hfresh. now right.
Qed.

(** [createCaseStudy] with the id left to the store and an existing author:
    the new row gets an id above every id of the table and above the
    high-water mark, it can be read back by that id, and when every earlier
    row of the author is strictly older the id answered is the new row's. *)
Theorem createCaseStudy_round_trip (data : InsertCaseStudy) (now : Z)
    (w : World) (s : Store) :
  _db w = Some s ->
  ics_id data = None ->
  fk_ok s (map users_id (users s)) (ics_userId data) = true ->
  exists (i : Z) (s' : Store),
    snd (createCaseStudy data now w) = settled s'
    /\ seq_caseStudies s < i
    /\ (forall c, In c (caseStudies s) -> caseStudies_id c < i)
    /\ Permutation (row_of_InsertCaseStudy i data now :: caseStudies s) (caseStudies s')
    /\ fst (getCaseStudyById i (settled s')) = Ok (Some (row_of_InsertCaseStudy i data now))
    /\ ((forall c, In c (caseStudies s) ->
                   caseStudies_userId c = ics_userId data ->
                   caseStudies_createdAt c < orElse (ics_createdAt data) (nowMs now)) ->
        fst (createCaseStudy data now w) = Ok i).
Proof.
  intros H Hid Hfk.
  destruct (migrated_tables w s) as (Hfk0 & Hu & Hc & _).
  destruct (migrated_seqs w s) as (_ & Hseq & _).
  unfold createCaseStudy. rewrite (getDb_initialised w s H).
  unfold insert_caseStudies. rewrite Hid. cbn [new_rowid].
  unfold fk_ok in *. rewrite Hfk0, Hu, Hfk, Hc, Hseq.
  set (i := Z.max (seq_caseStudies s) (max_id (map caseStudies_id (caseStudies s))) + 1).
  assert (Hbelow : forall c, In c (caseStudies s) -> caseStudies_id c < i).
  { intros c Hin. apply (in_map caseStudies_id), max_id_ge in Hin. lia. }
  exists i. eexists. cbn [fst snd]. split; [reflexivity|].
  split; [lia|]. split; [exact Hbelow|].
  cbn [caseStudies with_caseStudies]. split; [apply place_perm|]. split.
  - rewrite (getCaseStudyById_run i (settled _) _ eq_refl).
    cbn [fst caseStudies with_caseStudies].
    change i with (caseStudies_id (row_of_InsertCaseStudy i data now)) at 1.
    rewrite fresh_id_found; [reflexivity|].
    intros c Hin. specialize (Hbelow c Hin). cbn [caseStudies_id row_of_InsertCaseStudy].
    lia.
  - intros Holder. unfold last_caseStudy_of. cbn [caseStudies with_caseStudies].
    rewrite newest_is_first.
    + cbn [option_map caseStudies_id row_of_InsertCaseStudy]. now rewrite insertId_of_id.
    + cbn [caseStudies_userId row_of_InsertCaseStudy]. apply Z.eqb_refl.
    + intros c Hin Hu'. apply Z.eqb_eq in Hu'.
      cbn [caseStudies_createdAt row_of_InsertCaseStudy]. auto.
Qed.

Lemma createCaseStudy_round_trip_witness :
  _db world_full = Some store_full
  /\ ics_id new_post = None
  /\ exists (i : Z) (s' : Store),
       snd (createCaseStudy new_post 9000 world_full) = settled s'
       /\ fst (getCaseStudyById i (settled s'))
          = Ok (Some (row_of_InsertCaseStudy i new_post 9000))
       /\ fst (createCaseStudy new_post 9000 world_full) = Ok i.
Proof.
  split; [reflexivity|]. split; [reflexivity|].
  destruct (createCaseStudy_round_trip new_post 9000 world_full store_full
              eq_refl eq_refl eq_refl)
    as (i & s' & Hrun & _ & _ & _ & Hread & Hid).
  exists i, s'. split; [exact Hrun|]. split; [exact Hread|].
  apply Hid. intros c [<-|[<-|[]]] _; cbn; lia.
Defined.

Lemma joined_first_fresh {A : Type} (key uid : A -> Z) (us : list User)
    (le : A -> A -> bool) (x : A) (l : list A) :
  (forall y, In y l -> key y <> key x) ->
  exists ou,
    first_row (filter (fun row => key (fst row) =? key x)
                      (leftJoin_users uid us (place le x l)))
    = Some (x, ou).
Proof.
  intros Hfresh.
  assert (Hx : In x (place le x l)) by (apply In_place; now left).
  destruct (leftJoin_users_covers uid us x _ Hx) as [ou0 Hrow0].
  assert (Hsel : In (x, ou0)
                    (filter (fun row => key (fst row) =? key x)
                            (leftJoin_users uid us (place le x l)))).
  { apply filter_In. split; [assumption|]. apply Z.eqb_refl. }
  rewrite first_row_head.
  destruct (filter _ _) as [|[q ou] rest] eqn:E; [destruct Hsel|].
  exists ou. cbn [hd_error]. do 2 f_equal.
  assert (Hq : In (q, ou) (filter (fun row => key (fst row) =? key x)
                                  (leftJoin_users uid us (place le x l))))
    by (rewrite E; now left).
  apply filter_In in Hq. destruct Hq as [Hq Hkey]. cbn [fst] in Hkey.
  apply Z.eqb_eq in Hkey. apply leftJoin_users_In in Hq. destruct Hq as [Hq _].
  apply In_place in Hq. destruct Hq as [->|Hq]; [reflexivity|].
  exfalso. exact (Hfresh q Hq Hkey).
Qed.

(** [createQuest] with the id left to the store and an existing author: the
    new quest gets an id above every id of the table, reads back by that id
    as the row built from the data, open unless a status was supplied, and
    when every earlier quest of the author is strictly older the id answered
    is the new quest's. *)
Theorem createQuest_round_trip (data : InsertQuest) (now : Z) (w : World) (s : Store) :
  _db w = Some s ->
  iq_id data = None ->
  fk_ok s (map users_id (users s)) (iq_userId data) = true ->
  exists (i : Z) (s' : Store) (row : QuestDetailRow),
    snd (createQuest data now w) = settled s'
    /\ seq_quests s < i
    /\ (forall q, In q (quests s) -> quests_id q < i)
    /\ fst (getQuestById i (settled s')) = Ok (Some row)
    /\ qd_quest row = row_of_InsertQuest i data now
    /\ (iq_status data = None -> quests_status (qd_quest row) = "open")
    /\ ((forall q, In q (quests s) ->
                   quests_userId q = iq_userId data ->
                   quests_createdAt q < orElse (iq_createdAt data) (nowMs now)) ->
        fst (createQuest data now w) = Ok i).
Proof.
  intros H Hid Hfk.
  destruct (migrated_tables w s) as (Hfk0 & Hu & _).
  destruct (migrated_seqs w s) as (_ & _ & Hseq & _).
  unfold createQuest. rewrite (getDb_initialised w s H).
  unfold insert_quests. rewrite Hid. cbn [new_rowid].
  unfold fk_ok in *. rewrite Hfk0, Hu, Hfk, Hseq.
  set (l0 := quests (migrated w s)).
  set (i := Z.max (seq_quests s) (max_id (map quests_id l0)) + 1).
  assert (Hbelow0 : forall q, In q l0 -> quests_id q < i).
  { intros q Hin. apply (in_map quests_id), max_id_ge in Hin. lia. }
  assert (Hbelow : forall q, In q (quests s) -> quests_id q < i).
  { intros q Hin. unfold i.
    assert (Hids : map quests_id l0 = map quests_id (quests s)).
    { unfold l0, migrated. destruct (_questTablesEnsured w); [reflexivity|].
      cbn [quests with_quests]. apply map_key_update, backfill_status_id. }
    rewrite Hids. apply (in_map quests_id), max_id_ge in Hin. lia. }
  destruct (joined_first_fresh quests_id quests_userId (users s) (asc quests_id)
              (row_of_InsertQuest i data now) l0) as [ou Hfirst].
  { intros q Hin. specialize (Hbelow0 q Hin). cbn [quests_id row_of_InsertQuest]. lia. }
  exists i. eexists.
  exists (mkQuestDetailRow (row_of_InsertQuest i data now) (joined_name ou)
                           (joined_avatarUrl ou)).
  cbn [fst snd]. split; [reflexivity|]. split; [lia|]. split; [exact Hbelow|].
  split; [|split; [reflexivity|split]].
  - rewrite (getQuestById_run i (settled _) _ eq_refl), migrated_settled.
    cbn [fst quests users with_quests].
    change i with (quests_id (row_of_InsertQuest i data now)) at 1.
    rewrite Hu, Hfirst. reflexivity.
  - intros Hst. cbn [qd_quest quests_status row_of_InsertQuest]. now rewrite Hst.
  - intros Holder. unfold last_quest_of. cbn [quests with_quests].
    rewrite newest_is_first.
    + cbn [option_map quests_id row_of_InsertQuest]. now rewrite insertId_of_id.
    + cbn [quests_userId row_of_InsertQuest]. apply Z.eqb_refl.
    + intros q' Hin Hu'. apply Z.eqb_eq in Hu'.
      destruct (migrated_quests w s q' Hin) as (q & Hq & _ & Huid & Hcreated).
      cbn [quests_createdAt row_of_InsertQuest]. rewrite Hcreated.
      apply Holder; [assumption | congruence].
Qed.

Lemma createQuest_round_trip_witness :
  _db world_full = Some store_full
  /\ iq_id new_quest = None
  /\ exists (i : Z) (s' : Store) (row : QuestDetailRow),
       snd (createQuest new_quest 9000 world_full) = settled s'
       /\ fst (getQuestById i (settled s')) = Ok (Some row)
       /\ quests_status (qd_quest row) = "open"
       /\ fst (createQuest new_quest 9000 world_full) = Ok i.
Proof.
  split; [reflexivity|]. split; [reflexivity|].
  destruct (createQuest_round_trip new_quest 9000 world_full store_full
              eq_refl eq_refl eq_refl)
    as (i & s' & row & Hrun & _ & _ & Hread & _ & Hopen & Hid).
  exists i, s', row. split; [exact Hrun|]. split; [exact Hread|].
  split; [exact (Hopen eq_refl)|].
  apply Hid. intros q [<-|[<-|[]]] _; cbn; lia.
Defined.

(** [createQuestAnswer] with the id left to the store, on an existing quest
    by an existing user: the new answer gets an id above every id of the
    table, reads back by that id, is listed among the answers of its quest,
    and when every earlier answer of that user to that quest is strictly
    older the id answered is the new answer's. *)
Theorem createQuestAnswer_round_trip (data : InsertQuestAnswer) (now : Z)
    (w : World) (s : Store) :
  _db w = Some s ->
  iqa_id data = None ->
  fk_ok s (map quests_id (quests s)) (iqa_questId data) = true ->
  fk_ok s (map users_id (users s)) (iqa_userId data) = true ->
  exists (i : Z) (s' : Store),
    snd (createQuestAnswer data now w) = settled s'
    /\ seq_questAnswers s < i
    /\ (forall a, In a (questAnswers s) -> questAnswers_id a < i)
    /\ fst (getQuestAnswerById i (settled s'))
       = Ok (Some (row_of_InsertQuestAnswer i data now))
    /\ (exists l, fst (getQuestAnswers (iqa_questId data) (settled s')) = Ok l
                  /\ exists r, In r l
                               /\ ar_answer r = row_of_InsertQuestAnswer i data now)
    /\ ((forall a, In a (questAnswers s) ->
                   questAnswers_questId a = iqa_questId data ->
                   questAnswers_userId a = iqa_userId data ->
                   questAnswers_createdAt a < orElse (iqa_createdAt data) (nowMs now)) ->
        fst (createQuestAnswer data now w) = Ok i).
Proof.
  intros H Hid Hfkq Hfku.
  destruct (migrated_tables w s) as (Hfk0 & Hu & _ & _ & _ & Ha & _).
  destruct (migrated_seqs w s) as (_ & _ & _ & Hseq).
  assert (Hids : map quests_id (quests (migrated w s)) = map quests_id (quests s)).
  { unfold migrated. destruct (_questTablesEnsured w); [reflexivity|].
    cbn [quests with_quests]. apply map_key_update, backfill_status_id. }
  unfold createQuestAnswer. rewrite (getDb_initialised w s H).
  unfold insert_questAnswers. rewrite Hid. cbn [new_rowid].
  unfold fk_ok in *. rewrite Hfk0, Hu, Hids, Hfkq, Hfku, Ha, Hseq. cbn [andb].
  set (i := Z.max (seq_questAnswers s) (max_id (map questAnswers_id (questAnswers s))) + 1).
  assert (Hbelow : forall a, In a (questAnswers s) -> questAnswers_id a < i).
  { intros a Hin. apply (in_map questAnswers_id), max_id_ge in Hin. lia. }
  exists i. eexists. cbn [fst snd]. split; [reflexivity|].
  split; [lia|]. split; [exact Hbelow|]. split; [|split].
  - rewrite getQuestAnswerById_settled. cbn [fst questAnswers with_questAnswers].
    change i with (questAnswers_id (row_of_InsertQuestAnswer i data now)) at 1.
    rewrite fresh_id_found; [reflexivity|].
    intros a Hin. specialize (Hbelow a Hin).
    cbn [questAnswers_id row_of_InsertQuestAnswer]. lia.
  - rewrite getQuestAnswers_settled. cbn [fst questAnswers users with_questAnswers].
    eexists. split; [reflexivity|].
    assert (Hx : In (row_of_InsertQuestAnswer i data now)
                    (place (asc questAnswers_id) (row_of_InsertQuestAnswer i data now)
                           (questAnswers s)))
      by (apply In_place; now left).
    destruct (leftJoin_users_covers questAnswers_userId (users (migrated w s)) _ _ Hx)
      as [ou Hrow].
    exists (mkQuestAnswerRow (row_of_InsertQuestAnswer i data now) (joined_name ou)
                             (joined_avatarUrl ou)).
    split; [|reflexivity].
    apply in_map_iff. exists (row_of_InsertQuestAnswer i data now, ou).
    split; [reflexivity|]. apply In_orderBy, filter_In. split; [exact Hrow|].
    cbn [fst questAnswers_questId row_of_InsertQuestAnswer]. apply Z.eqb_refl.
  - intros Holder. cbn [questAnswers with_questAnswers].
    rewrite newest_is_first.
    + cbn [option_map questAnswers_id row_of_InsertQuestAnswer].
      now rewrite insertId_of_id.
    + cbn [questAnswers_questId questAnswers_userId row_of_InsertQuestAnswer].
      now rewrite !Z.eqb_refl.
    + intros a Hin Hsel. apply andb_true_iff in Hsel. destruct Hsel as [Hq Hu'].
      apply Z.eqb_eq in Hq, Hu'.
      cbn [questAnswers_createdAt row_of_InsertQuestAnswer]. auto.
Qed.

Lemma createQuestAnswer_round_trip_witness :
  _db world_full = Some store_full
  /\ iqa_id (mkInsertQuestAnswer None 1 2 "again" None None) = None
  /\ exists (i : Z) (s' : Store),
       snd (createQuestAnswer (mkInsertQuestAnswer None 1 2 "again" None None) 9000
                              world_full) = settled s'
       /\ fst (getQuestAnswerById i (settled s'))
          = Ok (Some (row_of_InsertQuestAnswer i
                        (mkInsertQuestAnswer None 1 2 "again" None None) 9000))
       /\ fst (createQuestAnswer (mkInsertQuestAnswer None 1 2 "again" None None) 9000
                                 world_full) = Ok i.
Proof.
  split; [reflexivity|]. split; [reflexivity|].
  destruct (createQuestAnswer_round_trip
              (mkInsertQuestAnswer None 1 2 "again" None None) 9000
              world_full store_full eq_refl eq_refl eq_refl eq_refl)
    as (i & s' & Hrun & _ & _ & Hread & _ & Hid).
  exists i, s'. split; [exact Hrun|]. split; [exact Hread|].
  apply Hid. intros a [<-|[]] _ _; cbn; lia.
Defined.

(** ** Closing a quest in the store *)


Lemma first_row_filter_map {A : Type} (p : A -> bool) (g : A -> A) (l : list A) :
  (forall x, p (g x) = p x) ->
  first_row (filter p (map g l)) = option_map g (first_row (filter p l)).
Proof.
  intros Hg. rewrite !first_row_head.
  induction l as [|x l IH]; [reflexivity|].
  cbn [map filter]. rewrite Hg. destruct (p x); [reflexivity | exact IH].
Qed.



(** ** Users *)

Lemma filter_place_only {A : Type} (p : A -> bool) (le : A -> A -> bool)
    (x : A) (l : list A) :
  p x = true -> (forall y, In y l -> p y = false) ->
  filter p (place le x l) = [x].
Proof.
  intros Hx Hl. induction l as [|y l IH]; cbn [place filter].
  - now rewrite Hx.
  - assert (Hy : p y = false) by (apply Hl; now left).
    assert (Hrest : filter p l = [])
      by (apply filter_none; intros z Hz; apply Hl; now right).
    destruct (le x y); cbn [filter].
    + now rewrite Hx, Hy, Hrest.
    + rewrite Hy. apply IH. intros z Hz. apply Hl. now right.
Qed.

Lemma getUserByOpenId_settled (openId : string) (s : Store) :
  getUserByOpenId openId (settled s)
  = (Ok (first_row (filter (fun u => String.eqb (users_openId u) openId) (users s))),
     settled s).
Proof.
  unfold getUserByOpenId. rewrite (getDb_initialised (settled s) s eq_refl).
  now rewrite migrated_settled.
Qed.

Lemma updateSet_text (assigned : UserFields) (now : Z) :
  let updateSet := if no_keys assigned
                   then mkUserFields None None None None (Some now) None
                   else assigned in
  uf_name updateSet = uf_name assigned
  /\ uf_email updateSet = uf_email assigned
  /\ uf_avatarUrl updateSet = uf_avatarUrl assigned
  /\ uf_loginMethod updateSet = uf_loginMethod assigned.
Proof.
  unfold no_keys. destruct assigned as [n e a l t r]; cbn.
  destruct n, e, a, l, t, r; repeat split.
Qed.

(** [upsertUser] refuses an empty openId before it touches anything, and
    without a database it does nothing and reports no error. *)
Theorem upsertUser_guards (env : Env) (user : InsertUser) (now : Z) (w : World) :
  (iu_openId user = EmptyString ->
   upsertUser env user now w = (Throw OpenIdRequired, w))
  /\ (iu_openId user <> EmptyString -> _db w = None ->
      upsertUser env user now w = (Ok tt, w)).
Proof.
  unfold upsertUser. split.
  - intros ->. reflexivity.
  - intros Hopen Hdown. rewrite (truthy_nonempty _ Hopen). cbn [negb].
    now rewrite (getDb_uninitialised w Hdown).
Qed.

Lemma upsertUser_guards_witness :
  iu_openId (sign_in "carol") <> EmptyString
  /\ _db world_down = None
  /\ upsertUser env_owner (sign_in "carol") 9000 world_down = (Ok tt, world_down).
Proof.
  split; [discriminate|]. split; [reflexivity|].
  apply (upsertUser_guards env_owner (sign_in "carol") 9000 world_down);
    [discriminate | reflexivity].
Defined.

(** After [upsertUser] the identity reads back by its openId; every text
    field that was supplied is stored as supplied; users with another openId
    are untouched; and the table grows by one row for a new openId and by
    none for a known one. *)
Theorem upsertUser_round_trip (env : Env) (user : InsertUser) (now : Z)
    (w : World) (s : Store) :
  _db w = Some s ->
  iu_openId user <> EmptyString ->
  exists (s' : Store) (u : User),
    upsertUser env user now w = (Ok tt, settled s')
    /\ fst (getUserByOpenId (iu_openId user) (settled s')) = Ok (Some u)
    /\ users_openId u = iu_openId user
    /\ (forall v, iu_name user = Some v -> users_name u = v)
    /\ (forall v, iu_email user = Some v -> users_email u = v)
    /\ (forall v, iu_avatarUrl user = Some v -> users_avatarUrl u = v)
    /\ (forall v, iu_loginMethod user = Some v -> users_loginMethod u = v)
    /\ (forall u0, In u0 (users s) -> users_openId u0 <> iu_openId user ->
                   In u0 (users s'))
    /\ List.length (users s')
       = (List.length (users s)
          + (if existsb (fun u0 => String.eqb (users_openId u0) (iu_openId user))
                        (users s)
             then 0 else 1))%nat.
Proof.
  intros H Hopen. unfold upsertUser.
  rewrite (truthy_nonempty _ Hopen). cbn [negb].
  rewrite (getDb_initialised w s H).
  destruct (migrated_tables w s) as (_ & Hu & _).
  destruct (migrated_seqs w s) as (Hseq & _).
  set (o := iu_openId user).
  set (role := match iu_role user with
               | Some r => Some r
               | None => if includes (ownerOpenIds env) o then Some RoleAdmin else None
               end).
  set (assigned := mkUserFields (iu_name user) (iu_email user) (iu_avatarUrl user)
                                (iu_loginMethod user) (iu_lastSignedIn user) role).
  set (updateSet := if no_keys assigned
                    then mkUserFields None None None None (Some now) None
                    else assigned).
  destruct (updateSet_text assigned now) as (Hsn & Hse & Hsa & Hsl).
  fold updateSet in Hsn, Hse, Hsa, Hsl.
  unfold upsert_users. rewrite Hu, Hseq.
  destruct (existsb (fun u0 => String.eqb (users_openId u0) o) (users s)) eqn:E.
  - (* known openId *)
    set (g := fun u0 => if String.eqb (users_openId u0) o
                        then apply_updateSet updateSet u0 else u0).
    assert (Hgo : forall u0, String.eqb (users_openId (g u0)) o
                             = String.eqb (users_openId u0) o).
    { intros u0. unfold g. destruct (String.eqb (users_openId u0) o) eqn:Eo;
        cbn [users_openId apply_updateSet]; exact Eo. }
    assert (Hfirst : exists u0, first_row (filter (fun u0 => String.eqb (users_openId u0) o)
                                                  (users s)) = Some u0).
    { apply existsb_exists in E. destruct E as (u0 & Hin & Ho).
      assert (Hsel : In u0 (filter (fun u0 => String.eqb (users_openId u0) o) (users s)))
        by (apply filter_In; split; assumption).
      rewrite first_row_head. destruct (filter _ _) as [|u1 rest]; [destruct Hsel|].
      now exists u1. }
    destruct Hfirst as (u0 & Hfirst).
    pose proof (first_row_found _ _ _ Hfirst) as [_ Ho0].
    eexists. exists (apply_updateSet updateSet u0).
    split; [reflexivity|]. rewrite getUserByOpenId_settled.
    cbn [fst users with_users]. fold g.
    rewrite (first_row_filter_map (fun u0 => String.eqb (users_openId u0) o) g _ Hgo).
    rewrite Hfirst. cbn [option_map]. unfold g at 1. rewrite Ho0.
    split; [reflexivity|].
    split; [cbn [users_openId apply_updateSet]; now apply String.eqb_eq|].
    cbn [users_name users_email users_avatarUrl users_loginMethod apply_updateSet].
    rewrite Hsn, Hse, Hsa, Hsl.
    cbn [uf_name uf_email uf_avatarUrl uf_loginMethod assigned].
    split; [intros v ->; reflexivity|]. split; [intros v ->; reflexivity|].
    split; [intros v ->; reflexivity|]. split; [intros v ->; reflexivity|].
    split.
    + intros u1 Hin Hne. apply in_map_iff. exists u1. split; [|assumption].
      unfold g. now rewrite (proj2 (String.eqb_neq _ _) Hne).
    + rewrite length_map. lia.
  - (* new openId *)
    assert (Hnone : forall u0, In u0 (users s) -> String.eqb (users_openId u0) o = false).
    { intros u0 Hin. destruct (String.eqb (users_openId u0) o) eqn:Eo; [|reflexivity].
      assert (existsb (fun u0 => String.eqb (users_openId u0) o) (users s) = true)
        by (apply existsb_exists; eauto).
      congruence. }
    eexists. eexists. split; [reflexivity|]. rewrite getUserByOpenId_settled.
    cbn [fst users with_users].
    rewrite filter_place_only;
      [|cbn [users_openId row_of_values]; apply String.eqb_refl | exact Hnone].
    split; [reflexivity|]. split; [reflexivity|].
    cbn [users_name users_email users_avatarUrl users_loginMethod row_of_values
         uf_name uf_email uf_avatarUrl uf_loginMethod assigned].
    split; [intros v ->; reflexivity|]. split; [intros v ->; reflexivity|].
    split; [intros v ->; reflexivity|]. split; [intros v ->; reflexivity|].
    split.
    + intros u1 Hin _. apply In_place. now right.
    + rewrite <- (Permutation_length (place_perm _ _ _)). cbn [List.length]. lia.
Qed.

Lemma upsertUser_round_trip_witness :
  _db world_full = Some store_full
  /\ iu_openId (sign_in "carol") <> EmptyString
  /\ exists (s' : Store) (u : User),
       upsertUser env_owner (sign_in "carol") 9000 world_full = (Ok tt, settled s')
       /\ fst (getUserByOpenId "carol" (settled s')) = Ok (Some u)
       /\ users_openId u = "carol".
Proof.
  split; [reflexivity|]. split; [discriminate|].
  destruct (upsertUser_round_trip env_owner (sign_in "carol") 9000 world_full store_full
              eq_refl ltac:(discriminate)) as (s' & u & Hrun & Hread & Ho & _).
  exists s', u. repeat split; assumption.
Defined.

Lemma first_row_some_of_existsb {A : Type} (p : A -> bool) (l : list A) :
  existsb p l = true -> exists x, first_row (filter p l) = Some x.
Proof.
  intros E. apply existsb_exists in E. destruct E as (x & Hin & Hp).
  assert (Hsel : In x (filter p l)) by (apply filter_In; split; assumption).
  rewrite first_row_head. destruct (filter p l) as [|y rest]; [destruct Hsel|].
  now exists y.
Qed.

Lemma updateSet_lastSignedIn (assigned : UserFields) (now : Z) :
  uf_lastSignedIn (if no_keys assigned
                   then mkUserFields None None None None (Some now) None
                   else assigned)
  = match uf_lastSignedIn assigned with
    | Some t => Some t
    | None => if no_keys assigned then Some now else None
    end.
Proof.
  unfold no_keys. destruct assigned as [n e a l t r]; cbn.
  destruct n, e, a, l, t, r; reflexivity.
Qed.

(** What [upsertUser] stores besides the supplied fields.  For a known openId
    it never changes id, createdAt or updatedAt, and the last sign-in becomes
    the supplied time, or the current time when the call carries nothing at
    all (no field, no role, not an owner), and otherwise stays.  For a new
    openId the last sign-in is the supplied time unless that is 0 or missing,
    then the current time, and both creation stamps are the store's default. *)
Theorem upsertUser_stamps (env : Env) (user : InsertUser) (now : Z)
    (w : World) (s : Store) :
  _db w = Some s ->
  iu_openId user <> EmptyString ->
  let carries_nothing :=
    negb (is_some (iu_name user) || is_some (iu_email user)
          || is_some (iu_avatarUrl user) || is_some (iu_loginMethod user)
          || is_some (iu_lastSignedIn user) || is_some (iu_role user)
          || includes (ownerOpenIds env) (iu_openId user)) in
  exists (s' : Store) (u : User),
    upsertUser env user now w = (Ok tt, settled s')
    /\ fst (getUserByOpenId (iu_openId user) (settled s')) = Ok (Some u)
    /\ match fst (getUserByOpenId (iu_openId user) w) with
       | Ok (Some u0) =>
         users_id u = users_id u0
         /\ users_createdAt u = users_createdAt u0
         /\ users_updatedAt u = users_updatedAt u0
         /\ users_lastSignedIn u
            = match iu_lastSignedIn user with
              | Some t => t
              | None => if carries_nothing then now else users_lastSignedIn u0
              end
       | _ =>
         users_createdAt u = nowMs now
         /\ users_updatedAt u = nowMs now
         /\ users_lastSignedIn u
            = match iu_lastSignedIn user with
              | Some t => if t =? 0 then now else t
              | None => now
              end
         /\ forall u0, In u0 (users s) -> users_id u0 < users_id u
       end.
Proof.
  intros H Hopen carries_nothing. unfold upsertUser.
  rewrite (truthy_nonempty _ Hopen). cbn [negb].
  rewrite (getDb_initialised w s H).
  unfold getUserByOpenId at 2. rewrite (getDb_initialised w s H).
  destruct (migrated_tables w s) as (_ & Hu & _).
  destruct (migrated_seqs w s) as (Hseq & _).
  set (o := iu_openId user) in *.
  set (role := match iu_role user with
               | Some r => Some r
               | None => if includes (ownerOpenIds env) o then Some RoleAdmin else None
               end).
  set (assigned := mkUserFields (iu_name user) (iu_email user) (iu_avatarUrl user)
                                (iu_loginMethod user) (iu_lastSignedIn user) role).
  assert (Hbare : no_keys assigned = carries_nothing).
  { unfold no_keys, carries_nothing, assigned, role. cbn [uf_name uf_email uf_avatarUrl
      uf_loginMethod uf_lastSignedIn uf_role]. f_equal.
    destruct (iu_role user); cbn [is_some]; rewrite ?orb_true_r, ?orb_false_r;
      [reflexivity|].
    destruct (includes (ownerOpenIds env) o); cbn [is_some];
      rewrite ?orb_true_r, ?orb_false_r; reflexivity. }
  unfold upsert_users. rewrite Hu, Hseq. cbn [fst].
  destruct (existsb (fun u0 => String.eqb (users_openId u0) o) (users s)) eqn:E.
  - set (g := fun u0 => if String.eqb (users_openId u0) o
                        then apply_updateSet
                               (if no_keys assigned
                                then mkUserFields None None None None (Some now) None
                                else assigned) u0
                        else u0).
    assert (Hgo : forall u0, String.eqb (users_openId (g u0)) o
                             = String.eqb (users_openId u0) o).
    { intros u0. unfold g. destruct (String.eqb (users_openId u0) o) eqn:Eo;
        cbn [users_openId apply_updateSet]; exact Eo. }
    destruct (first_row_some_of_existsb _ _ E) as (u0 & Hfirst).
    pose proof (first_row_found _ _ _ Hfirst) as [_ Ho0].
    eexists. eexists. split; [reflexivity|]. rewrite getUserByOpenId_settled.
    cbn [fst users with_users]. fold g.
    rewrite (first_row_filter_map (fun u0 => String.eqb (users_openId u0) o) g _ Hgo).
    rewrite Hfirst. cbn [option_map]. split; [reflexivity|].
    unfold g. rewrite Ho0.
    cbn [users_id users_createdAt users_updatedAt users_lastSignedIn apply_updateSet].
    rewrite updateSet_lastSignedIn, Hbare. cbn [uf_lastSignedIn assigned].
    repeat split.
    destruct (iu_lastSignedIn user), carries_nothing; reflexivity.
  - assert (Hnone : forall u0, In u0 (users s) -> String.eqb (users_openId u0) o = false).
    { intros u0 Hin. destruct (String.eqb (users_openId u0) o) eqn:Eo; [|reflexivity].
      assert (existsb (fun u0 => String.eqb (users_openId u0) o) (users s) = true)
        by (apply existsb_exists; eauto).
      congruence. }
    rewrite (filter_none _ _ Hnone). cbn [first_row firstn hd_error].
    eexists. eexists. split; [reflexivity|]. rewrite getUserByOpenId_settled.
    cbn [fst users with_users].
    rewrite filter_place_only;
      [|cbn [users_openId row_of_values]; apply String.eqb_refl | exact Hnone].
    split; [reflexivity|].
    cbn [users_id users_createdAt users_updatedAt users_lastSignedIn row_of_values
         uf_lastSignedIn assigned orElse].
    repeat split.
    + destruct (iu_lastSignedIn user) as [t|]; [|reflexivity].
      destruct (t =? 0); reflexivity.
    + intros u0 Hin. apply (in_map users_id), max_id_ge in Hin. lia.
Qed.

Lemma upsertUser_stamps_witness :
  _db world_carol = Some store_carol
  /\ iu_openId (bare_sign_in "carol") <> EmptyString
  /\ fst (getUserByOpenId "carol"
            (snd (upsertUser env_none (bare_sign_in "carol") 9000 world_carol)))
     = Ok (Some (mkUser 1 "carol" (Some "Carol") None None None RoleAdmin
                        1000 1000 9000))
  /\ exists (s' : Store) (u : User),
       upsertUser env_none (bare_sign_in "carol") 9000 world_carol = (Ok tt, settled s')
       /\ fst (getUserByOpenId "carol" (settled s')) = Ok (Some u).
Proof.
  split; [reflexivity|]. split; [discriminate|]. split; [reflexivity|].
  destruct (upsertUser_stamps env_none (bare_sign_in "carol") 9000 world_carol
              store_carol eq_refl ltac:(discriminate)) as (s' & u & Hrun & Hread & _).
  exists s', u. split; assumption.
Defined.

Lemma getUserPublicById_run (userId : Z) (w : World) (s : Store) :
  _db w = Some s ->
  getUserPublicById userId w
  = (Ok (first_row
           (map (fun u => mkUserPublic (users_id u) (users_name u)
                                       (users_avatarUrl u) (users_createdAt u))
                (filter (fun u => users_id u =? userId) (users s)))),
     settled (migrated w s)).
Proof.
  intros H. unfold getUserPublicById. rewrite (getDb_initialised w s H).
  destruct (migrated_tables w s) as (_ & Hu & _). now rewrite Hu.
Qed.

Lemma first_row_map {A B : Type} (f : A -> B) (l : list A) :
  first_row (map f l) = option_map f (first_row l).
Proof. destruct l; reflexivity. Qed.

(** [updateUserName] answers [false] without a database and [true] with one,
    whether or not a user has the id.  The public profile of the user then
    shows the new name and is otherwise as before; role, openId and every
    other user are untouched. *)
Theorem updateUserName_outcome (userId : Z) (name : string) (now : Z) (w : World) :
  (_db w = None -> updateUserName userId name now w = (Ok false, w))
  /\ forall s, _db w = Some s ->
       exists s' : Store,
         updateUserName userId name now w = (Ok true, settled s')
         /\ fst (getUserPublicById userId (settled s'))
            = match fst (getUserPublicById userId w) with
              | Ok (Some p) =>
                Ok (Some (mkUserPublic (up_id p) (Some name) (up_avatarUrl p)
                                       (up_createdAt p)))
              | other => other
              end
         /\ map users_role (users s') = map users_role (users s)
         /\ map users_openId (users s') = map users_openId (users s)
         /\ (forall u, In u (users s) -> users_id u <> userId -> In u (users s'))
         /\ (forall u', In u' (users s') -> users_id u' = userId ->
                        users_name u' = Some name /\ users_updatedAt u' = now).
Proof.
  split.
  - intros Hdown. unfold updateUserName. now rewrite (getDb_uninitialised w Hdown).
  - intros s H. unfold updateUserName. rewrite (getDb_initialised w s H).
    destruct (migrated_tables w s) as (_ & Hu & _).
    set (g := fun u => if users_id u =? userId then rename_user name now u else u).
    assert (Hgid : forall u, (users_id (g u) =? userId) = (users_id u =? userId)).
    { intros u. unfold g.
      destruct (users_id u =? userId) eqn:E; cbn [users_id rename_user]; exact E. }
    eexists. split; [reflexivity|]. cbn [users with_users]. rewrite Hu. fold g.
    split; [|split; [|split; [|split]]].
    + rewrite (getUserPublicById_run userId (settled _) _ eq_refl),
        (getUserPublicById_run userId w s H).
      cbn [fst users with_users].
      rewrite !first_row_map.
      rewrite (first_row_filter_map (fun u => users_id u =? userId) g _ Hgid).
      destruct (first_row _) as [u|] eqn:Efirst; [|reflexivity].
      apply first_row_found in Efirst. destruct Efirst as [_ Hid].
      cbn [option_map]. unfold g. rewrite Hid. reflexivity.
    + rewrite map_map. apply map_ext. intros u. unfold g.
      now destruct (users_id u =? userId).
    + rewrite map_map. apply map_ext. intros u. unfold g.
      now destruct (users_id u =? userId).
    + intros u Hin Hne. apply in_map_iff. exists u. split; [|assumption].
      unfold g. now rewrite (proj2 (Z.eqb_neq _ _) Hne).
    + intros u' Hin Hid. apply in_map_iff in Hin. destruct Hin as (u & <- & _).
      unfold g in *. destruct (Z.eqb_spec (users_id u) userId) as [Heq|Hne].
      * split; reflexivity.
      * contradiction.
Qed.

Lemma updateUserName_outcome_witness :
  _db world_full = Some store_full
  /\ exists s' : Store,
       updateUserName 2 "Robert" 9000 world_full = (Ok true, settled s')
       /\ fst (getUserPublicById 2 (settled s'))
          = Ok (Some (mkUserPublic 2 (Some "Robert") None 2000)).
Proof.
  split; [reflexivity|].
  destruct (proj2 (updateUserName_outcome 2 "Robert" 9000 world_full)
              store_full eq_refl) as (s' & Hrun & Hread & _).
  exists s'. split; [exact Hrun | exact Hread].
Defined.

(** ** The handle *)



(** * The owner allow-list *)



















(** * Further properties of the pages *)

(** ** Counters and filters *)

Lemma questCounts_acc (l : list QuestPage.QuestStatus) (c : QuestPage.QuestCounts)
    (f : QuestPage.QuestFilter) :
  questCount_of (fold_left QuestPage.bump l c) f
  = questCount_of c f
    + match f with
      | QuestPage.all => 0
      | QuestPage.only st =>
        Z.of_nat (List.length (filter (fun x => QuestPage.QuestStatus_eqb x st) l))
      end.
Proof.
  revert c. induction l as [|x l IH]; intros c; cbn [fold_left filter].
  - destruct f; cbn; lia.
  - rewrite IH. destruct f as [|st]; [destruct x; cbn; lia|].
    destruct x, st; cbn; lia.
Qed.

Lemma filter_everything {A : Type} (p : A -> bool) (l : list A) :
  (forall x, p x = true) -> filter p l = l.
Proof.
  intros Hp. induction l as [|x l IH]; [reflexivity|].
  cbn [filter]. now rewrite Hp, IH.
Qed.

(** The counters of the quest page add up: the four status counters sum to
    the total, and with an empty search box each counter is the number of
    entries its filter shows. *)
Theorem questCounts_match_filters (quests : list QuestListRow) :
  let c := QuestPage.questCounts quests in
  QuestPage.count_all c = Z.of_nat (List.length quests)
  /\ QuestPage.count_open c + QuestPage.count_finished c
     + QuestPage.count_suspended c + QuestPage.count_unsolved c
     = QuestPage.count_all c
  /\ forall f, questCount_of c f
               = Z.of_nat (List.length (QuestPage.filteredQuests no_search f quests)).
Proof.
  intros c.
  assert (Hf : forall f, questCount_of c f
                         = Z.of_nat (List.length
                                       (QuestPage.filteredQuests no_search f quests))).
  { intros f. unfold c, QuestPage.questCounts. rewrite questCounts_fold, questCounts_acc.
    unfold QuestPage.filteredQuests, QuestPage.matchesFilter, no_search.
    destruct f as [|st].
    - cbn [questCount_of QuestPage.count_all]. rewrite Z.add_0_r.
      now rewrite filter_everything.
    - replace (questCount_of (QuestPage.mkQuestCounts (Z.of_nat (List.length quests))
                                                      0 0 0 0)
                             (QuestPage.only st)) with 0 by (destruct st; reflexivity).
      cbn [Z.add]. f_equal.
      induction quests as [|q l IH]; [reflexivity|]. cbn [map filter].
      rewrite andb_true_r.
      destruct (QuestPage.QuestStatus_eqb _ st); cbn [List.length]; now rewrite IH. }
  assert (Hall : QuestPage.count_all c = Z.of_nat (List.length quests)).
  { change (QuestPage.count_all c) with (questCount_of c QuestPage.all).
    rewrite (Hf QuestPage.all). unfold QuestPage.filteredQuests.
    now rewrite filter_everything. }
  split; [exact Hall|]. split; [|exact Hf].
  rewrite Hall.
  pose proof (Hf (QuestPage.only QuestPage.open)) as Ho.
  pose proof (Hf (QuestPage.only QuestPage.finished)) as Hfi.
  pose proof (Hf (QuestPage.only QuestPage.suspended)) as Hsu.
  pose proof (Hf (QuestPage.only QuestPage.unsolved)) as Hun.
  cbn [questCount_of] in Ho, Hfi, Hsu, Hun. rewrite Ho, Hfi, Hsu, Hun.
  unfold QuestPage.filteredQuests, QuestPage.matchesFilter, no_search.
  clear. induction quests as [|q l IH]; [reflexivity|].
  cbn [filter List.length]. rewrite !andb_true_r.
  destruct (QuestPage.normalizeQuestStatus (Some (quests_status (ql_quest q))));
    cbn [QuestPage.QuestStatus_eqb List.length]; lia.
Qed.

Lemma categoryCounts_acc (l : list HomeView.Case) (c : HomeView.Counts)
    (f : HomeView.Filter) :
  HomeView.count_of (fold_left HomeView.count_case l c) f
  = HomeView.count_of c f
    + match f with
      | HomeView.all => 0
      | _ => Z.of_nat (List.length (HomeView.filteredCases (fun _ => true) f l))
      end.
Proof.
  revert c. induction l as [|x l IH]; intros c.
  - destruct f; cbn; lia.
  - cbn [fold_left]. rewrite IH. unfold HomeView.filteredCases. cbn [filter andb].
    unfold HomeView.count_case.
    destruct f as [| |k].
    + destruct (HomeView.case_category x), (HomeView.case_isFavorite x); cbn; lia.
    + destruct (HomeView.case_category x), (HomeView.case_isFavorite x);
        cbn [HomeView.count_of HomeView.n_liked List.length]; lia.
    + destruct (HomeView.case_category x), (HomeView.case_isFavorite x), k;
        cbn [HomeView.count_of HomeView.n_prompt HomeView.n_automation HomeView.n_tools
             HomeView.n_business HomeView.Category_eqb List.length]; lia.
Qed.

(** The counters of the home page: the four category counters sum to the
    total, and with a search box that matches everything each counter,
    favourites included, is the number of cases its tab shows. *)
Theorem categoryCounts_match_tabs (cases : list HomeView.Case) :
  let c := HomeView.categoryCounts cases in
  HomeView.n_prompt c + HomeView.n_automation c + HomeView.n_tools c
  + HomeView.n_business c = HomeView.n_all c
  /\ forall f, HomeView.count_of c f
               = Z.of_nat (List.length
                             (HomeView.filteredCases (fun _ => true) f cases)).
Proof.
  intros c.
  assert (Hf : forall f, HomeView.count_of c f
                         = Z.of_nat (List.length
                                       (HomeView.filteredCases (fun _ => true) f cases))).
  { intros f. unfold c, HomeView.categoryCounts. rewrite categoryCounts_acc.
    destruct f as [| |k].
    - cbn [HomeView.count_of HomeView.n_all]. rewrite Z.add_0_r.
      unfold HomeView.filteredCases. now rewrite filter_everything.
    - reflexivity.
    - destruct k; reflexivity. }
  split; [|exact Hf].
  pose proof (Hf HomeView.all) as Ha.
  pose proof (Hf (HomeView.only prompt)) as Hp.
  pose proof (Hf (HomeView.only automation)) as Hau.
  pose proof (Hf (HomeView.only tools)) as Ht.
  pose proof (Hf (HomeView.only business)) as Hb.
  cbn [HomeView.count_of] in Ha, Hp, Hau, Ht, Hb. rewrite Ha, Hp, Hau, Ht, Hb.
  unfold HomeView.filteredCases. cbn [andb]. clear.
  induction cases as [|x l IH]; [reflexivity|].
  cbn [filter List.length].
  destruct (HomeView.case_category x); cbn [HomeView.Category_eqb List.length]; lia.
Qed.

(** ** The close dialog *)

(** The Confirm button and its handler agree: for the owner of a selected
    quest the handler sends the request exactly when the button is enabled,
    and what it sends is the selected quest, the chosen outcome, and a
    solving answer exactly when the outcome is "finished". *)
Theorem confirm_button_guards_handler (Number : string -> Z) (selectedQuestId : Z)
    (answers : list QuestAnswerRow) (st : QuestBoard.DialogState) :
  selectedQuestId <> 0 ->
  (QuestBoard.confirmDisabled false answers st = false ->
   QuestPage.handleConfirmCloseQuest Number (Some selectedQuestId) true
     (QuestBoard.closeOutcome st) answers (QuestBoard.selectedSolvedAnswerId st)
   = QuestPage.Mutate
       (QuestPage.mkCloseInput selectedQuestId (QuestBoard.closeOutcome st)
          (if QuestPage.is_Finished (QuestBoard.closeOutcome st)
           then Some (Number (QuestBoard.selectedSolvedAnswerId st)) else None)))
  /\ (QuestBoard.confirmDisabled false answers st = true ->
      exists message,
        QuestPage.handleConfirmCloseQuest Number (Some selectedQuestId) true
          (QuestBoard.closeOutcome st) answers (QuestBoard.selectedSolvedAnswerId st)
        = QuestPage.ToastError message)
  /\ (forall owner, QuestPage.handleConfirmCloseQuest Number None owner
                      (QuestBoard.closeOutcome st) answers
                      (QuestBoard.selectedSolvedAnswerId st) = QuestPage.Nothing)
  /\ QuestPage.handleConfirmCloseQuest Number (Some selectedQuestId) false
       (QuestBoard.closeOutcome st) answers (QuestBoard.selectedSolvedAnswerId st)
     = QuestPage.Nothing.
Proof.
  intros Hid. apply Z.eqb_neq in Hid.
  unfold QuestBoard.confirmDisabled, QuestPage.handleConfirmCloseQuest.
  rewrite Hid. cbn [orb negb].
  destruct (QuestPage.is_Finished (QuestBoard.closeOutcome st));
    destruct (Nat.eqb (List.length answers) 0);
    destruct (truthy (QuestBoard.selectedSolvedAnswerId st));
    cbn [andb orb negb]; repeat split; try discriminate; eauto.
Qed.

Lemma confirm_button_guards_handler_witness :
  1 <> 0
  /\ QuestPage.handleConfirmCloseQuest (fun _ => 7) (Some 1) true Unsolved []
       EmptyString
     = QuestPage.Mutate (QuestPage.mkCloseInput 1 Unsolved None).
Proof.
  split; [discriminate|].
  apply (confirm_button_guards_handler (fun _ => 7) 1 []
           (QuestBoard.mkDialogState Unsolved EmptyString)); [discriminate | reflexivity].
Defined.

(** The effects of the close dialog.  Once the outcome effect has run,
    "finished" is chosen only while there are answers, so the handler's toast
    about a quest without answers cannot come up.  Opening the dialog on a
    quest that has a solving answer preselects it; on one without it clears
    the selection, offers "finished" exactly when there are answers, and then
    Confirm stays disabled until a solving answer is chosen. *)
Theorem dialog_effects (String_ : Z -> string) (Number : string -> Z)
    (answers : list QuestAnswerRow) (st : QuestBoard.DialogState) :
  (QuestPage.is_Finished (QuestBoard.closeOutcome (QuestBoard.outcome_effect answers st))
   = true -> answers <> [])
  /\ QuestBoard.outcome_effect answers (QuestBoard.outcome_effect answers st)
     = QuestBoard.outcome_effect answers st
  /\ (forall selectedQuestId owner,
        QuestPage.handleConfirmCloseQuest Number selectedQuestId owner
          (QuestBoard.closeOutcome (QuestBoard.outcome_effect answers st)) answers
          (QuestBoard.selectedSolvedAnswerId (QuestBoard.outcome_effect answers st))
        <> QuestPage.ToastError "Cannot mark as finished without any answers.")
  /\ (forall solvedAnswerId,
        QuestBoard.dialog_effect String_ false solvedAnswerId answers st = st)
  /\ (forall id, id <> 0 ->
        QuestBoard.dialog_effect String_ true (Some id) answers st
        = QuestBoard.mkDialogState Finished (String_ id))
  /\ (forall solvedAnswerId,
        solvedAnswerId = None \/ solvedAnswerId = Some 0 ->
        let opened := QuestBoard.dialog_effect String_ true solvedAnswerId answers st in
        QuestBoard.selectedSolvedAnswerId opened = EmptyString
        /\ (QuestPage.is_Finished (QuestBoard.closeOutcome opened) = true
            <-> answers <> [])
        /\ QuestBoard.outcome_effect answers opened = opened
        /\ QuestBoard.confirmDisabled false answers opened
           = QuestPage.is_Finished (QuestBoard.closeOutcome opened)).
Proof.
  destruct st as [outcome selected].
  split; [|split; [|split; [|split; [|split]]]].
  - unfold QuestBoard.outcome_effect. cbn [QuestBoard.closeOutcome].
    destruct (QuestPage.is_Finished outcome) eqn:Ef, answers as [|a l];
      cbn; congruence.
  - unfold QuestBoard.outcome_effect.
    cbn [QuestBoard.closeOutcome QuestBoard.selectedSolvedAnswerId].
    destruct (QuestPage.is_Finished outcome) eqn:Ef, answers as [|a l];
      cbn; rewrite ?Ef; reflexivity.
  - intros selectedQuestId owner.
    unfold QuestBoard.outcome_effect, QuestPage.handleConfirmCloseQuest.
    cbn [QuestBoard.closeOutcome QuestBoard.selectedSolvedAnswerId].
    destruct selectedQuestId as [id|]; [|discriminate].
    destruct ((id =? 0) || negb owner); [discriminate|].
    destruct (QuestPage.is_Finished outcome) eqn:Ef, answers as [|a l];
      cbn; rewrite ?Ef; cbn;
      try destruct (truthy selected); try discriminate.
  - reflexivity.
  - intros id Hid. unfold QuestBoard.dialog_effect. cbn [negb].
    now rewrite (proj2 (Z.eqb_neq _ _) Hid).
  - intros solvedAnswerId Hnone opened. subst opened.
    unfold QuestBoard.dialog_effect, QuestBoard.outcome_effect,
      QuestBoard.confirmDisabled.
    destruct Hnone as [-> | ->]; cbn [negb Z.eqb];
      destruct answers as [|a l]; cbn; repeat split; congruence.
Qed.

(** The effect that keeps a quest selected: afterwards nothing is selected
    exactly when the list is empty, otherwise the selected id is the id of a
    listed quest; a selection that is listed and not 0 is kept; and running
    the effect again changes nothing. *)
Theorem selection_effect_selects_listed (quests : list QuestListRow)
    (selectedQuestId : option Z) :
  (QuestBoard.selection_effect quests selectedQuestId = None <-> quests = [])
  /\ (forall id, QuestBoard.selection_effect quests selectedQuestId = Some id ->
                 exists quest, In quest quests /\ quests_id (ql_quest quest) = id)
  /\ (forall id quest, selectedQuestId = Some id -> id <> 0 -> In quest quests ->
                       quests_id (ql_quest quest) = id ->
                       QuestBoard.selection_effect quests selectedQuestId = Some id)
  /\ QuestBoard.selection_effect quests
       (QuestBoard.selection_effect quests selectedQuestId)
     = QuestBoard.selection_effect quests selectedQuestId.
Proof.
  unfold QuestBoard.selection_effect.
  destruct quests as [|first rest].
  - repeat split; try discriminate. intros id quest _ _ [].
  - set (quests := first :: rest).
    assert (Hlisted : forall id,
               existsb (fun quest => quests_id (ql_quest quest) =? id) quests = true <->
               exists quest, In quest quests /\ quests_id (ql_quest quest) = id).
    { intros id. rewrite existsb_exists. split; intros (q & Hin & Hq); exists q;
        (split; [assumption|]); now apply Z.eqb_eq. }
    assert (Hfirst : exists quest, In quest quests
                                   /\ quests_id (ql_quest quest)
                                      = quests_id (ql_quest first))
      by (exists first; split; [now left | reflexivity]).
    split; [|split; [|split]].
    + split; [|discriminate].
      destruct selectedQuestId as [id|]; [|discriminate].
      destruct ((id =? 0) || negb _); discriminate.
    + intros id. destruct selectedQuestId as [sel|].
      * destruct (sel =? 0); cbn [orb].
        -- intros Heq. inversion Heq; subst. exact Hfirst.
        -- destruct (existsb _ quests) eqn:E; cbn [negb]; intros Heq;
             inversion Heq; subst; [now apply Hlisted | exact Hfirst].
      * intros Heq. inversion Heq; subst. exact Hfirst.
    + intros id quest -> Hid Hin Hq. rewrite (proj2 (Z.eqb_neq _ _) Hid). cbn [orb].
      assert (E : existsb (fun quest => quests_id (ql_quest quest) =? id) quests = true)
        by (apply Hlisted; eauto).
      now rewrite E.
    + assert (Hkeep : forall id,
                 id = quests_id (ql_quest first)
                 \/ ((id =? 0) = false
                     /\ existsb (fun quest => quests_id (ql_quest quest) =? id) quests
                        = true) ->
                 (if (id =? 0)
                     || negb (existsb (fun quest => quests_id (ql_quest quest) =? id)
                                      quests)
                  then Some (quests_id (ql_quest first)) else Some id) = Some id).
      { intros id [-> | [H0 Hl]].
        - destruct (_ || _); reflexivity.
        - now rewrite H0, Hl. }
      destruct selectedQuestId as [sel|]; [|apply Hkeep; now left].
      destruct (sel =? 0) eqn:E0; cbn [orb]; [apply Hkeep; now left|].
      destruct (existsb _ quests) eqn:El; cbn [negb]; apply Hkeep; auto.
Qed.

(** ** Forms *)

Lemma trimStart_blank (s : string) : trimStart s = EmptyString <-> blank s = true.
Proof.
  induction s as [|c s IH]; cbn [trimStart blank]; [tauto|].
  destruct (is_space c); cbn [andb]; [exact IH|]. split; discriminate.
Qed.







(** ** Who may do what on the home page *)

(** The four permission flags of the selected case study.  Editing needs
    managing, managing allows deleting; an author never sees the report
    button on their own post; an administrator who is not the author may
    delete but neither manage nor edit; a visitor who is not signed in can
    only be offered the report button, and clicking it leads to the login
    page; for a signed-in visitor an offered report button sends the
    report. *)
Theorem home_permissions (selectedCase : option HomeView.Case)
    (user : option HomeView.Viewer) :
  (HomeView.canEditSelected selectedCase user = true ->
   HomeView.canManageSelected selectedCase user = true)
  /\ (HomeView.canManageSelected selectedCase user = true ->
      HomeView.canDeleteSelected selectedCase user = true
      /\ HomeView.canReportSelected selectedCase user = false)
  /\ (forall c u, selectedCase = Some c -> user = Some u ->
        HomeView.case_userId c <> HomeView.viewer_id u ->
        HomeView.canManageSelected selectedCase user = false
        /\ HomeView.canEditSelected selectedCase user = false
        /\ HomeView.canDeleteSelected selectedCase user
           = HomeView.is_admin (HomeView.viewer_role u)
        /\ HomeView.canReportSelected selectedCase user
           = negb (HomeView.case_isReported c))
  /\ (user = None ->
      HomeView.canManageSelected selectedCase user = false
      /\ HomeView.canEditSelected selectedCase user = false
      /\ HomeView.canDeleteSelected selectedCase user = false
      /\ forall c, selectedCase = Some c ->
           HomeView.canReportSelected selectedCase user
           = negb (HomeView.case_isReported c)
           /\ HomePage.handleReportCase false None (HomeView.case_id c)
                (HomeView.case_userId c) = HomePage.RedirectToLogin)
  /\ (forall c u, selectedCase = Some c -> user = Some u ->
        HomeView.canReportSelected selectedCase user = true ->
        HomePage.handleReportCase true (Some (HomeView.viewer_id u))
          (HomeView.case_id c) (HomeView.case_userId c)
        = HomePage.Mutate (HomeView.case_id c)).
Proof.
  unfold HomeView.canEditSelected, HomeView.canManageSelected,
    HomeView.canDeleteSelected, HomeView.canReportSelected,
    HomePage.handleReportCase.
  split; [|split; [|split; [|split]]].
  - intros H. now apply andb_true_iff in H.
  - destruct selectedCase as [c|], user as [u|]; try discriminate.
    intros ->. cbn [orb negb andb]. split; reflexivity.
  - intros c u -> -> Hne. apply Z.eqb_neq in Hne. rewrite Hne.
    cbn [orb negb andb]. repeat split.
  - intros ->. split; [|split; [|split]];
      try (destruct selectedCase; reflexivity).
    intros c ->. cbn [negb andb]. split; reflexivity.
  - intros c u -> -> H. cbn [negb]. apply andb_true_iff in H. destruct H as [H _].
    apply negb_true_iff in H. rewrite Z.eqb_sym in H. now rewrite H.
Qed.

(** ** What a user posted and reported *)

Lemma filter_perm {A : Type} (p : A -> bool) (l l' : list A) :
  Permutation l l' -> Permutation (filter p l) (filter p l').
Proof.
  induction 1 as [|x l l' _ IH|x y l|l l' l'' _ IH1 _ IH2]; cbn [filter].
  - constructor.
  - destruct (p x); [now constructor | exact IH].
  - destruct (p x), (p y); try apply Permutation_refl. apply perm_swap.
  - eapply perm_trans; eassumption.
Qed.

Lemma filter_has {A : Type} (p : A -> bool) (l : list A) (x : A) :
  In x l -> p x = true -> (1 <= List.length (filter p l))%nat.
Proof.
  intros Hin Hp. assert (H : In x (filter p l)) by (apply filter_In; auto).
  destruct (filter p l); [destruct H | cbn [List.length]; lia].
Qed.

Lemma reported_ids_NoDup (u : Z) (l : list Report) :
  (forall c, (List.length (filter (report_of u c) l) <= 1)%nat) ->
  NoDup (map reports_caseStudyId (filter (fun r => reports_userId r =? u) l)).
Proof.
  induction l as [|a l IH]; intros Hu; [constructor|].
  assert (Hl : forall c, (List.length (filter (report_of u c) l) <= 1)%nat).
  { intros c. specialize (Hu c). cbn [filter] in Hu.
    destruct (report_of u c a); cbn [List.length] in Hu; lia. }
  cbn [filter]. destruct (reports_userId a =? u) eqn:Ea; [|auto].
  cbn [map]. constructor; [|auto].
  intros Hin. apply in_map_iff in Hin. destruct Hin as (r & Hc & Hr).
  apply filter_In in Hr. destruct Hr as [Hr Hru].
  specialize (Hu (reports_caseStudyId a)). cbn [filter] in Hu.
  assert (Haa : report_of u (reports_caseStudyId a) a = true)
    by (unfold report_of; now rewrite Ea, Z.eqb_refl).
  rewrite Haa in Hu. cbn [List.length] in Hu.
  assert (Hrr : report_of u (reports_caseStudyId a) r = true).
  { unfold report_of. rewrite Hru, Hc. now rewrite Z.eqb_refl. }
  pose proof (filter_has _ l r Hr Hrr). lia.
Qed.

(** [getUserCaseStudies] lists exactly the case studies the user posted,
    oldest first.  [getUserReportedCaseStudyIds] lists exactly the case
    studies the user has reported, each once under the unique index of
    reports; a report that [createReport] accepts adds its case study, which
    was not listed before, and nothing else. *)
Theorem posted_and_reported (userId : Z) (w : World) (s : Store) :
  _db w = Some s ->
  reports_unique s ->
  exists posts ids,
    getUserCaseStudies userId w = (Ok posts, settled (migrated w s))
    /\ getUserReportedCaseStudyIds userId w = (Ok ids, settled (migrated w s))
    /\ StronglySorted (fun a b => caseStudies_createdAt a <= caseStudies_createdAt b)
                      posts
    /\ Permutation (filter (fun c => caseStudies_userId c =? userId) (caseStudies s))
                   posts
    /\ (forall c, In c posts <-> In c (caseStudies s) /\ caseStudies_userId c = userId)
    /\ (forall c, In c ids <->
                  exists r, In r (reports s) /\ reports_userId r = userId
                            /\ reports_caseStudyId r = c)
    /\ NoDup ids
    /\ (forall data now,
          irp_userId data = userId ->
          fst (createReport data now w) = Ok (mkCreateReportResult true) ->
          ~ In (irp_caseStudyId data) ids
          /\ exists ids',
               fst (getUserReportedCaseStudyIds userId
                      (snd (createReport data now w))) = Ok ids'
               /\ Permutation (irp_caseStudyId data :: ids) ids').
Proof.
  intros H Huniq.
  destruct (migrated_tables w s) as (_ & _ & Hc & _ & Hr & _).
  unfold getUserCaseStudies, getUserReportedCaseStudyIds at 1.
  rewrite (getDb_initialised w s H). rewrite Hc, Hr.
  do 2 eexists. split; [reflexivity|]. split; [reflexivity|].
  assert (Hids : forall c,
             In c (map reports_caseStudyId
                       (filter (fun r => reports_userId r =? userId) (reports s))) <->
             exists r, In r (reports s) /\ reports_userId r = userId
                       /\ reports_caseStudyId r = c).
  { intros c. rewrite in_map_iff. split.
    - intros (r & Hrc & Hin). apply filter_In in Hin. destruct Hin as [Hin Hu].
      apply Z.eqb_eq in Hu. eauto.
    - intros (r & Hin & Hu & Hrc). exists r. split; [assumption|].
      apply filter_In. split; [assumption | now apply Z.eqb_eq]. }
  split; [|split; [|split; [|split; [|split]]]].
  - apply asc_sorted.
  - apply orderBy_perm.
  - intros c. rewrite In_orderBy, filter_In, Z.eqb_eq. tauto.
  - exact Hids.
  - apply reported_ids_NoDup. exact (Huniq userId).
  - intros data now Hu Hrun. unfold createReport in *.
    rewrite (getDb_initialised w s H) in *.
    destruct (insert_reports (migrated w s) data now) as [s'|e] eqn:Eins;
      [|discriminate]. clear Hrun.
    unfold insert_reports in Eins. rewrite Hr in Eins.
    destruct (new_rowid _ _ _) as [i|e]; [|discriminate].
    destruct (existsb _ (reports s)) eqn:Epair; [discriminate|].
    destruct (_ && _); [|discriminate].
    inversion Eins; subst s'. clear Eins. split.
    + intros Hin. apply Hids in Hin. destruct Hin as (r & Hin & Hru & Hrc).
      assert (E : existsb (fun r => same_pair (irp_userId data) (irp_caseStudyId data)
                                      (reports_userId r) (reports_caseStudyId r))
                          (reports s) = true).
      { apply existsb_exists. exists r. split; [assumption|].
        unfold same_pair. rewrite Hru, Hrc, Hu. now rewrite !Z.eqb_refl. }
      congruence.
    + cbn [snd]. set (s' := with_reports _ _ _).
      change (with_db (settled (migrated w s)) s') with (settled s').
      unfold getUserReportedCaseStudyIds.
      rewrite (getDb_initialised (settled s') s' eq_refl), migrated_settled.
      eexists. split; [reflexivity|]. subst s'. cbn [reports with_reports].
      eapply perm_trans;
        [|apply Permutation_map, filter_perm, place_perm].
      cbn [filter reports_userId]. rewrite Hu, Z.eqb_refl. cbn [map reports_caseStudyId].
      apply Permutation_refl.
Qed.

Lemma posted_and_reported_witness :
  _db world_full = Some store_full
  /\ exists posts ids,
       getUserCaseStudies 1 world_full = (Ok posts, settled (migrated world_full store_full))
       /\ getUserReportedCaseStudyIds 2 world_full
          = (Ok ids, settled (migrated world_full store_full))
       /\ posts = [post_of 1 1 5000; post_of 2 1 6000]
       /\ ids = [1].
Proof.
  split; [reflexivity|].
  assert (Huniq : reports_unique store_full).
  { intros u c. cbn. destruct (report_of u c _); cbn; lia. }
  destruct (posted_and_reported 1 world_full store_full eq_refl Huniq)
    as (posts & _ & Hposts & _).
  destruct (posted_and_reported 2 world_full store_full eq_refl Huniq)
    as (_ & ids & _ & Hids & _).
  exists posts, ids. split; [exact Hposts|]. split; [exact Hids|].
  split.
  - assert (E : fst (getUserCaseStudies 1 world_full)
                = Ok [post_of 1 1 5000; post_of 2 1 6000]) by reflexivity.
    rewrite Hposts in E. cbn [fst] in E. congruence.
  - assert (E : fst (getUserReportedCaseStudyIds 2 world_full) = Ok [1])
      by reflexivity.
    rewrite Hids in E. cbn [fst] in E. congruence.
Defined.
